(** * OpenDataCubeProvider: a shallow embedding of [odcprovider/odcprovider.py]

    The provider maps an OGC coverage collection onto an Open Data Cube
    product.  Its constructor normalises the catalogue metadata into a
    coverage description and a measurement list; [query] resolves a spatial
    window, loads the data through the datacube handle and encodes the
    result as CoverageJSON, GeoTIFF bytes or NetCDF bytes.

    Conventions of the embedding.
    - Python numbers of the geometry (bounds, resolutions, window corners,
      cell values) are an abstract type [num] with the operations the source
      applies to them ([-], [/], [abs]); the development is parametric in
      them, so nothing proved here depends on rounding.
    - An exception is a value of [exn]; fallible code returns [result].
    - [query] calls out to the datacube, to rasterio and to xarray's NetCDF
      writer.  Those calls are fields of a handle or of the class [Libs];
      each call is recorded in an event log threaded through the [io] monad.
    - Calls to [LOGGER] have no effect on any result and are left out. *)

From Stdlib Require Import String Ascii List ZArith Bool Lia DecimalString.
From Stdlib Require Import QArith Qabs Qreduction.
Import ListNotations.
Local Open Scope string_scope.
Local Open Scope Z_scope.
Local Open Scope list_scope.

Set Implicit Arguments.

(** ** Exceptions and results *)

Inductive exn : Type :=
| KeyError (key : string)
| IndexError
| ValueError (msg : string)
| TypeError
| AttributeError (name : string)
| ZeroDivisionError
| LibraryError (msg : string)
| ProviderQueryError (msg : string)
| ProviderConnectionError (cause : exn).

Inductive result (A : Type) : Type :=
| Ok (a : A)
| Raise (e : exn).

Arguments Ok {A} a.
Arguments Raise {A} e.

Definition rbind {A B} (r : result A) (k : A -> result B) : result B :=
  match r with
  | Ok a => k a
  | Raise e => Raise e
  end.

(** The value of a result passed through [f], an exception left as it is *)
Definition rmap {A B} (f : A -> B) (r : result A) : result B :=
  match r with
  | Ok a => Ok (f a)
  | Raise e => Raise e
  end.

Definition of_option {A} (e : exn) (o : option A) : result A :=
  match o with
  | Some a => Ok a
  | None => Raise e
  end.

Declare Scope result_scope.
Delimit Scope result_scope with res.
Notation "x <- r ;; k" := (rbind r (fun x => k))
  (at level 61, r at next level, right associativity) : result_scope.
Notation "' p <- r ;; k" := (rbind r (fun p => k))
  (at level 61, p pattern, r at next level, right associativity) : result_scope.

(** [try: ... except Exception as err: raise ProviderConnectionError(err)] *)
Definition wrap_connection_error {A} (r : result A) : result A :=
  match r with
  | Ok a => Ok a
  | Raise e => Raise (ProviderConnectionError e)
  end.

(** [try: ... except IndexError: raise ProviderQueryError(msg)]: only an
    [IndexError] is caught, every other exception passes through. *)
Definition except_IndexError {A} (msg : string) (r : result A) : result A :=
  match r with
  | Raise IndexError => Raise (ProviderQueryError msg)
  | other => other
  end.

(** ** Python dictionaries with string keys

    A [dict] keeps insertion order; assigning to an existing key replaces
    its value in place. *)

Definition dict (V : Type) := list (string * V).

Fixpoint dict_get {V} (k : string) (d : dict V) : option V :=
  match d with
  | [] => None
  | (k', v) :: d' => if String.eqb k k' then Some v else dict_get k d'
  end.

Definition dict_mem {V} (k : string) (d : dict V) : bool :=
  match dict_get k d with Some _ => true | None => false end.

Fixpoint dict_set {V} (k : string) (v : V) (d : dict V) : dict V :=
  match d with
  | [] => [(k, v)]
  | (k', v') :: d' =>
      if String.eqb k k' then (k', v) :: d' else (k', v') :: dict_set k v d'
  end.

Definition dict_keys {V} (d : dict V) : list string := map fst d.

(** [d.pop(k, None)] *)
Fixpoint dict_pop {V} (k : string) (d : dict V) : dict V :=
  match d with
  | [] => []
  | (k', v) :: d' => if String.eqb k k' then d' else (k', v) :: dict_pop k d'
  end.

(** [d[k]], raising [KeyError] *)
Definition dict_item {V} (k : string) (d : dict V) : result V :=
  of_option (KeyError k) (dict_get k d).

(** [l[i]], raising [IndexError] *)
Definition list_item {A} (l : list A) (i : nat) : result A :=
  of_option IndexError (nth_error l i).

(** ** Strings *)

Definition lower_ascii (c : ascii) : ascii :=
  let n := nat_of_ascii c in
  if andb (Nat.leb 65 n) (Nat.leb n 90) then ascii_of_nat (n + 32) else c.

(** [str.lower()] on the ASCII letters *)
Fixpoint lower (s : string) : string :=
  match s with
  | EmptyString => EmptyString
  | String c s' => String (lower_ascii c) (lower s')
  end.

(** [str(n)] for an integer *)
Definition str_of_Z (z : Z) : string := NilZero.string_of_int (Z.to_int z).
Definition str_of_nat (n : nat) : string := NilZero.string_of_uint (Nat.to_uint n).

(** ["{}".format(x)] for [x] an integer or [None] *)
Definition fmt_opt_Z (o : option Z) : string :=
  match o with
  | Some z => str_of_Z z
  | None => "None"
  end.

(** ** Numbers *)

Class PyNum (num : Type) : Type := {
  nsub : num -> num -> num;
  ndiv : num -> num -> num;
  nis_zero : num -> bool;
  nabs : num -> num;
  nhalf : num -> num
}.

(** [x / y]: Python raises [ZeroDivisionError] on a zero divisor. *)
Definition py_div {num} `{PyNum num} (x y : num) : result num :=
  if nis_zero y then Raise ZeroDivisionError else Ok (ndiv x y).

Section Model.

Context {num : Type} `{PyNum num}.

(** ** Dynamically typed values

    The metadata dictionary [out_meta] that [query] hands to the encoders
    mixes numbers, strings and lists, and the provider's configured
    [options] are merged into it; its values are therefore kept dynamic. *)

#[warnings="-register-all"]
Inductive pyval : Type :=
| VNone
| VInt (z : Z)
| VNum (x : num)
| VStr (s : string)
| VList (l : list pyval)
| VAffine (a b c d e f : num).

Fixpoint chars (s : string) : list pyval :=
  match s with
  | EmptyString => []
  | String c s' => VStr (String c EmptyString) :: chars s'
  end.

(** Iteration over a value: lists yield their items and strings their
    characters; the other values are not iterable. *)
Definition py_iter (v : pyval) : result (list pyval) :=
  match v with
  | VList l => Ok l
  | VStr s => Ok (chars s)
  | _ => Raise TypeError
  end.

(** [a, b, c, d = v] *)
Definition unpack4 {A} (l : list A) : result (A * A * A * A) :=
  match l with
  | [a; b; c; d] => Ok (a, b, c, d)
  | _ => Raise (ValueError "wrong number of values to unpack")
  end.

(** ** Catalogue records *)

(** [datacube.utils.geometry.CRS], as far as the provider reads it *)
Record CRS : Type := {
  to_epsg : option Z;
  projected : bool;
  units : list string
}.

Record BoundingBox : Type := {
  left : num;
  bottom : num;
  right : num;
  top : num
}.

(** A row of [dc.list_products()].  [pr_resolution] is [Some (a, b)] when the
    cell holds the tuple [(a, b)]; [pr_crs] is [None] for [None] or NaN. *)
Record ProductRow : Type := {
  pr_name : string;
  pr_resolution : option (num * num);
  pr_crs : option string
}.

(** A dataset of [dc.find_datasets(...)].  [dr_grid_transform] is
    [metadata_doc['grids']['default']['transform']], [None] when one of the
    keys is missing. *)
Record DatasetRecord : Type := {
  dr_bounds : BoundingBox;
  dr_crs : option CRS;
  dr_grid_transform : option (list num)
}.

(** A row of [dc.list_measurements()] *)
Record MeasurementRow : Type := {
  mr_name : string;
  mr_dtype : string;
  mr_nodata : num;
  mr_units : string;
  mr_aliases : option (list string)
}.

(** The rows of one product, with whether the table has an [aliases] column *)
Record MeasurementTable : Type := {
  mt_has_aliases : bool;
  mt_rows : list MeasurementRow
}.

(** ** Loaded data (xarray)

    A data variable holds its attributes, its dtype name and its cells
    indexed [time][y][x]; the time coordinate is shared by all variables. *)

Record DataArray : Type := {
  da_attrs : dict string;
  da_dtype : string;
  da_values : list (list (list num))
}.

Record TimeCoord : Type := {
  tc_attrs : dict string;
  tc_values : list Z
}.

Record Dataset : Type := {
  ds_time : option TimeCoord;
  ds_vars : dict DataArray
}.

(** [dataset[key]].  A key that is not a string never names a variable. *)
Definition dataset_getitem (ds : Dataset) (key : pyval) : result DataArray :=
  match key with
  | VStr s => dict_item s (ds_vars ds)
  | _ => Raise (KeyError "")
  end.

(** [array.flatten().tolist()]: C order, the last axis varies fastest. *)
Definition flatten (v : list (list (list num))) : list num :=
  concat (map (@concat num) v).

(** [dataset.time.attrs.pop('units', None)] *)
Definition pop_time_units (ds : Dataset) : result Dataset :=
  match ds_time ds with
  | None => Raise (AttributeError "time")
  | Some t =>
      Ok {| ds_time := Some {| tc_attrs := dict_pop "units" (tc_attrs t);
                               tc_values := tc_values t |};
            ds_vars := ds_vars ds |}
  end.

(** [dataset.squeeze(dim='time', drop=True)]: xarray refuses to squeeze a
    dimension longer than one; otherwise it selects index 0 along it. *)
Definition squeeze_time (ds : Dataset) : result unit :=
  match ds_time ds with
  | None => Raise (KeyError "time")
  | Some t =>
      match length (tc_values t) with
      | O => Raise IndexError
      | S O => Ok tt
      | S (S _) => Raise (ValueError "cannot select a dimension to squeeze out which has length greater than one")
      end
  end.

(** [squeezed[bs].values]: the band at index 0 of the time axis *)
Definition band_slice (ds : Dataset) (bs : pyval) : result (list (list num)) :=
  (a <- dataset_getitem ds bs ;;
   list_item (da_values a) 0)%res.

(** [dataset.squeeze(dim='time', drop=True)[bs].values] *)
Definition squeeze_time_band (ds : Dataset) (bs : pyval)
  : result (list (list num)) :=
  (_ <- squeeze_time ds ;;
   band_slice ds bs)%res.

(** ** Parameters of [datacube.Datacube.load] *)

Record LoadParams : Type := {
  lp_crs : string;
  lp_align : num * num;
  lp_x : num * num;
  lp_y : num * num;
  lp_measurements : option (list string)
}.

(** The datacube handle [self.dc] *)
Record Datacube : Type := {
  list_products : result (list ProductRow);
  product_measurements : string -> option (list string);
  find_datasets : string -> result (list DatasetRecord);
  list_measurements : result (dict MeasurementTable);
  load : string -> LoadParams -> result Dataset
}.

Definition bytes := list Byte.byte.

(** Library functions the provider calls: [bbox_union] and the CRS parser of
    datacube, pyproj's transformer (from one EPSG code to another, with
    [always_xy=True]), rasterio's [MemoryFile] and xarray's [to_netcdf]. *)
Class Libs : Type := {
  bbox_union : list BoundingBox -> BoundingBox;
  CRS_dc : string -> result CRS;
  transform : Z -> Z -> num -> num -> num * num;
  memfile_open : dict pyval -> result unit;
  memfile_write : dict pyval -> list (list (list num)) -> result bytes;
  to_netcdf : Dataset -> result bytes
}.

Context `{Libs}.

(** ** Calls that leave the provider, and the monad that records them *)

Inductive event : Type :=
| EvLoad (product : string) (params : LoadParams)
| EvRasterOpen (meta : dict pyval)
| EvRasterWrite (data : list (list (list num)))
| EvToNetcdf (ds : Dataset).

Definition io (A : Type) : Type := list event -> result A * list event.

Definition ret {A} (a : A) : io A := fun log => (Ok a, log).

Definition raise {A} (e : exn) : io A := fun log => (Raise e, log).

Definition bind {A B} (m : io A) (k : A -> io B) : io B :=
  fun log =>
    match m log with
    | (Ok a, log') => k a log'
    | (Raise e, log') => (Raise e, log')
    end.

(** A computation without outside calls *)
Definition lift {A} (r : result A) : io A := fun log => (r, log).

(** An outside call: the event is logged, then the call answers. *)
Definition call {A} (ev : event) (answer : result A) : io A :=
  fun log => (answer, log ++ [ev]).

(** ** Construction: the coverage and measurement descriptions *)

Record CoverageProperties : Type := {
  cp_bbox : num * num * num * num;
  cp_crs_uri : string;
  cp_crs_type : string;
  cp_bbox_units : string;
  cp_x_axis_label : string;
  cp_y_axis_label : string;
  cp_width : num;
  cp_height : num;
  cp_resx : num;
  cp_resy : num;
  cp_transform : list num;
  cp_num_bands : nat;
  cp_axes : list string
}.

Record MeasurementProperties : Type := {
  mp_id : nat;
  mp_name : string;
  mp_dtype : string;
  mp_nodata : num;
  mp_unit : string;
  mp_aliases : option (list string)
}.

Fixpoint mapM {A B} (f : A -> result B) (l : list A) : result (list B) :=
  match l with
  | [] => Ok []
  | a :: l' => (b <- f a ;; bs <- mapM f l' ;; Ok (b :: bs))%res
  end.

(** What one turn of the loop over [find_datasets] appends to [bbs],
    [crs_list], [resx_list], [resy_list] and [transform_list]; the last
    statement of the body, [dataset.crs.dimensions], needs a CRS. *)
Definition dataset_grid (d : DatasetRecord)
  : result (BoundingBox * CRS * num * num * list num) :=
  (t <- of_option (KeyError "grids") (dr_grid_transform d) ;;
   rx <- list_item t 0 ;;
   ry <- list_item t 4 ;;
   c <- of_option (AttributeError "dimensions") (dr_crs d) ;;
   Ok (dr_bounds d, c, rx, ry, t))%res.

Definition grid_bounds (g : BoundingBox * CRS * num * num * list num) :=
  let '(b, _, _, _, _) := g in b.
Definition grid_crs (g : BoundingBox * CRS * num * num * list num) :=
  let '(_, c, _, _, _) := g in c.
Definition grid_resx (g : BoundingBox * CRS * num * num * list num) :=
  let '(_, _, rx, _, _) := g in rx.
Definition grid_resy (g : BoundingBox * CRS * num * num * list num) :=
  let '(_, _, _, ry, _) := g in ry.
Definition grid_transform (g : BoundingBox * CRS * num * num * list num) :=
  let '(_, _, _, _, t) := g in t.

(** [product_list[product_list['name'] == name].iloc[0]] *)
Definition product_metadata (dc : Datacube) (product_name : string)
  : result ProductRow :=
  (rows <- list_products dc ;;
   list_item (filter (fun r => String.eqb (pr_name r) product_name) rows) 0)%res.

(** The values a projected CRS overrides in [properties] *)
Definition projected_properties (crs_obj : CRS) (p : CoverageProperties)
  : result CoverageProperties :=
  (u <- list_item (units crs_obj) 0 ;;
   Ok {| cp_bbox := cp_bbox p;
         cp_crs_uri := "http://www.opengis.net/def/crs/EPSG/9.8.15" ++ "/"
                       ++ fmt_opt_Z (to_epsg crs_obj);
         cp_crs_type := "ProjectedCRS";
         cp_bbox_units := u;
         cp_x_axis_label := "x";
         cp_y_axis_label := "y";
         cp_width := cp_width p;
         cp_height := cp_height p;
         cp_resx := cp_resx p;
         cp_resy := cp_resy p;
         cp_transform := cp_transform p;
         cp_num_bands := cp_num_bands p;
         cp_axes := cp_axes p |})%res.

(** [properties['axes'] = [properties['x_axis_label'], properties['y_axis_label']]] *)
Definition set_axes (p : CoverageProperties) : CoverageProperties :=
  {| cp_bbox := cp_bbox p;
     cp_crs_uri := cp_crs_uri p;
     cp_crs_type := cp_crs_type p;
     cp_bbox_units := cp_bbox_units p;
     cp_x_axis_label := cp_x_axis_label p;
     cp_y_axis_label := cp_y_axis_label p;
     cp_width := cp_width p;
     cp_height := cp_height p;
     cp_resx := cp_resx p;
     cp_resy := cp_resy p;
     cp_transform := cp_transform p;
     cp_num_bands := cp_num_bands p;
     cp_axes := [cp_x_axis_label p; cp_y_axis_label p] |}.

(** [_get_coverage_properties]: returns the properties together with the
    CRS object that the source stores in [self.crs_obj] on the way.  The key
    ['axes'] is absent from [properties] (here: empty) until the last
    statement sets it. *)
Definition _get_coverage_properties (dc : Datacube) (product_name : string)
  : result (CRS * CoverageProperties) :=
  (row <- product_metadata dc product_name ;;
   let '(resx, resy) :=
     match pr_resolution row with
     | Some (r0, r1) => (Some r1, Some r0)
     | None => (None, None)
     end in
   let crs_str := pr_crs row in
   measurements <- of_option (AttributeError "measurements")
                     (product_measurements dc product_name) ;;
   let num_bands := length measurements in
   datasets <- find_datasets dc product_name ;;
   grids <- mapM dataset_grid datasets ;;
   let bbs := map grid_bounds grids in
   let crs_list := map grid_crs grids in
   let resx_list := map grid_resx grids in
   let resy_list := map grid_resy grids in
   let transform_list := map grid_transform grids in
   let bounds := bbox_union bbs in
   crs_obj <- match crs_str with
              | None => list_item crs_list 0
              | Some s => CRS_dc s
              end ;;
   resx <- match resx with
           | None => list_item resx_list 0
           | Some r => Ok r
           end ;;
   resy <- match resy with
           | None => list_item resy_list 0
           | Some r => Ok r
           end ;;
   transform <- list_item transform_list 0 ;;
   w <- py_div (nsub (right bounds) (left bounds)) resx ;;
   h <- py_div (nsub (top bounds) (bottom bounds)) resy ;;
   let properties :=
     {| cp_bbox := (left bounds, bottom bounds, right bounds, top bounds);
        cp_crs_uri := "http://www.opengis.net/def/crs/OGC/1.3/CRS84";
        cp_crs_type := "GeographicCRS";
        cp_bbox_units := "deg";
        cp_x_axis_label := "Lon";
        cp_y_axis_label := "Lat";
        cp_width := nabs w;
        cp_height := nabs h;
        cp_resx := resx;
        cp_resy := resy;
        cp_transform := transform;
        cp_num_bands := num_bands;
        cp_axes := [] |} in
   properties <- (if projected crs_obj
                  then projected_properties crs_obj properties
                  else Ok properties) ;;
   Ok (crs_obj, set_axes properties))%res.

(** [_get_measurement_properties] *)
Definition measurement_row (has_aliases : bool) (ir : nat * MeasurementRow)
  : MeasurementProperties :=
  let '(row, r) := ir in
  {| mp_id := row + 1;
     mp_name := mr_name r;
     mp_dtype := mr_dtype r;
     mp_nodata := mr_nodata r;
     mp_unit := mr_units r;
     mp_aliases := if has_aliases then mr_aliases r else None |}.

Definition _get_measurement_properties (dc : Datacube) (product_name : string)
  : result (list MeasurementProperties) :=
  (measurement_list <- list_measurements dc ;;
   measurement_metadata <- dict_item product_name measurement_list ;;
   let rows := mt_rows measurement_metadata in
   Ok (map (measurement_row (mt_has_aliases measurement_metadata))
         (combine (seq 0 (length rows)) rows)))%res.

(** The provider definition of the configuration: [provider_def['product']],
    [provider_def['format']['name']] and [provider_def.get('options')]. *)
Record ProviderDef : Type := {
  pd_product : string;
  pd_format_name : option string;
  pd_options : option (dict pyval)
}.

(** The attributes of a constructed provider *)
Record Provider : Type := {
  dc : Datacube;
  product_name : string;
  options : option (dict pyval);
  crs_obj : CRS;
  _coverage_properties : CoverageProperties;
  _measurement_properties : list MeasurementProperties;
  crs : string;
  axes : list string;
  num_bands : nat;
  fields : list string;
  native_format : string
}.

(** The body of the [try] block of [__init__] *)
Definition resolve_metadata (handle : Datacube) (provider_def : ProviderDef)
  : result Provider :=
  (let name := pd_product provider_def in
   '(crs_obj, coverage) <- _get_coverage_properties handle name ;;
   measurements <- _get_measurement_properties handle name ;;
   native <- of_option (KeyError "format") (pd_format_name provider_def) ;;
   Ok {| dc := handle;
         product_name := name;
         options := pd_options provider_def;
         crs_obj := crs_obj;
         _coverage_properties := coverage;
         _measurement_properties := measurements;
         crs := cp_crs_uri coverage;
         axes := cp_axes coverage;
         num_bands := cp_num_bands coverage;
         fields := map str_of_nat (seq 1 (cp_num_bands coverage));
         native_format := native |})%res.

(** [__init__], once the datacube handle is open *)
Definition __init__ (handle : Datacube) (provider_def : ProviderDef)
  : result Provider :=
  wrap_connection_error (resolve_metadata handle provider_def).

(** ** The CoverageJSON document *)

Record Axis : Type := {
  ax_start : pyval;
  ax_stop : pyval;
  ax_num : pyval
}.

Record Referencing : Type := {
  ref_coordinates : list string;
  ref_system_type : string;
  ref_system_id : string
}.

Record Domain : Type := {
  dom_type : string;
  dom_domainType : string;
  dom_x : Axis;
  dom_y : Axis;
  dom_referencing : list Referencing
}.

Record CovParameter : Type := {
  par_type : string;
  par_description : string;
  par_unit_symbol : string;
  par_observed_id : string;
  par_observed_label_en : string
}.

Record NdArrayRange : Type := {
  rg_type : string;
  rg_dataType : string;
  rg_axisNames : list string;
  rg_shape : list pyval;
  rg_values : list num
}.

Record CovJSON : Type := {
  cj_type : string;
  cj_domain : Domain;
  cj_parameters : dict CovParameter;
  cj_ranges : dict NdArrayRange
}.

(** ** [gen_covjson] *)

(** A value usable as a key of [cj['parameters']] once [dataset[bs]] has
    accepted it *)
Definition band_name (bs : pyval) : result string :=
  match bs with
  | VStr s => Ok s
  | _ => Raise (KeyError "")
  end.

(** The first loop, [for bs in bands_select], outside any [try] *)
Fixpoint fill_parameters (dataset : Dataset) (bands_select : list pyval)
    (parameters : dict CovParameter) : result (dict CovParameter) :=
  match bands_select with
  | [] => Ok parameters
  | bs :: rest =>
      (a <- dataset_getitem dataset bs ;;
       symbol <- dict_item "units" (da_attrs a) ;;
       name <- band_name bs ;;
       fill_parameters dataset rest
         (dict_set name
            {| par_type := "Parameter";
               par_description := name;
               par_unit_symbol := symbol;
               par_observed_id := name;
               par_observed_label_en := name |} parameters))%res
  end.

(** The second loop, [for key in cj['parameters'].keys()], inside the
    [try].  The entry is stored and its ['values'] added by the next
    statement; both are one step here. *)
Fixpoint fill_ranges (metadata : dict pyval) (dataset : Dataset)
    (keys : list string) (ranges : dict NdArrayRange)
  : result (dict NdArrayRange) :=
  match keys with
  | [] => Ok ranges
  | key :: rest =>
      (a <- dataset_getitem dataset (VStr key) ;;
       height <- dict_item "height" metadata ;;
       width <- dict_item "width" metadata ;;
       fill_ranges metadata dataset rest
         (dict_set key
            {| rg_type := "NdArray";
               rg_dataType := da_dtype a;
               rg_axisNames := ["y"; "x"];
               rg_shape := [height; width];
               rg_values := flatten (da_values a) |} ranges))%res
  end.

Definition gen_covjson (self : Provider) (metadata : dict pyval)
    (dataset : Dataset) : result CovJSON :=
  (box <- dict_item "bbox" metadata ;;
   corners <- py_iter box ;;
   '(minx, miny, maxx, maxy) <- unpack4 corners ;;
   width <- dict_item "width" metadata ;;
   height <- dict_item "height" metadata ;;
   bands_select <- dict_item "bands" metadata ;;
   bands <- py_iter bands_select ;;
   parameters <- fill_parameters dataset bands [] ;;
   ranges <- except_IndexError "Invalid query parameter"
               (fill_ranges metadata dataset (dict_keys parameters) []) ;;
   Ok {| cj_type := "Coverage";
         cj_domain :=
           {| dom_type := "Domain";
              dom_domainType := "Grid";
              dom_x := {| ax_start := minx; ax_stop := maxx; ax_num := width |};
              dom_y := {| ax_start := miny; ax_stop := maxy; ax_num := height |};
              dom_referencing :=
                [{| ref_coordinates := ["x"; "y"];
                    ref_system_type := cp_crs_type (_coverage_properties self);
                    ref_system_id := cp_crs_uri (_coverage_properties self) |}] |};
         cj_parameters := parameters;
         cj_ranges := ranges |})%res.

(** ** [query] *)

Inductive QueryOutput : Type :=
| CoverageJSON (cj : CovJSON)
| GeoTIFF (data : bytes)
| NetCDF (data : bytes).

Definition window : Type := (num * num * num * num)%type.

(** The exclusion check and the spatial subset: from the initial
    [minx, miny, maxx, maxy = self._coverage_properties['bbox']] to the end
    of the [if len(bbox) > 0: ... elif ...:] statement.  pyproj's CRS objects
    are compared through their EPSG codes; [CRS.from_epsg] has no code to
    work with when [to_epsg()] is [None]. *)
Definition spatial_subset (self : Provider) (subsets : dict (list num))
    (bbox : list num) : result window :=
  let cp := _coverage_properties self in
  let '(minx, miny, maxx, maxy) := cp_bbox cp in
  if dict_mem (cp_x_axis_label cp) subsets
     && dict_mem (cp_y_axis_label cp) subsets
     && Nat.ltb 0 (length bbox)
  then Raise (ProviderQueryError "bbox and subsetting by coordinates are exclusive")
  else if Nat.ltb 0 (length bbox) then
    ('(minxbox, minybox, maxxbox, maxybox) <- unpack4 bbox ;;
     let crs_src := 4326 in
     crs_dest <- of_option (LibraryError "CRSError") (to_epsg (crs_obj self)) ;;
     if Z.eqb crs_src crs_dest then Ok (minx, miny, maxx, maxy)
     else
       let '(minx, miny) := transform crs_src crs_dest minxbox minybox in
       let '(maxx, maxy) := transform crs_src crs_dest maxxbox maxybox in
       Ok (minx, miny, maxx, maxy))%res
  else if dict_mem (cp_x_axis_label cp) subsets
          && dict_mem (cp_y_axis_label cp) subsets then
    (let x := cp_x_axis_label cp in
     let y := cp_y_axis_label cp in
     sx <- dict_item x subsets ;;
     minx <- list_item sx 0 ;;
     sx <- dict_item x subsets ;;
     maxx <- list_item sx 1 ;;
     sy <- dict_item y subsets ;;
     miny <- list_item sy 0 ;;
     sy <- dict_item y subsets ;;
     maxy <- list_item sy 1 ;;
     Ok (minx, miny, maxx, maxy))%res
  else Ok (minx, miny, maxx, maxy).

(** The dictionary [params] passed to [self.dc.load] *)
Definition load_params (self : Provider) (bands : list string) (w : window)
  : LoadParams :=
  let cp := _coverage_properties self in
  let '(minx, miny, maxx, maxy) := w in
  {| lp_crs := "epsg:" ++ fmt_opt_Z (to_epsg (crs_obj self));
     lp_align := (nabs (nhalf (cp_resy cp)), nabs (nhalf (cp_resx cp)));
     lp_x := (minx, maxx);
     lp_y := (miny, maxy);
     lp_measurements := if Nat.ltb 0 (length bands) then Some bands else None |}.

(** [bands = list(dataset.keys())] when no band was asked for *)
Definition select_bands (bands : list string) (dataset : Dataset)
  : list string :=
  if Nat.eqb (length bands) 0 then dict_keys (ds_vars dataset) else bands.

(** [for key, value in self.options.items(): out_meta[key] = value] *)
Definition add_options (opts : option (dict pyval)) (out_meta : dict pyval)
  : dict pyval :=
  match opts with
  | None => out_meta
  | Some o => fold_left (fun m kv => dict_set (fst kv) (snd kv) m) o out_meta
  end.

(** The value that the loop over [self.options.items()] leaves under
    [key], if the options bind it: the last binding wins. *)
Definition option_value (opts : option (dict pyval)) (key : string)
  : option pyval :=
  match opts with
  | None => None
  | Some o => dict_get key (rev o)
  end.

(** [out_meta], options included *)
Definition out_metadata (self : Provider) (w : window) (bands : list string)
  : result (dict pyval) :=
  let cp := _coverage_properties self in
  let '(minx, miny, maxx, maxy) := w in
  (width <- py_div (nsub maxx minx) (cp_resx cp) ;;
   height <- py_div (nsub maxy miny) (cp_resy cp) ;;
   Ok (add_options (options self)
         [("bbox", VList [VNum minx; VNum miny; VNum maxx; VNum maxy]);
          ("width", VNum (nabs width));
          ("height", VNum (nabs height));
          ("bands", VList (map VStr bands))]))%res.

(** [np.stack(arrays, axis=0)]: at least one array, all of one shape *)
Definition shape2 (a : list (list num)) : nat * nat :=
  (length a, match a with [] => 0%nat | row :: _ => length row end).

Definition same_shape (a b : list (list num)) : bool :=
  Nat.eqb (fst (shape2 a)) (fst (shape2 b))
  && Nat.eqb (snd (shape2 a)) (snd (shape2 b)).

Definition np_stack (arrays : list (list (list num)))
  : result (list (list (list num))) :=
  match arrays with
  | [] => Raise (ValueError "need at least one array to stack")
  | a :: rest =>
      if forallb (same_shape a) rest then Ok arrays
      else Raise (ValueError "all input arrays must have the same shape")
  end.

Definition epsg_value (o : option Z) : pyval :=
  match o with
  | Some z => VInt z
  | None => VNone
  end.

(** The metadata of the GeoTIFF branch: the keys it adds to [out_meta] *)
Definition geotiff_metadata (self : Provider) (bands : list string)
    (out_meta : dict pyval) : result (dict pyval) :=
  let cp := _coverage_properties self in
  (let out_meta := dict_set "driver" (VStr "GTiff") out_meta in
   let out_meta := dict_set "crs" (epsg_value (to_epsg (crs_obj self))) out_meta in
   m <- list_item (_measurement_properties self) 0 ;;
   let out_meta := dict_set "dtype" (VStr (mp_dtype m)) out_meta in
   m <- list_item (_measurement_properties self) 0 ;;
   let out_meta := dict_set "nodata" (VNum (mp_nodata m)) out_meta in
   let out_meta := dict_set "count" (VInt (Z.of_nat (length bands))) out_meta in
   t0 <- list_item (cp_transform cp) 0 ;;
   t1 <- list_item (cp_transform cp) 1 ;;
   t2 <- list_item (cp_transform cp) 2 ;;
   t3 <- list_item (cp_transform cp) 3 ;;
   t4 <- list_item (cp_transform cp) 4 ;;
   t5 <- list_item (cp_transform cp) 5 ;;
   Ok (dict_set "transform" (VAffine t0 t1 t2 t3 t4 t5) out_meta))%res.

(** [np.stack([dataset.squeeze(dim='time', drop=True)[bs].values
              for bs in bands], axis=0)] *)
Definition stacked_bands (dataset : Dataset) (bands : list string)
  : result (list (list (list num))) :=
  (arrays <- mapM (squeeze_time_band dataset) (map VStr bands) ;;
   np_stack arrays)%res.

(** The GeoTIFF branch: the raster is opened with the metadata, then the
    stacked bands are computed and written, and the file is read back. *)
Definition encode_geotiff (self : Provider) (bands : list string)
    (out_meta : dict pyval) (dataset : Dataset) : io bytes :=
  bind (lift (geotiff_metadata self bands out_meta)) (fun out_meta =>
  bind (call (EvRasterOpen out_meta) (memfile_open out_meta)) (fun _ =>
  bind (lift (stacked_bands dataset bands)) (fun data =>
  call (EvRasterWrite data) (memfile_write out_meta data)))).

(** The last statement of [query]: the output format is chosen by
    [format_ == 'json'], then [format_.lower() == 'geotiff'], else NetCDF. *)
Definition encode (self : Provider) (format_ : string) (bands : list string)
    (out_meta : dict pyval) (dataset : Dataset) : io QueryOutput :=
  if String.eqb format_ "json" then
    bind (lift (gen_covjson self out_meta dataset)) (fun cj =>
    ret (CoverageJSON cj))
  else if String.eqb (lower format_) "geotiff" then
    bind (encode_geotiff self bands out_meta dataset) (fun data =>
    ret (GeoTIFF data))
  else
    bind (call (EvToNetcdf dataset) (to_netcdf dataset)) (fun data =>
    ret (NetCDF data)).

Definition query (self : Provider) (range_subset : list string)
    (subsets : dict (list num)) (bbox : list num) (datetime_ : option string)
    (format_ : string) : io QueryOutput :=
  let bands := range_subset in
  bind (lift (spatial_subset self subsets bbox)) (fun w =>
  let params := load_params self bands w in
  bind (call (EvLoad (product_name self) params)
          (load (dc self) (product_name self) params)) (fun dataset =>
  bind (lift (pop_time_units dataset)) (fun dataset =>
  let bands := select_bands bands dataset in
  bind (lift (out_metadata self w bands)) (fun out_meta =>
  encode self format_ bands out_meta dataset)))).

(** The array has [t] slices of [h] rows of [w] cells. *)
Definition rectangular (t h w : nat) (v : list (list (list num))) : Prop :=
  length v = t /\
  Forall (fun slice => length slice = h /\
                       Forall (fun row => length row = w) slice) v.

(** The events a run appended to the log it started from *)
Definition no_write (events : list event) : Prop :=
  forall data, ~ In (EvRasterWrite data) events.

(** ** The descriptor operations *)

Record RegularAxis : Type := {
  ra_type : string;
  ra_axisLabel : string;
  ra_lowerBound : num;
  ra_upperBound : num;
  ra_uomLabel : string;
  ra_resolution : num
}.

Record IndexAxis : Type := {
  ia_type : string;
  ia_axisLabel : string;
  ia_lowerBound : Z;
  ia_upperBound : num
}.

Record GridLimits : Type := {
  gl_type : string;
  gl_srsName : string;
  gl_axisLabels : list string;
  gl_axis : list IndexAxis
}.

Record GeneralGrid : Type := {
  gg_type : string;
  gg_srsName : string;
  gg_axisLabels : list string;
  gg_axis : list RegularAxis;
  gg_gridLimits : GridLimits
}.

Record DomainSet : Type := {
  dset_type : string;
  dset_generalGrid : GeneralGrid
}.

(** [get_coverage_domainset] *)
Definition get_coverage_domainset (self : Provider) : DomainSet :=
  let cp := _coverage_properties self in
  let '(b0, b1, b2, b3) := cp_bbox cp in
  {| dset_type := "DomainSetType";
     dset_generalGrid :=
       {| gg_type := "GeneralGridCoverageType";
          gg_srsName := cp_crs_uri cp;
          gg_axisLabels := [cp_x_axis_label cp; cp_y_axis_label cp];
          gg_axis :=
            [{| ra_type := "RegularAxisType";
                ra_axisLabel := cp_x_axis_label cp;
                ra_lowerBound := b0;
                ra_upperBound := b2;
                ra_uomLabel := cp_bbox_units cp;
                ra_resolution := cp_resx cp |};
             {| ra_type := "RegularAxisType";
                ra_axisLabel := cp_y_axis_label cp;
                ra_lowerBound := b1;
                ra_upperBound := b3;
                ra_uomLabel := cp_bbox_units cp;
                ra_resolution := cp_resy cp |}];
          gg_gridLimits :=
            {| gl_type := "GridLimitsType";
               gl_srsName := "http://www.opengis.net/def/crs/OGC/0/Index2D";
               gl_axisLabels := ["i"; "j"];
               gl_axis :=
                 [{| ia_type := "IndexAxisType";
                     ia_axisLabel := "i";
                     ia_lowerBound := 0;
                     ia_upperBound := cp_width cp |};
                  {| ia_type := "IndexAxisType";
                     ia_axisLabel := "j";
                     ia_lowerBound := 0;
                     ia_upperBound := cp_height cp |}] |} |} |}.

Record RangeField : Type := {
  rf_id : nat;
  rf_type : string;
  rf_name : string;
  rf_definition : string;
  rf_nodata : num;
  rf_uom_type : string;
  rf_uom_code : string;
  rf_aliases : option (list string)
}.

Record RangeType : Type := {
  rt_type : string;
  rt_field : list RangeField
}.

(** One turn of [for row in range(0, len(self._measurement_properties))] *)
Definition range_field (m : MeasurementProperties) : RangeField :=
  {| rf_id := mp_id m;
     rf_type := "QuantityType";
     rf_name := mp_name m;
     rf_definition := mp_dtype m;
     rf_nodata := mp_nodata m;
     rf_uom_type := "UnitReference";
     rf_uom_code := mp_unit m;
     rf_aliases := mp_aliases m |}.

(** [get_coverage_rangetype] *)
Definition get_coverage_rangetype (self : Provider) : RangeType :=
  {| rt_type := "DataRecordType";
     rt_field := map range_field (_measurement_properties self) |}.

(** The keys the GeoTIFF branch stores in the metadata *)
Definition geotiff_keys : list string :=
  ["driver"; "crs"; "dtype"; "nodata"; "count"; "transform"].

End Model.

(** ** A concrete instance: rational numbers and a small catalogue

    Numbers are rationals kept in lowest terms, so that equal numbers are
    equal terms.  The catalogue holds one product, [scenes], in EPSG:4326
    over the extent (0, 0, 2, 2) with cells of size 1; the library
    functions are stand-ins that answer without failing. *)

Module Scenes.

Local Open Scope Q_scope.

#[global] Instance QNum : PyNum Q := {|
  nsub := fun x y => Qred (x - y);
  ndiv := fun x y => Qred (x / y);
  nis_zero := fun x => Qeq_bool x 0;
  nabs := fun x => Qred (Qabs x);
  nhalf := fun x => Qred (x / 2)
|}.

Definition qmin (x y : Q) : Q := if Qle_bool x y then x else y.
Definition qmax (x y : Q) : Q := if Qle_bool x y then y else x.

Definition union2 (a b : @BoundingBox Q) : @BoundingBox Q :=
  {| left := qmin (left a) (left b);
     bottom := qmin (bottom a) (bottom b);
     right := qmax (right a) (right b);
     top := qmax (top a) (top b) |}.

(** The smallest box around all the boxes; an empty list has no such box and
    is answered with the box at the origin. *)
Definition union_all (bbs : list (@BoundingBox Q)) : @BoundingBox Q :=
  match bbs with
  | [] => {| left := 0; bottom := 0; right := 0; top := 0 |}
  | b :: rest => fold_left union2 rest b
  end.

Definition wgs84 : CRS :=
  {| to_epsg := Some 4326%Z; projected := false; units := ["degree"; "degree"]%string |}.

Definition utm33n : CRS :=
  {| to_epsg := Some 32633%Z; projected := true; units := ["metre"; "metre"]%string |}.

Definition parse_crs (s : string) : result CRS :=
  if String.eqb s "EPSG:4326" then Ok wgs84
  else if String.eqb s "EPSG:32633" then Ok utm33n
  else Raise (LibraryError "CRSError").

Definition tiff_magic : bytes := [Byte.x49; Byte.x49; Byte.x2a; Byte.x00].
Definition cdf_magic : bytes := [Byte.x43; Byte.x44; Byte.x46; Byte.x02].

#[global] Instance QLibs : @Libs Q := {|
  bbox_union := union_all;
  CRS_dc := parse_crs;
  transform := fun _ _ x y => (Qred (x * 1000), Qred (y * 1000));
  memfile_open := fun _ => Ok tt;
  memfile_write := fun _ _ => Ok tiff_magic;
  to_netcdf := fun _ => Ok cdf_magic
|}.

Definition extent : @BoundingBox Q :=
  {| left := 0; bottom := 0; right := 2; top := 2 |}.

Definition grid_doc : list Q := [1; 0; 0; 0; -1; 2].

Definition scene : @DatasetRecord Q :=
  {| dr_bounds := extent; dr_crs := Some wgs84; dr_grid_transform := Some grid_doc |}.

Definition product_rows : list (@ProductRow Q) :=
  [{| pr_name := "scenes"; pr_resolution := Some (-1, 1); pr_crs := Some "EPSG:4326"%string |}].

Definition measurement_rows : dict (@MeasurementTable Q) :=
  [("scenes"%string,
    {| mt_has_aliases := true;
       mt_rows :=
         [{| mr_name := "B02"; mr_dtype := "int16"; mr_nodata := -9999;
             mr_units := "1"; mr_aliases := Some ["blue"%string] |};
          {| mr_name := "B03"; mr_dtype := "float32"; mr_nodata := 0;
             mr_units := "1"; mr_aliases := None |}] |})].

Definition band (attrs : dict string) (dtype : string)
    (values : list (list (list Q))) : @DataArray Q :=
  {| da_attrs := attrs; da_dtype := dtype; da_values := values |}.

Definition with_units : dict string := [("units", "1")]%string.

(** One acquisition date *)
Definition one_slice : @Dataset Q :=
  {| ds_time := Some {| tc_attrs := [("units", "seconds since 1970-01-01")]%string;
                        tc_values := [0%Z] |};
     ds_vars :=
       [("B02"%string, band with_units "int16" [[[1; 2]; [3; 4]]]);
        ("B03"%string, band with_units "float32" [[[5; 6]; [7; 8]]])] |}.

(** Two acquisition dates over the same extent *)
Definition two_slices : @Dataset Q :=
  {| ds_time := Some {| tc_attrs := []; tc_values := [0%Z; 86400%Z] |};
     ds_vars :=
       [("B02"%string, band with_units "int16"
                         [[[1; 2]; [3; 4]]; [[5; 6]; [7; 8]]])] |}.

(** A band that carries no ['units'] attribute *)
Definition no_units : @Dataset Q :=
  {| ds_time := Some {| tc_attrs := []; tc_values := [0%Z] |};
     ds_vars := [("B02"%string, band [] "int16" [[[1; 2]; [3; 4]]])] |}.

(** [load] keeps the measurements asked for, in the order asked. *)
Definition pick (ds : @Dataset Q) (measurements : option (list string))
  : result (@Dataset Q) :=
  match measurements with
  | None => Ok ds
  | Some names =>
      (vars <- mapM (fun n => a <- dict_item n (ds_vars ds) ;; Ok (n, a)) names ;;
       Ok {| ds_time := ds_time ds; ds_vars := vars |})%res
  end.

Definition cube (stored : @Dataset Q) : @Datacube Q :=
  {| list_products := Ok product_rows;
     product_measurements := fun name =>
       if String.eqb name "scenes" then Some ["B02"; "B03"]%string else None;
     find_datasets := fun name =>
       if String.eqb name "scenes" then Ok [scene; scene] else Ok [];
     list_measurements := Ok measurement_rows;
     load := fun name params =>
       if String.eqb name "scenes" then pick stored (lp_measurements params)
       else Raise (ValueError "unknown product") |}.

Definition provider_def (opts : option (dict (@pyval Q))) : @ProviderDef Q :=
  {| pd_product := "scenes"; pd_format_name := Some "GeoTIFF"%string; pd_options := opts |}.

Definition scenes_properties : @CoverageProperties Q :=
  {| cp_bbox := (0, 0, 2, 2);
     cp_crs_uri := "http://www.opengis.net/def/crs/OGC/1.3/CRS84";
     cp_crs_type := "GeographicCRS";
     cp_bbox_units := "deg";
     cp_x_axis_label := "Lon";
     cp_y_axis_label := "Lat";
     cp_width := 2;
     cp_height := 2;
     cp_resx := 1;
     cp_resy := -1;
     cp_transform := grid_doc;
     cp_num_bands := 2;
     cp_axes := ["Lon"; "Lat"]%string |}.

Definition scenes_measurements : list (@MeasurementProperties Q) :=
  [{| mp_id := 1; mp_name := "B02"; mp_dtype := "int16"; mp_nodata := -9999;
      mp_unit := "1"; mp_aliases := Some ["blue"%string] |};
   {| mp_id := 2; mp_name := "B03"; mp_dtype := "float32"; mp_nodata := 0;
      mp_unit := "1"; mp_aliases := None |}].

(** The provider that [__init__] builds over [cube stored] *)
Definition provider (stored : @Dataset Q) (opts : option (dict (@pyval Q)))
  : @Provider Q :=
  {| dc := cube stored;
     product_name := "scenes";
     options := opts;
     crs_obj := wgs84;
     _coverage_properties := scenes_properties;
     _measurement_properties := scenes_measurements;
     crs := "http://www.opengis.net/def/crs/OGC/1.3/CRS84";
     axes := ["Lon"; "Lat"]%string;
     num_bands := 2;
     fields := ["1"; "2"]%string;
     native_format := "GeoTIFF" |}.

(** The metadata [query] builds for the full extent *)
Definition full_extent_metadata (bands : list string) : dict (@pyval Q) :=
  [("bbox", VList [VNum 0; VNum 0; VNum 2; VNum 2]);
   ("width", VNum 2);
   ("height", VNum 2);
   ("bands", VList (map (@VStr Q) bands))]%string.

(** A range entry over the full extent *)
Definition range_entry (dtype : string) (values : list Q) : @NdArrayRange Q :=
  {| rg_type := "NdArray";
     rg_dataType := dtype;
     rg_axisNames := ["y"; "x"]%string;
     rg_shape := [VNum 2; VNum 2];
     rg_values := values |}.

(** The CoverageJSON document over the full extent with one parameter and
    one range per entry [(band, (dtype, values))] *)
Definition document (entries : list (string * (string * list Q)))
  : @CovJSON Q :=
  {| cj_type := "Coverage";
     cj_domain :=
       {| dom_type := "Domain";
          dom_domainType := "Grid";
          dom_x := {| ax_start := VNum 0; ax_stop := VNum 2; ax_num := VNum 2 |};
          dom_y := {| ax_start := VNum 0; ax_stop := VNum 2; ax_num := VNum 2 |};
          dom_referencing :=
            [{| ref_coordinates := ["x"; "y"]%string;
                ref_system_type := "GeographicCRS";
                ref_system_id := "http://www.opengis.net/def/crs/OGC/1.3/CRS84" |}] |};
     cj_parameters :=
       map (fun e => (fst e,
                      {| par_type := "Parameter";
                         par_description := fst e;
                         par_unit_symbol := "1";
                         par_observed_id := fst e;
                         par_observed_label_en := fst e |})) entries;
     cj_ranges :=
       map (fun e => (fst e, range_entry (fst (snd e)) (snd (snd e))))
         entries |}.

(** The parameters of a load over the full extent *)
Definition full_extent_load (measurements : option (list string))
  : @LoadParams Q :=
  {| lp_crs := "epsg:4326";
     lp_align := (1 # 2, 1 # 2);
     lp_x := (0, 2);
     lp_y := (0, 2);
     lp_measurements := measurements |}.

(** [one_slice] as [query] holds it after the load: the time coordinate has
    lost its ['units'] attribute. *)
Definition one_slice_loaded : @Dataset Q :=
  {| ds_time := Some {| tc_attrs := []; tc_values := [0%Z] |};
     ds_vars := ds_vars one_slice |}.

(** The metadata of the raster of a GeoTIFF query over the full extent *)
Definition raster_metadata (bands : list string) : dict (@pyval Q) :=
  (app (full_extent_metadata bands)
   [("driver", VStr "GTiff");
    ("crs", VInt 4326);
    ("dtype", VStr "int16");
    ("nodata", VNum (-9999));
    ("count", VInt (Z.of_nat (length bands)));
    ("transform", VAffine 1 0 0 0 (-1) 2)])%string.

(** The outside calls of a GeoTIFF query for all bands of [one_slice] *)
Definition geotiff_calls : list (@event Q) :=
  [EvLoad "scenes" (full_extent_load None);
   EvRasterOpen (raster_metadata ["B02"; "B03"]%string);
   EvRasterWrite [[[1; 2]; [3; 4]]; [[5; 6]; [7; 8]]]].

(** Options that bind ['bands'] *)
Definition rebinding_options : dict (@pyval Q) :=
  [("bands"%string, VList [VStr "B03"])].

(** A second catalogue: the product [tiles] gives neither resolution nor CRS;
    its one dataset is in EPSG:32633 with cells of 10 metres. *)
Definition tile : @DatasetRecord Q :=
  {| dr_bounds := {| left := 500000; bottom := 0; right := 500020; top := 20 |};
     dr_crs := Some utm33n;
     dr_grid_transform := Some [10; 0; 500000; 0; -10; 20] |}.

Definition tiles_cube : @Datacube Q :=
  {| list_products :=
       Ok [{| pr_name := "tiles"; pr_resolution := None; pr_crs := None |}];
     product_measurements := fun name =>
       if String.eqb name "tiles" then Some ["B02"%string] else None;
     find_datasets := fun name =>
       if String.eqb name "tiles" then Ok [tile] else Ok [];
     list_measurements :=
       Ok [("tiles"%string,
            {| mt_has_aliases := false;
               mt_rows :=
                 [{| mr_name := "B02"; mr_dtype := "int16"; mr_nodata := -9999;
                     mr_units := "1"; mr_aliases := Some ["blue"%string] |}] |})];
     load := fun name params =>
       if String.eqb name "tiles" then pick one_slice (lp_measurements params)
       else Raise (ValueError "unknown product") |}.

Definition tiles_def : @ProviderDef Q :=
  {| pd_product := "tiles"; pd_format_name := Some "GeoTIFF"%string;
     pd_options := None |}.

Definition tiles_properties : @CoverageProperties Q :=
  {| cp_bbox := (500000, 0, 500020, 20);
     cp_crs_uri := "http://www.opengis.net/def/crs/EPSG/9.8.15/32633";
     cp_crs_type := "ProjectedCRS";
     cp_bbox_units := "metre";
     cp_x_axis_label := "x";
     cp_y_axis_label := "y";
     cp_width := 2;
     cp_height := 2;
     cp_resx := 10;
     cp_resy := -10;
     cp_transform := [10; 0; 500000; 0; -10; 20];
     cp_num_bands := 1;
     cp_axes := ["x"; "y"]%string |}.

Definition tiles_provider : @Provider Q :=
  {| dc := tiles_cube;
     product_name := "tiles";
     options := None;
     crs_obj := utm33n;
     _coverage_properties := tiles_properties;
     _measurement_properties :=
       [{| mp_id := 1; mp_name := "B02"; mp_dtype := "int16";
           mp_nodata := -9999; mp_unit := "1"; mp_aliases := None |}];
     crs := "http://www.opengis.net/def/crs/EPSG/9.8.15/32633";
     axes := ["x"; "y"]%string;
     num_bands := 1;
     fields := ["1"%string];
     native_format := "GeoTIFF" |}.

(** A load that finds nothing answers with a dataset without coordinates. *)
Definition nothing_found : @Dataset Q := {| ds_time := None; ds_vars := [] |}.

(** A dataset with a time coordinate and no variable *)
Definition no_bands : @Dataset Q :=
  {| ds_time := Some {| tc_attrs := []; tc_values := [0%Z] |}; ds_vars := [] |}.

(** A provider record without measurements *)
Definition unmeasured_provider : @Provider Q :=
  {| dc := cube one_slice;
     product_name := "scenes";
     options := None;
     crs_obj := wgs84;
     _coverage_properties := scenes_properties;
     _measurement_properties := [];
     crs := "http://www.opengis.net/def/crs/OGC/1.3/CRS84";
     axes := ["Lon"; "Lat"]%string;
     num_bands := 0;
     fields := [];
     native_format := "GeoTIFF" |}.

(** The metadata of the raster of a GeoTIFF query for all bands under
    [compress_options]: the option ['compress'] is kept, the option
    ['dtype'] is overwritten. *)
Definition compressed_raster_metadata : dict (@pyval Q) :=
  (app (full_extent_metadata ["B02"; "B03"])
     [("compress", VStr "lzw");
      ("dtype", VStr "int16");
      ("driver", VStr "GTiff");
      ("crs", VInt 4326);
      ("nodata", VNum (-9999));
      ("count", VInt 2);
      ("transform", VAffine 1 0 0 0 (-1) 2)])%string.

(** A provider definition for a product the catalogue does not list *)
Definition nowhere_def : @ProviderDef Q :=
  {| pd_product := "nowhere"; pd_format_name := Some "GeoTIFF"%string;
     pd_options := None |}.

(** Options for the raster driver *)
Definition compress_options : dict (@pyval Q) :=
  [("compress"%string, VStr "lzw"); ("dtype"%string, VStr "uint8")].

(** [len(values) == shape[0] * shape[1]] for a range entry *)
Definition fills_shape (r : @NdArrayRange Q) : Prop :=
  match rg_shape r with
  | [VNum h; VNum w] => inject_Z (Z.of_nat (length (rg_values r))) == h * w
  | _ => False
  end.

End Scenes.

(** * Properties *)

(** ** Results, dictionaries and lists *)

Lemma rbind_ok : forall A B (r : result A) (k : A -> result B) b,
  rbind r k = Ok b -> exists a, r = Ok a /\ k a = Ok b.
Proof.
  intros A B [a | e] k b Hr; simpl in Hr; [eauto | discriminate].
Qed.

Lemma of_option_ok : forall A e (o : option A) a,
  of_option e o = Ok a -> o = Some a.
Proof.
  intros A e [x |] a Ho; simpl in Ho; congruence.
Qed.

Lemma dict_mem_In : forall V k (d : dict V),
  dict_mem k d = true <-> In k (dict_keys d).
Proof.
  unfold dict_mem. induction d as [| [k' v] d IH]; simpl.
  - split; [discriminate | tauto].
  - destruct (String.eqb_spec k k') as [-> | Hne].
    + split; auto.
    + rewrite IH. split; [auto | intros [Heq | Hin]; [congruence | assumption]].
Qed.

Lemma dict_get_set_same : forall V k (v : V) d,
  dict_get k (dict_set k v d) = Some v.
Proof.
  induction d as [| [k' v'] d IH]; simpl.
  - now rewrite String.eqb_refl.
  - destruct (String.eqb_spec k k') as [-> | Hne]; simpl.
    + now rewrite String.eqb_refl.
    + destruct (String.eqb_spec k k'); [contradiction | exact IH].
Qed.

Lemma dict_get_set_other : forall V k k' (v : V) d,
  k <> k' -> dict_get k (dict_set k' v d) = dict_get k d.
Proof.
  induction d as [| [k0 v0] d IH]; intros Hne; simpl.
  - destruct (String.eqb_spec k k'); [contradiction | reflexivity].
  - destruct (String.eqb_spec k' k0) as [-> | Hne0]; simpl.
    + destruct (String.eqb_spec k k0); [contradiction | reflexivity].
    + destruct (String.eqb_spec k k0); [reflexivity | auto].
Qed.

Lemma dict_keys_set : forall V k (v : V) d,
  dict_keys (dict_set k v d) =
  if dict_mem k d then dict_keys d else dict_keys d ++ [k].
Proof.
  unfold dict_mem. induction d as [| [k' v'] d IH]; simpl; [reflexivity |].
  destruct (String.eqb_spec k k') as [-> | Hne]; simpl; [reflexivity |].
  rewrite IH. now destruct (dict_get k d).
Qed.

Lemma dict_get_In : forall V k (d : dict V) v,
  dict_get k d = Some v -> In k (dict_keys d).
Proof.
  intros V k d v Hget. apply dict_mem_In. unfold dict_mem. now rewrite Hget.
Qed.

Lemma mapM_ok_map : forall A B C (f : A -> result B) (g : B -> C) (h : A -> C),
  (forall a b, f a = Ok b -> g b = h a) ->
  forall l bs, mapM f l = Ok bs -> map g bs = map h l.
Proof.
  intros A B C f g h Hfg. induction l as [| a l IH]; intros bs Hm; simpl in Hm.
  - inversion Hm. reflexivity.
  - apply rbind_ok in Hm. destruct Hm as [b [Hb Hm]].
    apply rbind_ok in Hm. destruct Hm as [bs' [Hbs Hm]].
    inversion Hm; subst. simpl. f_equal; auto.
Qed.

Lemma dict_keys_set_NoDup : forall V k (v : V) d,
  NoDup (dict_keys d) -> NoDup (dict_keys (dict_set k v d)).
Proof.
  intros V k v d Hnd. rewrite dict_keys_set.
  destruct (dict_mem k d) eqn:Hmem; [exact Hnd |].
  apply NoDup_app; [exact Hnd | repeat constructor; simpl; tauto |].
  intros x Hin [<- | []].
  apply dict_mem_In in Hin. congruence.
Qed.

Lemma dict_keys_set_In : forall V k k' (v : V) d,
  In k (dict_keys (dict_set k' v d)) <-> k = k' \/ In k (dict_keys d).
Proof.
  intros V k k' v d. rewrite dict_keys_set.
  destruct (dict_mem k' d) eqn:Hmem.
  - apply dict_mem_In in Hmem. split; [tauto |].
    intros [-> | Hin]; assumption.
  - rewrite in_app_iff. simpl. split; intros Hin; intuition congruence.
Qed.

(** The last assignment to a key is the one that stays. *)
Lemma dict_get_fold_set : forall V k (o m : dict V),
  dict_get k (fold_left (fun d kv => dict_set (fst kv) (snd kv) d) o m) =
  match dict_get k (rev o) with
  | Some v => Some v
  | None => dict_get k m
  end.
Proof.
  intros V k o. induction o as [| [k' v'] o IH] using rev_ind; intros m.
  - reflexivity.
  - rewrite fold_left_app, rev_app_distr. simpl.
    destruct (String.eqb_spec k k') as [-> | Hne].
    + apply dict_get_set_same.
    + rewrite dict_get_set_other by exact Hne. apply IH.
Qed.

Lemma concat_length_const : forall A n (ls : list (list A)),
  Forall (fun l => length l = n) ls ->
  length (concat ls) = (length ls * n)%nat.
Proof.
  intros A n ls Hall. induction Hall as [| l ls Hl _ IH]; simpl.
  - reflexivity.
  - rewrite length_app, IH, Hl. reflexivity.
Qed.

Lemma except_IndexError_ok : forall A msg (r : result A) a,
  except_IndexError msg r = Ok a -> r = Ok a.
Proof.
  intros A msg [x | e] a Hr; simpl in Hr; [exact Hr | destruct e; discriminate].
Qed.

Section Properties.

Context {num : Type} `{PyNum num} `{@Libs num}.

Implicit Types (self : @Provider num) (log : list (@event num)).

(** ** Construction *)

Lemma dataset_grid_bounds : forall (d : @DatasetRecord num) g,
  dataset_grid d = Ok g -> grid_bounds g = dr_bounds d.
Proof.
  intros d g Hg. unfold dataset_grid in Hg.
  repeat (apply rbind_ok in Hg; destruct Hg as [? [_ Hg]]).
  inversion Hg. reflexivity.
Qed.

(** The resolutions taken from the datasets are the entries 0 and 4 of the
    grid transform of the first dataset. *)
Lemma first_dataset_resolution :
  forall (datasets : list (@DatasetRecord num)) grids rx ry,
    mapM dataset_grid datasets = Ok grids ->
    list_item (map grid_resx grids) 0 = Ok rx ->
    list_item (map grid_resy grids) 0 = Ok ry ->
    exists d rest t,
      datasets = d :: rest /\
      dr_grid_transform d = Some t /\
      nth_error t 0 = Some rx /\
      nth_error t 4 = Some ry.
Proof.
  intros [| d rest] grids rx ry Hgrids Hrx Hry; simpl in Hgrids.
  - inversion Hgrids; subst grids. discriminate.
  - apply rbind_ok in Hgrids. destruct Hgrids as [g [Hg Hgrids]].
    apply rbind_ok in Hgrids. destruct Hgrids as [gs [_ Hgrids]].
    inversion Hgrids; subst grids; clear Hgrids.
    simpl in Hrx, Hry. inversion Hrx; subst rx. inversion Hry; subst ry.
    unfold dataset_grid in Hg.
    apply rbind_ok in Hg. destruct Hg as [t [Ht Hg]].
    apply rbind_ok in Hg. destruct Hg as [rx [Hrx' Hg]].
    apply rbind_ok in Hg. destruct Hg as [ry [Hry' Hg]].
    apply rbind_ok in Hg. destruct Hg as [c [_ Hg]].
    inversion Hg; subst g; simpl.
    apply of_option_ok in Ht. apply of_option_ok in Hrx'.
    apply of_option_ok in Hry'.
    exists d, rest, t. auto.
Qed.

(** C6. The coverage description that [_get_coverage_properties] resolves
    has [width = |(right - left) / resx|] and
    [height = |(top - bottom) / resy|], where the box is the union of the
    bounds of all datasets of the product and [resx], [resy] are the
    resolutions stored in the description: those of the product when it
    gives a resolution tuple, else those of the first dataset. *)
Theorem coverage_width_height : forall (handle : @Datacube num) name crs cp,
  _get_coverage_properties handle name = Ok (crs, cp) ->
  exists row datasets w h,
    product_metadata handle name = Ok row /\
    find_datasets handle name = Ok datasets /\
    match pr_resolution row with
    | Some (r0, r1) => cp_resx cp = r1 /\ cp_resy cp = r0
    | None =>
        exists d rest t,
          datasets = d :: rest /\
          dr_grid_transform d = Some t /\
          nth_error t 0 = Some (cp_resx cp) /\
          nth_error t 4 = Some (cp_resy cp)
    end /\
    let bounds := bbox_union (map (@dr_bounds num) datasets) in
    cp_bbox cp = (left bounds, bottom bounds, right bounds, top bounds) /\
    py_div (nsub (right bounds) (left bounds)) (cp_resx cp) = Ok w /\
    cp_width cp = nabs w /\
    py_div (nsub (top bounds) (bottom bounds)) (cp_resy cp) = Ok h /\
    cp_height cp = nabs h.
Proof.
  intros handle name crs cp Hcov. unfold _get_coverage_properties in Hcov.
  apply rbind_ok in Hcov. destruct Hcov as [row [Hrow Hcov]].
  assert (Hres : exists resx0 resy0,
            match pr_resolution row with
            | Some (r0, r1) => (Some r1, Some r0)
            | None => (None, None)
            end = (resx0, resy0) /\
            match pr_resolution row with
            | Some (r0, r1) => resx0 = Some r1 /\ resy0 = Some r0
            | None => resx0 = None /\ resy0 = None
            end).
  { destruct (pr_resolution row) as [[r0 r1] |]; eauto. }
  destruct Hres as [resx0 [resy0 [Hpair Hres]]]. rewrite Hpair in Hcov.
  apply rbind_ok in Hcov. destruct Hcov as [ms [_ Hcov]].
  apply rbind_ok in Hcov. destruct Hcov as [datasets [Hfind Hcov]].
  apply rbind_ok in Hcov. destruct Hcov as [grids [Hgrids Hcov]].
  apply rbind_ok in Hcov. destruct Hcov as [crs0 [_ Hcov]].
  apply rbind_ok in Hcov. destruct Hcov as [resx [Hresx Hcov]].
  apply rbind_ok in Hcov. destruct Hcov as [resy [Hresy Hcov]].
  apply rbind_ok in Hcov. destruct Hcov as [tr [_ Hcov]].
  apply rbind_ok in Hcov. destruct Hcov as [w [Hw Hcov]].
  apply rbind_ok in Hcov. destruct Hcov as [h [Hh Hcov]].
  apply rbind_ok in Hcov. destruct Hcov as [props [Hprops Hcov]].
  rewrite (mapM_ok_map dataset_grid grid_bounds (@dr_bounds num)
             dataset_grid_bounds datasets Hgrids) in *.
  assert (Hfields : cp_resx cp = resx /\ cp_resy cp = resy /\
            cp_bbox cp =
              (left (bbox_union (map (@dr_bounds num) datasets)),
               bottom (bbox_union (map (@dr_bounds num) datasets)),
               right (bbox_union (map (@dr_bounds num) datasets)),
               top (bbox_union (map (@dr_bounds num) datasets))) /\
            cp_width cp = nabs w /\ cp_height cp = nabs h).
  { inversion Hcov; subst crs0 cp; clear Hcov.
    destruct (projected crs).
    - unfold projected_properties in Hprops.
      apply rbind_ok in Hprops. destruct Hprops as [u [_ Hprops]].
      inversion Hprops; subst props; simpl. auto.
    - inversion Hprops; subst props; simpl. auto. }
  destruct Hfields as [Hx [Hy [Hbox [Hwidth Hheight]]]].
  exists row, datasets, w, h.
  split; [exact Hrow |]. split; [exact Hfind |]. split.
  - rewrite Hx, Hy. destruct (pr_resolution row) as [[r0 r1] |].
    + destruct Hres as [-> ->]. simpl in Hresx, Hresy.
      inversion Hresx. inversion Hresy. auto.
    + destruct Hres as [-> ->].
      apply (first_dataset_resolution datasets Hgrids Hresx Hresy).
  - simpl. rewrite Hx, Hy. auto.
Qed.

(** C9. Construction is all or nothing.  Either [__init__] returns a
    provider whose coverage description, measurement list and derived
    fields are all resolved, or it raises a [ProviderConnectionError] that
    wraps the exception of the step that failed (the coverage properties,
    the measurement properties or the derived fields) and returns no
    provider at all. *)
Theorem init_all_or_nothing : forall (handle : @Datacube num) provider_def,
  let name := pd_product provider_def in
  (exists p,
     __init__ handle provider_def = Ok p /\
     _get_coverage_properties handle name
       = Ok (crs_obj p, _coverage_properties p) /\
     _get_measurement_properties handle name = Ok (_measurement_properties p) /\
     pd_format_name provider_def = Some (native_format p) /\
     crs p = cp_crs_uri (_coverage_properties p) /\
     axes p = cp_axes (_coverage_properties p) /\
     num_bands p = cp_num_bands (_coverage_properties p) /\
     fields p = map str_of_nat (seq 1 (num_bands p)) /\
     dc p = handle /\ product_name p = name)
  \/
  (exists cause,
     __init__ handle provider_def = Raise (ProviderConnectionError cause) /\
     (_get_coverage_properties handle name = Raise cause
      \/ (exists c, _get_coverage_properties handle name = Ok c /\
                    _get_measurement_properties handle name = Raise cause)
      \/ (exists c m, _get_coverage_properties handle name = Ok c /\
                      _get_measurement_properties handle name = Ok m /\
                      pd_format_name provider_def = None /\
                      cause = KeyError "format"))).
Proof.
  intros handle provider_def name. unfold __init__, resolve_metadata.
  fold name.
  destruct (_get_coverage_properties handle name) as [[c cp] | e]; simpl.
  2: { right. exists e. auto. }
  destruct (_get_measurement_properties handle name) as [m | e]; simpl.
  2: { right. exists e. split; [reflexivity |]. right. left. eauto. }
  destruct (pd_format_name provider_def) as [f |]; simpl.
  - left. eexists. split; [reflexivity |]. simpl. repeat split; reflexivity.
  - right. eexists. split; [reflexivity |]. right. right. eauto 6.
Qed.

(** ** The spatial subset *)

(** C2. When [subsets] has entries for both the x and the y axis label of
    the description and [bbox] is not empty, [query] raises the
    [ProviderQueryError] of the exclusion check, whatever the numbers are,
    and the log of outside calls is left as it was: nothing was loaded or
    encoded. *)
Theorem bbox_and_axis_subsets_exclusive :
  forall self range_subset subsets bbox datetime_ format_ log,
    In (cp_x_axis_label (_coverage_properties self)) (dict_keys subsets) ->
    In (cp_y_axis_label (_coverage_properties self)) (dict_keys subsets) ->
    bbox <> [] ->
    query self range_subset subsets bbox datetime_ format_ log =
    (Raise (ProviderQueryError "bbox and subsetting by coordinates are exclusive"),
     log).
Proof.
  intros self range_subset subsets bbox datetime_ format_ log Hx Hy Hbbox.
  apply dict_mem_In in Hx. apply dict_mem_In in Hy.
  unfold query, bind, lift, spatial_subset.
  destruct (cp_bbox (_coverage_properties self)) as [[[minx miny] maxx] maxy].
  rewrite Hx, Hy.
  destruct bbox as [| b0 bbox]; [contradiction | reflexivity].
Qed.

(** When the native CRS is EPSG:4326 the bbox branch leaves the window at
    the full extent of the description: the corners of [bbox] are unpacked
    and not used. *)
Lemma same_crs_window_is_full_extent :
  forall self subsets b0 b1 b2 b3,
    to_epsg (crs_obj self) = Some 4326 ->
    (dict_mem (cp_x_axis_label (_coverage_properties self)) subsets
     && dict_mem (cp_y_axis_label (_coverage_properties self)) subsets)%bool
      = false ->
    spatial_subset self subsets [b0; b1; b2; b3]
      = Ok (cp_bbox (_coverage_properties self)).
Proof.
  intros self subsets b0 b1 b2 b3 Hcrs Hsub. unfold spatial_subset.
  destruct (cp_bbox (_coverage_properties self)) as [[[minx miny] maxx] maxy].
  rewrite Hsub, Hcrs. reflexivity.
Qed.

(** ** Runs of [query] *)

(** A run of [query] stops with an exception after at most the call to
    [load], or reaches the encoders with the loaded dataset. *)
Lemma query_cases :
  forall self range_subset subsets bbox datetime_ format_ log r log',
    query self range_subset subsets bbox datetime_ format_ log = (r, log') ->
    (exists e, r = Raise e /\
       (log' = log \/
        exists w, log' = log ++ [EvLoad (product_name self)
                                   (load_params self range_subset w)]))
    \/
    (exists w ds0 ds out_meta,
       spatial_subset self subsets bbox = Ok w /\
       load (dc self) (product_name self) (load_params self range_subset w)
         = Ok ds0 /\
       pop_time_units ds0 = Ok ds /\
       out_metadata self w (select_bands range_subset ds) = Ok out_meta /\
       encode self format_ (select_bands range_subset ds) out_meta ds
         (log ++ [EvLoad (product_name self) (load_params self range_subset w)])
       = (r, log')).
Proof.
  intros self range_subset subsets bbox datetime_ format_ log r log' Hq.
  unfold query, bind, lift, call in Hq.
  destruct (spatial_subset self subsets bbox) as [w | e] eqn:Hw.
  2: { inversion Hq. left. eauto. }
  destruct (load (dc self) (product_name self)
              (load_params self range_subset w)) as [ds0 | e] eqn:Hload.
  2: { inversion Hq. left. eauto. }
  destruct (pop_time_units ds0) as [ds | e] eqn:Hpop.
  2: { inversion Hq. left. eauto. }
  destruct (out_metadata self w (select_bands range_subset ds))
    as [om | e] eqn:Hmeta.
  2: { inversion Hq. left. eauto. }
  right. exists w, ds0, ds, om. auto.
Qed.

(** A run of the GeoTIFF branch *)
Lemma encode_geotiff_cases :
  forall self bands out_meta ds log r log',
    encode_geotiff self bands out_meta ds log = (r, log') ->
    (exists e, geotiff_metadata self bands out_meta = Raise e /\
               r = Raise e /\ log' = log)
    \/
    (exists meta, geotiff_metadata self bands out_meta = Ok meta /\
       ((exists e, r = Raise e /\ log' = log ++ [EvRasterOpen meta] /\
                   (memfile_open meta = Raise e \/
                    stacked_bands ds bands = Raise e))
        \/
        (exists data, stacked_bands ds bands = Ok data /\
                      r = memfile_write meta data /\
                      log' = log ++ [EvRasterOpen meta; EvRasterWrite data]))).
Proof.
  intros self bands out_meta ds log r log' He.
  unfold encode_geotiff, bind, lift, call in He.
  destruct (geotiff_metadata self bands out_meta) as [meta | e] eqn:Hmeta.
  2: { inversion He. left. eauto. }
  right. exists meta. split; [reflexivity |].
  destruct (memfile_open meta) as [u | e] eqn:Hopen.
  2: { inversion He. left. eauto 6. }
  destruct (stacked_bands ds bands) as [data | e] eqn:Hstack.
  2: { inversion He. left. eauto 6. }
  inversion He. right. exists data. rewrite <- app_assoc. auto.
Qed.

Lemma list_item_0 : forall A (l : list A) a,
  list_item l 0 = Ok a -> exists rest, l = a :: rest.
Proof.
  intros A [| x l] a Hl; simpl in Hl; inversion Hl. eauto.
Qed.

(** What the GeoTIFF branch stores in the metadata *)
Lemma geotiff_metadata_keys : forall self bands out_meta meta,
  geotiff_metadata self bands out_meta = Ok meta ->
  exists m ms t0 t1 t2 t3 t4 t5 rest,
    _measurement_properties self = m :: ms /\
    cp_transform (_coverage_properties self)
      = t0 :: t1 :: t2 :: t3 :: t4 :: t5 :: rest /\
    dict_get "driver" meta = Some (VStr "GTiff") /\
    dict_get "crs" meta = Some (epsg_value (to_epsg (crs_obj self))) /\
    dict_get "dtype" meta = Some (VStr (mp_dtype m)) /\
    dict_get "nodata" meta = Some (VNum (mp_nodata m)) /\
    dict_get "count" meta = Some (VInt (Z.of_nat (length bands))) /\
    dict_get "transform" meta = Some (VAffine t0 t1 t2 t3 t4 t5).
Proof.
  intros self bands out_meta meta Hm. unfold geotiff_metadata in Hm.
  apply rbind_ok in Hm. destruct Hm as [m [Hm0 Hm]].
  apply rbind_ok in Hm. destruct Hm as [m' [Hm0' Hm]].
  assert (m' = m) by congruence. subst m'.
  apply list_item_0 in Hm0. destruct Hm0 as [ms Hms].
  destruct (cp_transform (_coverage_properties self))
    as [| t0 [| t1 [| t2 [| t3 [| t4 [| t5 rest]]]]]];
    simpl in Hm; try discriminate.
  inversion Hm; subst meta; clear Hm.
  exists m, ms, t0, t1, t2, t3, t4, t5, rest.
  repeat split; try assumption;
    repeat first [ apply dict_get_set_same
                 | rewrite dict_get_set_other by discriminate ].
Qed.

(** ** The output format *)

(** C8. Every run of [query] either stops before the encoders (with an
    exception, having called at most [load]) or reaches them with the
    resolved window, the loaded dataset and the metadata, and then its
    outcome is that of the encoder chosen by [format_].  The exact string
    "json" gives the CoverageJSON document of [gen_covjson] on that metadata
    and dataset and no further outside call.  Otherwise a [format_] whose
    lowercase form is "geotiff" opens the raster with the GeoTIFF metadata,
    stacks the selected bands and gives the bytes read back from the raster
    written with them, as GeoTIFF bytes.  Every other [format_] gives the
    bytes of [to_netcdf] on the loaded dataset, as NetCDF bytes.  In each
    case an exception of the encoder is the outcome as it is. *)
Theorem output_format_dispatch :
  forall self range_subset subsets bbox datetime_ format_ log r log',
    query self range_subset subsets bbox datetime_ format_ log = (r, log') ->
    (exists e, r = Raise e /\
       (log' = log \/
        exists w, log' = log ++ [EvLoad (product_name self)
                                   (load_params self range_subset w)]))
    \/
    (exists w ds0 ds out_meta,
       spatial_subset self subsets bbox = Ok w /\
       load (dc self) (product_name self) (load_params self range_subset w)
         = Ok ds0 /\
       pop_time_units ds0 = Ok ds /\
       out_metadata self w (select_bands range_subset ds) = Ok out_meta /\
       let bands := select_bands range_subset ds in
       let loaded :=
         log ++ [EvLoad (product_name self) (load_params self range_subset w)] in
       ((format_ = "json" /\
         r = rmap CoverageJSON (gen_covjson self out_meta ds) /\
         log' = loaded)
        \/
        (format_ <> "json" /\ lower format_ = "geotiff" /\
         match geotiff_metadata self bands out_meta with
         | Raise e => r = Raise e /\ log' = loaded
         | Ok meta =>
             match memfile_open meta, stacked_bands ds bands with
             | Raise e, _ =>
                 r = Raise e /\ log' = loaded ++ [EvRasterOpen meta]
             | Ok _, Raise e =>
                 r = Raise e /\ log' = loaded ++ [EvRasterOpen meta]
             | Ok _, Ok stack =>
                 r = rmap GeoTIFF (memfile_write meta stack) /\
                 log' = loaded ++ [EvRasterOpen meta; EvRasterWrite stack]
             end
         end)
        \/
        (format_ <> "json" /\ lower format_ <> "geotiff" /\
         r = rmap NetCDF (to_netcdf ds) /\
         log' = loaded ++ [EvToNetcdf ds]))).
Proof.
  intros self range_subset subsets bbox datetime_ format_ log r log' Hq.
  apply query_cases in Hq.
  destruct Hq as [Hstop | [w [ds0 [ds [om [Hw [Hload [Hpop [Hom He]]]]]]]]];
    [left; exact Hstop |].
  right. exists w, ds0, ds, om.
  split; [exact Hw |]. split; [exact Hload |]. split; [exact Hpop |].
  split; [exact Hom |]. cbv zeta.
  unfold encode in He.
  destruct (String.eqb_spec format_ "json") as [Hjson | Hjson].
  - left. split; [exact Hjson |].
    unfold bind, lift, ret in He.
    destruct (gen_covjson self om ds) as [cj | e]; inversion He; auto.
  - right. destruct (String.eqb_spec (lower format_) "geotiff") as [Hg | Hg].
    + left. split; [exact Hjson |]. split; [exact Hg |].
      unfold encode_geotiff, bind, lift, call, ret in He.
      destruct (geotiff_metadata self (select_bands range_subset ds) om)
        as [meta | e].
      2: { inversion He. auto. }
      destruct (memfile_open meta) as [u | e].
      2: { inversion He. auto. }
      destruct (stacked_bands ds (select_bands range_subset ds)) as [st | e].
      2: { inversion He. auto. }
      rewrite <- app_assoc in He. simpl in He.
      destruct (memfile_write meta st) as [data | e]; inversion He; auto.
    + right. split; [exact Hjson |]. split; [exact Hg |].
      unfold bind, call, ret in He.
      destruct (to_netcdf ds) as [data | e]; inversion He; auto.
Qed.

(** C7. In a GeoTIFF query run from an empty log, every raster is opened
    with metadata whose [dtype] and [nodata] are those of the first
    measurement of the provider, whatever bands were asked for, whose
    [count] is the number of selected bands (the bands asked for, or all
    bands of the loaded dataset when none was asked for) and whose
    [transform] is made of the first six numbers of the transform stored in
    the coverage description; the bytes returned are those of a raster
    opened with such metadata. *)
Theorem geotiff_raster_metadata :
  forall self range_subset subsets bbox datetime_ format_ r log',
    format_ <> "json" ->
    lower format_ = "geotiff" ->
    query self range_subset subsets bbox datetime_ format_ [] = (r, log') ->
    (forall meta, In (EvRasterOpen meta) log' ->
       exists m ms t0 t1 t2 t3 t4 t5 rest w ds0 ds,
         _measurement_properties self = m :: ms /\
         cp_transform (_coverage_properties self)
           = t0 :: t1 :: t2 :: t3 :: t4 :: t5 :: rest /\
         load (dc self) (product_name self) (load_params self range_subset w)
           = Ok ds0 /\
         pop_time_units ds0 = Ok ds /\
         dict_get "dtype" meta = Some (VStr (mp_dtype m)) /\
         dict_get "nodata" meta = Some (VNum (mp_nodata m)) /\
         dict_get "count" meta
           = Some (VInt (Z.of_nat (length (select_bands range_subset ds)))) /\
         (range_subset <> [] ->
          dict_get "count" meta = Some (VInt (Z.of_nat (length range_subset)))) /\
         dict_get "transform" meta = Some (VAffine t0 t1 t2 t3 t4 t5))
    /\
    (forall data, r = Ok (GeoTIFF data) ->
       exists meta stack,
         In (EvRasterOpen meta) log' /\ memfile_write meta stack = Ok data).
Proof.
  intros self range_subset subsets bbox datetime_ format_ r log' Hjson Hg Hq.
  apply query_cases in Hq.
  destruct Hq as [[e [Hr Hlog]] | [w [ds0 [ds [om [_ [Hload [Hpop [_ He]]]]]]]]].
  - split.
    + intros meta Hin.
      destruct Hlog as [-> | [w ->]]; simpl in Hin;
        [contradiction | destruct Hin as [Hin | []]; discriminate].
    + intros data Hdata. congruence.
  - unfold encode in He.
    destruct (String.eqb_spec format_ "json") as [| _]; [contradiction |].
    rewrite Hg in He. simpl in He. unfold bind, ret in He.
    destruct (encode_geotiff self (select_bands range_subset ds) om ds _)
      as [r0 l0] eqn:Henc.
    assert (Hl : l0 = log') by (destruct r0; inversion He; reflexivity).
    subst l0.
    apply encode_geotiff_cases in Henc.
    assert (Hmeta : forall meta,
              geotiff_metadata self (select_bands range_subset ds) om = Ok meta ->
              exists m ms t0 t1 t2 t3 t4 t5 rest w ds0 ds,
                _measurement_properties self = m :: ms /\
                cp_transform (_coverage_properties self)
                  = t0 :: t1 :: t2 :: t3 :: t4 :: t5 :: rest /\
                load (dc self) (product_name self)
                  (load_params self range_subset w) = Ok ds0 /\
                pop_time_units ds0 = Ok ds /\
                dict_get "dtype" meta = Some (VStr (mp_dtype m)) /\
                dict_get "nodata" meta = Some (VNum (mp_nodata m)) /\
                dict_get "count" meta
                  = Some (VInt (Z.of_nat (length (select_bands range_subset ds)))) /\
                (range_subset <> [] ->
                 dict_get "count" meta
                   = Some (VInt (Z.of_nat (length range_subset)))) /\
                dict_get "transform" meta = Some (VAffine t0 t1 t2 t3 t4 t5)).
    { intros meta Hm. apply geotiff_metadata_keys in Hm.
      destruct Hm as [m [ms [t0 [t1 [t2 [t3 [t4 [t5 [rest Hm]]]]]]]]].
      destruct Hm as [Hms [Htr [_ [_ [Hdt [Hnd [Hcnt Haff]]]]]]].
      exists m, ms, t0, t1, t2, t3, t4, t5, rest, w, ds0, ds.
      repeat split; try assumption.
      intros Hne. rewrite Hcnt. unfold select_bands.
      destruct range_subset; [contradiction | reflexivity]. }
    destruct Henc as [[e [_ [Hr ->]]] | [meta [Hm Henc]]].
    + split.
      * intros meta Hin. simpl in Hin. destruct Hin as [Hin | []]. discriminate.
      * intros data Hdata. subst r0. congruence.
    + destruct Henc as [[e [Hr [-> _]]] | [st [_ [Hr ->]]]].
      * split.
        -- intros meta' Hin. simpl in Hin.
           destruct Hin as [Hin | [Hin | []]]; [discriminate |].
           inversion Hin; subst meta'. auto.
        -- intros data Hdata. subst r0. congruence.
      * split.
        -- intros meta' Hin. simpl in Hin.
           destruct Hin as [Hin | [Hin | [Hin | []]]]; try discriminate.
           inversion Hin; subst meta'. auto.
        -- intros data Hdata. exists meta, st. split.
           ++ simpl. auto.
           ++ subst r0. destruct (memfile_write meta st); congruence.
Qed.

(** ** The CoverageJSON encoder *)

Lemma flatten_length : forall t h w (v : list (list (list num))),
  rectangular t h w v -> length (flatten v) = (t * h * w)%nat.
Proof.
  intros t h w v [Ht Hall]. unfold flatten.
  rewrite (@concat_length_const num (h * w)).
  - rewrite length_map, Ht. lia.
  - apply Forall_map. eapply Forall_impl; [| exact Hall].
    intros slice [Hh Hrows]. simpl.
    rewrite (concat_length_const Hrows), Hh. reflexivity.
Qed.

Lemma mapM_band_name_VStr : forall (names : list string),
  mapM (@band_name num) (map (@VStr num) names) = Ok names.
Proof.
  induction names as [| n names IH]; simpl; [reflexivity |].
  rewrite IH. reflexivity.
Qed.

(** The first loop binds exactly the bands it was given. *)
Lemma fill_parameters_keys : forall (ds : @Dataset num) bands acc ps,
  fill_parameters ds bands acc = Ok ps ->
  exists names,
    mapM (@band_name num) bands = Ok names /\
    (forall k, In k (dict_keys ps) <-> In k (dict_keys acc) \/ In k names) /\
    (NoDup (dict_keys acc) -> NoDup (dict_keys ps)).
Proof.
  intros ds bands. induction bands as [| bs bands IH]; intros acc ps Hf;
    simpl in Hf.
  - inversion Hf; subst. exists []. simpl. repeat split; tauto.
  - apply rbind_ok in Hf. destruct Hf as [a [_ Hf]].
    apply rbind_ok in Hf. destruct Hf as [u [_ Hf]].
    apply rbind_ok in Hf. destruct Hf as [name [Hname Hf]].
    apply IH in Hf. destruct Hf as [names [Hnames [Hkeys Hnd]]].
    exists (name :: names). simpl. rewrite Hname, Hnames. simpl.
    split; [reflexivity |]. split.
    + intros k. rewrite Hkeys, dict_keys_set_In. intuition congruence.
    + intros Hacc. apply Hnd. apply dict_keys_set_NoDup. exact Hacc.
Qed.

(** The second loop binds its keys in order, each to the flattened array of
    the band with the shape read from the metadata. *)
Lemma fill_ranges_keys : forall md (ds : @Dataset num) keys acc rs,
  fill_ranges md ds keys acc = Ok rs ->
  NoDup keys ->
  (forall k, In k keys -> ~ In k (dict_keys acc)) ->
  dict_keys rs = dict_keys acc ++ keys.
Proof.
  intros md ds keys. induction keys as [| key keys IH]; intros acc rs Hf Hnd Hdis;
    simpl in Hf.
  - inversion Hf. now rewrite app_nil_r.
  - apply rbind_ok in Hf. destruct Hf as [a [_ Hf]].
    apply rbind_ok in Hf. destruct Hf as [h [_ Hf]].
    apply rbind_ok in Hf. destruct Hf as [w [_ Hf]].
    inversion Hnd as [| x l Hnotin Hnd']; subst.
    apply IH in Hf; [| exact Hnd' |].
    + rewrite Hf, dict_keys_set.
      destruct (dict_mem key acc) eqn:Hmem.
      * apply dict_mem_In in Hmem. exfalso. apply (Hdis key); simpl; auto.
      * rewrite <- app_assoc. reflexivity.
    + intros k Hk Hin. apply dict_keys_set_In in Hin.
      destruct Hin as [-> | Hin]; [contradiction |].
      apply (Hdis k); simpl; auto.
Qed.

Lemma fill_ranges_entries : forall md (ds : @Dataset num) keys acc rs key r,
  fill_ranges md ds keys acc = Ok rs ->
  dict_get key rs = Some r ->
  dict_get key acc = Some r \/
  exists a height width,
    dict_get key (ds_vars ds) = Some a /\
    dict_get "height" md = Some height /\
    dict_get "width" md = Some width /\
    r = {| rg_type := "NdArray";
           rg_dataType := da_dtype a;
           rg_axisNames := ["y"; "x"];
           rg_shape := [height; width];
           rg_values := flatten (da_values a) |}.
Proof.
  intros md ds keys. induction keys as [| k keys IH]; intros acc rs key r Hf Hget;
    simpl in Hf.
  - inversion Hf; subst. auto.
  - apply rbind_ok in Hf. destruct Hf as [a [Ha Hf]].
    apply rbind_ok in Hf. destruct Hf as [h [Hh Hf]].
    apply rbind_ok in Hf. destruct Hf as [w [Hw Hf]].
    destruct (IH _ _ _ _ Hf Hget) as [Hacc | Hnew]; [| auto].
    destruct (string_dec key k) as [-> | Hne].
    + rewrite dict_get_set_same in Hacc. inversion Hacc; subst r.
      right. exists a, h, w.
      apply of_option_ok in Ha. apply of_option_ok in Hh.
      apply of_option_ok in Hw. auto.
    + rewrite dict_get_set_other in Hacc by exact Hne. auto.
Qed.

(** What a document returned by [gen_covjson] was built from *)
Lemma gen_covjson_ok : forall self md ds cj,
  gen_covjson self md ds = Ok cj ->
  exists bands_select bands,
    dict_get "bands" md = Some bands_select /\
    py_iter bands_select = Ok bands /\
    fill_parameters ds bands [] = Ok (cj_parameters cj) /\
    fill_ranges md ds (dict_keys (cj_parameters cj)) [] = Ok (cj_ranges cj).
Proof.
  intros self md ds cj Hg. unfold gen_covjson in Hg.
  apply rbind_ok in Hg. destruct Hg as [box [_ Hg]].
  apply rbind_ok in Hg. destruct Hg as [corners [_ Hg]].
  apply rbind_ok in Hg. destruct Hg as [[[[minx miny] maxx] maxy] [_ Hg]].
  apply rbind_ok in Hg. destruct Hg as [width [_ Hg]].
  apply rbind_ok in Hg. destruct Hg as [height [_ Hg]].
  apply rbind_ok in Hg. destruct Hg as [bsel [Hbsel Hg]].
  apply rbind_ok in Hg. destruct Hg as [bands [Hbands Hg]].
  apply rbind_ok in Hg. destruct Hg as [ps [Hps Hg]].
  apply rbind_ok in Hg. destruct Hg as [rs [Hrs Hg]].
  apply except_IndexError_ok in Hrs. apply of_option_ok in Hbsel.
  inversion Hg; subst cj; simpl.
  exists bsel, bands. repeat split; assumption.
Qed.

(** In a document returned by [gen_covjson], the entry of [ranges] under a
    band holds the band's array flattened in C order (time outermost, then
    y, then x), hence as many values as the array has cells, and the shape
    [[height, width]] copied from the metadata. *)
Theorem covjson_range_values : forall self md ds cj key r,
  gen_covjson self md ds = Ok cj ->
  dict_get key (cj_ranges cj) = Some r ->
  exists a height width,
    dict_get key (ds_vars ds) = Some a /\
    dict_get "height" md = Some height /\
    dict_get "width" md = Some width /\
    rg_shape r = [height; width] /\
    rg_values r = flatten (da_values a) /\
    forall t h w, rectangular t h w (da_values a) ->
                  length (rg_values r) = (t * h * w)%nat.
Proof.
  intros self md ds cj key r Hg Hget.
  apply gen_covjson_ok in Hg.
  destruct Hg as [bsel [bands [_ [_ [_ Hrs]]]]].
  destruct (fill_ranges_entries _ _ _ _ _ Hrs Hget) as [Hnil | Hnew];
    [discriminate |].
  destruct Hnew as [a [h [w [Ha [Hh [Hw ->]]]]]].
  exists a, h, w. simpl. repeat split; try assumption.
  intros t h0 w0 Hrect. apply flatten_length. exact Hrect.
Qed.

Lemma add_options_get : forall opts (m : dict (@pyval num)) k,
  dict_get k (add_options opts m) =
  match option_value opts k with
  | Some v => Some v
  | None => dict_get k m
  end.
Proof.
  intros [o |] m k; simpl; [apply dict_get_fold_set | reflexivity].
Qed.

(** The band list that reaches the encoder: the one the options bind under
    ['bands'] if they do, else the selected bands. *)
Lemma out_metadata_bands : forall self w bands om,
  out_metadata self w bands = Ok om ->
  dict_get "bands" om =
  Some match option_value (options self) "bands" with
       | Some v => v
       | None => VList (map (@VStr num) bands)
       end.
Proof.
  intros self [[[minx miny] maxx] maxy] bands om Hom.
  unfold out_metadata in Hom.
  apply rbind_ok in Hom. destruct Hom as [width [_ Hom]].
  apply rbind_ok in Hom. destruct Hom as [height [_ Hom]].
  inversion Hom; subst om. rewrite add_options_get.
  destruct (option_value (options self) "bands"); reflexivity.
Qed.

(** C10 (amended). In every CoverageJSON document that [query] returns,
    [ranges] and [parameters] have the same keys, and these are the names in the band
    list handed to the encoder: the list that the provider's options bind
    under ['bands'] when they bind one, and otherwise the selected bands
    (those asked for, or all bands of the loaded dataset when none was
    asked for). *)
Theorem covjson_keys :
  forall self range_subset subsets bbox datetime_ log cj log',
    query self range_subset subsets bbox datetime_ "json" log
      = (Ok (CoverageJSON cj), log') ->
    exists w ds0 ds bands names,
      load (dc self) (product_name self) (load_params self range_subset w)
        = Ok ds0 /\
      pop_time_units ds0 = Ok ds /\
      py_iter match option_value (options self) "bands" with
              | Some v => v
              | None => VList (map (@VStr num) (select_bands range_subset ds))
              end = Ok bands /\
      mapM (@band_name num) bands = Ok names /\
      (forall k, In k (dict_keys (cj_parameters cj)) <-> In k names) /\
      dict_keys (cj_ranges cj) = dict_keys (cj_parameters cj) /\
      (option_value (options self) "bands" = None ->
       names = select_bands range_subset ds).
Proof.
  intros self range_subset subsets bbox datetime_ log cj log' Hq.
  apply query_cases in Hq.
  destruct Hq as [[e [Hr _]] | [w [ds0 [ds [om [_ [Hload [Hpop [Hom He]]]]]]]]];
    [discriminate |].
  unfold encode in He. simpl in He. unfold bind, lift, ret in He.
  destruct (gen_covjson self om ds) as [cj0 | e] eqn:Hcj; inversion He.
  subst cj0. clear He.
  apply gen_covjson_ok in Hcj.
  destruct Hcj as [bsel [bands [Hbsel [Hiter [Hps Hrs]]]]].
  rewrite (out_metadata_bands _ _ _ Hom) in Hbsel.
  inversion Hbsel as [Hsel]; clear Hbsel.
  destruct (fill_parameters_keys _ _ _ Hps) as [names [Hnames [Hkeys Hnd]]].
  exists w, ds0, ds, bands, names.
  split; [exact Hload |]. split; [exact Hpop |].
  split; [rewrite Hsel; exact Hiter |]. split; [exact Hnames |].
  split; [intros k; rewrite Hkeys; simpl; tauto |].
  split.
  - apply (fill_ranges_keys _ _ _ Hrs); [apply Hnd; constructor |].
    intros k _ [].
  - intros Hnone. rewrite Hnone in Hsel. subst bsel.
    simpl in Hiter. inversion Hiter; subst bands.
    rewrite mapM_band_name_VStr in Hnames. congruence.
Qed.

(** ** The GeoTIFF encoder and the time axis *)

Lemma squeeze_time_length : forall (ds : @Dataset num) t,
  ds_time ds = Some t ->
  (length (tc_values t) = 1%nat -> squeeze_time ds = Ok tt) /\
  (2 <= length (tc_values t) -> exists e, squeeze_time ds = Raise e)%nat.
Proof.
  intros ds t Ht. unfold squeeze_time. rewrite Ht.
  destruct (length (tc_values t)) as [| [| n]]; split; intros Hlen;
    try lia; eauto.
Qed.

Lemma mapM_squeezed : forall (ds : @Dataset num) keys,
  squeeze_time ds = Ok tt ->
  mapM (squeeze_time_band ds) keys = mapM (band_slice ds) keys.
Proof.
  intros ds keys Hsq. induction keys as [| k keys IH]; simpl; [reflexivity |].
  unfold squeeze_time_band at 1. rewrite Hsq, IH. reflexivity.
Qed.

Lemma stacked_bands_long_time : forall (ds : @Dataset num) bands e,
  squeeze_time ds = Raise e ->
  exists e', stacked_bands ds bands = Raise e'.
Proof.
  intros ds [| b bands] e Hsq; unfold stacked_bands; simpl.
  - eauto.
  - unfold squeeze_time_band. rewrite Hsq. simpl. eauto.
Qed.

Lemma stacked_bands_ok : forall (ds : @Dataset num) bands data,
  squeeze_time ds = Ok tt ->
  stacked_bands ds bands = Ok data ->
  mapM (band_slice ds) (map (@VStr num) bands) = Ok data.
Proof.
  intros ds bands data Hsq Hst. unfold stacked_bands in Hst.
  rewrite mapM_squeezed in Hst by exact Hsq.
  apply rbind_ok in Hst. destruct Hst as [arrays [Harr Hst]].
  unfold np_stack in Hst. destruct arrays as [| a rest]; [discriminate |].
  destruct (forallb (same_shape a) rest); [| discriminate].
  congruence.
Qed.

Lemma squeeze_time_long : forall (ds : @Dataset num) t,
  ds_time ds = Some t ->
  (2 <= length (tc_values t))%nat ->
  squeeze_time ds =
  Raise (ValueError "cannot select a dimension to squeeze out which has length greater than one").
Proof.
  intros ds t Ht Hlen. unfold squeeze_time. rewrite Ht.
  destruct (length (tc_values t)) as [| [| n]]; [lia | lia | reflexivity].
Qed.

Lemma stacked_bands_squeeze_raises : forall (ds : @Dataset num) bands e,
  squeeze_time ds = Raise e ->
  bands <> [] ->
  stacked_bands ds bands = Raise e.
Proof.
  intros ds [| b bands] e Hsq Hne; [contradiction |].
  unfold stacked_bands. simpl. unfold squeeze_time_band. rewrite Hsq.
  reflexivity.
Qed.

(** C5 (amended). In a GeoTIFF query run from an empty log over a loaded
    dataset with a time axis: when the axis holds two or more slices no
    slice is chosen, the query raises an exception and writes no raster
    data, and whenever the raster was opened without error and at least one
    band is selected, that exception is the [ValueError] of [squeeze],
    raised right after the opening; when the axis holds exactly one slice,
    the data written are, band by band, that slice with the time axis
    dropped. *)
Theorem geotiff_time_axis :
  forall self range_subset subsets bbox datetime_ format_ r log' w ds0 ds t,
    format_ <> "json" ->
    lower format_ = "geotiff" ->
    query self range_subset subsets bbox datetime_ format_ [] = (r, log') ->
    spatial_subset self subsets bbox = Ok w ->
    load (dc self) (product_name self) (load_params self range_subset w)
      = Ok ds0 ->
    pop_time_units ds0 = Ok ds ->
    ds_time ds = Some t ->
    ((2 <= length (tc_values t))%nat ->
     (exists e, r = Raise e) /\
     no_write log' /\
     forall meta,
       In (EvRasterOpen meta) log' ->
       memfile_open meta = Ok tt ->
       select_bands range_subset ds <> [] ->
       r = Raise (ValueError "cannot select a dimension to squeeze out which has length greater than one") /\
       log' = [EvLoad (product_name self) (load_params self range_subset w);
               EvRasterOpen meta])
    /\
    (length (tc_values t) = 1%nat ->
     forall data, In (EvRasterWrite data) log' ->
       mapM (band_slice ds) (map (@VStr num) (select_bands range_subset ds))
         = Ok data).
Proof.
  intros self range_subset subsets bbox datetime_ format_ r log' w ds0 ds t
    Hjson Hg Hq Hw Hload Hpop Ht.
  apply query_cases in Hq.
  destruct Hq as [[e [Hr Hlog]] | [w' [ds0' [ds' [om [Hw' [Hload' [Hpop' [_ He]]]]]]]]].
  - assert (Hnw : no_write log').
    { intros data Hin. destruct Hlog as [-> | [w1 ->]]; simpl in Hin;
        [contradiction | destruct Hin as [Hin | []]; discriminate]. }
    split.
    + intros _. split; [eauto |]. split; [exact Hnw |].
      intros meta Hin. exfalso.
      destruct Hlog as [-> | [w1 ->]]; simpl in Hin;
        [contradiction | destruct Hin as [Hin | []]; discriminate].
    + intros _ data Hin. exfalso. exact (Hnw data Hin).
  - assert (w' = w) by congruence. subst w'.
    assert (ds0' = ds0) by congruence. subst ds0'.
    assert (ds' = ds) by congruence. subst ds'.
    unfold encode in He.
    destruct (String.eqb_spec format_ "json") as [| _]; [contradiction |].
    rewrite Hg in He. simpl in He. unfold bind, ret in He.
    destruct (encode_geotiff self (select_bands range_subset ds) om ds _)
      as [r0 l0] eqn:Henc.
    assert (Hl : l0 = log') by (destruct r0; inversion He; reflexivity).
    subst l0.
    assert (Hr : forall e, r0 = Raise e -> r = Raise e)
      by (intros e ->; inversion He; reflexivity).
    clear He.
    destruct (squeeze_time_length ds Ht) as [Hone Hmany].
    apply encode_geotiff_cases in Henc.
    destruct Henc as [[e [_ [Hr0 ->]]] | [meta [_ Henc]]].
    + split.
      * intros _. split; [eauto |]. split.
        -- intros data [Hin | []]. discriminate.
        -- intros meta [Hin | []]. discriminate.
      * intros _ data [Hin | []]. discriminate.
    + destruct Henc as [[e [Hr0 [-> Hwhy]]] | [st [Hst [_ ->]]]].
      * split.
        -- intros Hlen. split; [eauto |]. split.
           ++ intros data [Hin | [Hin | []]]; discriminate.
           ++ intros meta' [Hin | [Hin | []]]; [discriminate |].
              inversion Hin; subst meta'. intros Hopen Hbands.
              destruct Hwhy as [Hfail | Hstack]; [congruence |].
              rewrite (stacked_bands_squeeze_raises ds
                         (squeeze_time_long ds Ht Hlen) Hbands) in Hstack.
              inversion Hstack; subst e. split; [auto | reflexivity].
        -- intros _ data [Hin | [Hin | []]]; discriminate.
      * split.
        -- intros Hlen. destruct (Hmany Hlen) as [e Hsq].
           destruct (stacked_bands_long_time ds (select_bands range_subset ds) Hsq)
             as [e' Hst'].
           congruence.
        -- intros Hlen data [Hin | [Hin | [Hin | []]]]; try discriminate.
           inversion Hin; subst st.
           apply stacked_bands_ok; [apply Hone; exact Hlen | exact Hst].
Qed.

(** [gen_covjson] raises lookup, type and unpacking errors as they are: the
    handler around the second loop waits for an [IndexError] that nothing
    in the loop raises, so no [ProviderQueryError] ever leaves the encoder. *)
Lemma fill_parameters_raises : forall (ds : @Dataset num) bands acc e,
  fill_parameters ds bands acc = Raise e -> exists k, e = KeyError k.
Proof.
  intros ds bands. induction bands as [| bs bands IH]; intros acc e Hf;
    simpl in Hf; [discriminate |].
  unfold dataset_getitem, dict_item, band_name in Hf.
  destruct bs; simpl in Hf; try (inversion Hf; eauto; fail).
  destruct (dict_get s (ds_vars ds)) as [a |]; simpl in Hf;
    [| inversion Hf; eauto].
  destruct (dict_get "units" (da_attrs a)) as [u |]; simpl in Hf;
    [| inversion Hf; eauto].
  eapply IH. exact Hf.
Qed.

Lemma fill_ranges_raises : forall md (ds : @Dataset num) keys acc e,
  fill_ranges md ds keys acc = Raise e -> exists k, e = KeyError k.
Proof.
  intros md ds keys. induction keys as [| key keys IH]; intros acc e Hf;
    simpl in Hf; [discriminate |].
  unfold dict_item in Hf.
  destruct (dict_get key (ds_vars ds)) as [a |]; simpl in Hf;
    [| inversion Hf; eauto].
  destruct (dict_get "height" md) as [h |]; simpl in Hf;
    [| inversion Hf; eauto].
  destruct (dict_get "width" md) as [w |]; simpl in Hf;
    [| inversion Hf; eauto].
  eapply IH. exact Hf.
Qed.

Lemma gen_covjson_raises : forall self md ds e,
  gen_covjson self md ds = Raise e ->
  (exists k, e = KeyError k) \/ e = TypeError \/ (exists m, e = ValueError m).
Proof.
  intros self md ds e Hg. unfold gen_covjson, dict_item in Hg.
  destruct (dict_get "bbox" md) as [box |]; simpl in Hg;
    [| inversion Hg; eauto].
  destruct (py_iter box) as [corners |] eqn:Hiter; simpl in Hg.
  2: { destruct box; simpl in Hiter; inversion Hiter; inversion Hg; subst; auto. }
  destruct (unpack4 corners) as [[[[minx miny] maxx] maxy] |] eqn:Hun;
    simpl in Hg.
  2: { destruct corners as [| a [| b [| c [| d [| x y]]]]]; simpl in Hun;
       inversion Hun; inversion Hg; subst; eauto. }
  destruct (dict_get "width" md) as [width |]; simpl in Hg;
    [| inversion Hg; eauto].
  destruct (dict_get "height" md) as [height |]; simpl in Hg;
    [| inversion Hg; eauto].
  destruct (dict_get "bands" md) as [bsel |]; simpl in Hg;
    [| inversion Hg; eauto].
  destruct (py_iter bsel) as [bands |] eqn:Hbands; simpl in Hg.
  2: { destruct bsel; simpl in Hbands; inversion Hbands; inversion Hg;
       subst; auto. }
  destruct (fill_parameters ds bands []) as [ps |] eqn:Hps; simpl in Hg.
  2: { inversion Hg; subst. left. eapply fill_parameters_raises; eauto. }
  destruct (fill_ranges md ds (dict_keys ps) []) as [rs |] eqn:Hrs;
    simpl in Hg; [discriminate |].
  destruct (fill_ranges_raises _ _ _ _ Hrs) as [k ->]. simpl in Hg.
  inversion Hg; eauto.
Qed.

Lemma gen_covjson_no_query_error : forall self md ds msg,
  gen_covjson self md ds <> Raise (ProviderQueryError msg).
Proof.
  intros self md ds msg Hg. apply gen_covjson_raises in Hg.
  destruct Hg as [[k Hk] | [Hk | [m Hk]]]; discriminate.
Qed.

(** A selected band without a ['units'] attribute stops the encoder in the
    first loop with the [KeyError] of the lookup. *)
Lemma missing_units_raises_KeyError : forall self md ds box corners w width height name a rest,
  dict_get "bbox" md = Some box ->
  py_iter box = Ok corners ->
  unpack4 corners = Ok w ->
  dict_get "width" md = Some width ->
  dict_get "height" md = Some height ->
  dict_get "bands" md = Some (VList (VStr name :: rest)) ->
  dict_get name (ds_vars ds) = Some a ->
  dict_get "units" (da_attrs a) = None ->
  gen_covjson self md ds = Raise (KeyError "units").
Proof.
  intros self md ds box corners [[[minx miny] maxx] maxy] width height name a
    rest Hbox Hiter Hun Hw Hh Hb Ha Hu.
  unfold gen_covjson, dict_item.
  rewrite Hbox; simpl. rewrite Hiter; simpl. rewrite Hun; simpl.
  rewrite Hw, Hh, Hb; simpl. unfold dict_item. rewrite Ha; simpl.
  rewrite Hu. reflexivity.
Qed.

End Properties.

(** * The catalogue of [Scenes]: runs of the provider *)

Section Runs.

Import Scenes.
Local Open Scope Q_scope.

Lemma scenes_init : forall stored opts,
  __init__ (cube stored) (provider_def opts) = Ok (provider stored opts).
Proof. intros. reflexivity. Qed.

(** C6, on the catalogue: the description of [scenes] satisfies the width
    and height equations. *)
Lemma coverage_width_height_scenes :
  _get_coverage_properties (cube one_slice) "scenes"
    = Ok (wgs84, scenes_properties)
  /\
  exists row datasets w h,
    product_metadata (cube one_slice) "scenes" = Ok row /\
    find_datasets (cube one_slice) "scenes" = Ok datasets /\
    match pr_resolution row with
    | Some (r0, r1) =>
        cp_resx scenes_properties = r1 /\ cp_resy scenes_properties = r0
    | None =>
        exists d rest t,
          datasets = d :: rest /\
          dr_grid_transform d = Some t /\
          nth_error t 0 = Some (cp_resx scenes_properties) /\
          nth_error t 4 = Some (cp_resy scenes_properties)
    end /\
    let bounds := bbox_union (map (@dr_bounds Q) datasets) in
    cp_bbox scenes_properties
      = (left bounds, bottom bounds, right bounds, top bounds) /\
    py_div (nsub (right bounds) (left bounds)) (cp_resx scenes_properties)
      = Ok w /\
    cp_width scenes_properties = nabs w /\
    py_div (nsub (top bounds) (bottom bounds)) (cp_resy scenes_properties)
      = Ok h /\
    cp_height scenes_properties = nabs h.
Proof.
  split; [reflexivity |].
  apply (@coverage_width_height Q QNum QLibs (cube one_slice) "scenes"
           wgs84 scenes_properties).
  reflexivity.
Defined.

(** C2, on the catalogue: with both axis subsets and a bbox the query is
    refused before the load. *)
Lemma bbox_and_axis_subsets_exclusive_scenes :
  In "Lon"%string (dict_keys [("Lon"%string, [10; 10]); ("Lat"%string, [40; 40])]) /\
  In "Lat"%string (dict_keys [("Lon"%string, [10; 10]); ("Lat"%string, [40; 40])]) /\
  [10; 40; 20; 50] <> [] /\
  query (provider one_slice None) ["B02"%string]
    [("Lon"%string, [10; 10]); ("Lat"%string, [40; 40])] [10; 40; 20; 50]
    None "json" [] =
  (Raise (ProviderQueryError "bbox and subsetting by coordinates are exclusive"),
   []).
Proof.
  split; [simpl; auto |]. split; [simpl; auto |]. split; [discriminate |].
  apply (@bbox_and_axis_subsets_exclusive Q QNum QLibs
           (provider one_slice None)); [simpl; auto | simpl; auto | discriminate].
Defined.

(** C8, on the catalogue: a query with [format_ = "GeoTIFF"] for all bands
    returns the bytes of the raster as GeoTIFF bytes. *)
Lemma output_format_dispatch_scenes :
  query (provider one_slice None) [] [] [] None "GeoTIFF" []
    = (Ok (GeoTIFF tiff_magic), geotiff_calls)
  /\
  ((exists e, Ok (@GeoTIFF Q tiff_magic) = Raise e /\
      (geotiff_calls = [] \/
       exists w,
         geotiff_calls =
         [] ++ [EvLoad (product_name (provider one_slice None))
                  (load_params (provider one_slice None) [] w)]))
   \/
   (exists w ds0 ds out_meta,
      spatial_subset (provider one_slice None) [] [] = Ok w /\
      load (dc (provider one_slice None)) (product_name (provider one_slice None))
        (load_params (provider one_slice None) [] w) = Ok ds0 /\
      pop_time_units ds0 = Ok ds /\
      out_metadata (provider one_slice None) w (select_bands [] ds)
        = Ok out_meta /\
      let bands := select_bands [] ds in
      let loaded :=
        [] ++ [EvLoad (product_name (provider one_slice None))
                 (load_params (provider one_slice None) [] w)] in
      (("GeoTIFF" = "json" /\
        Ok (@GeoTIFF Q tiff_magic) =
          rmap CoverageJSON (gen_covjson (provider one_slice None) out_meta ds) /\
        geotiff_calls = loaded)
       \/
       ("GeoTIFF" <> "json" /\ lower "GeoTIFF" = "geotiff" /\
        match geotiff_metadata (provider one_slice None) bands out_meta with
        | Raise e => Ok (@GeoTIFF Q tiff_magic) = Raise e /\ geotiff_calls = loaded
        | Ok meta =>
            match memfile_open meta, stacked_bands ds bands with
            | Raise e, _ =>
                Ok (@GeoTIFF Q tiff_magic) = Raise e /\
                geotiff_calls = loaded ++ [EvRasterOpen meta]
            | Ok _, Raise e =>
                Ok (@GeoTIFF Q tiff_magic) = Raise e /\
                geotiff_calls = loaded ++ [EvRasterOpen meta]
            | Ok _, Ok stack =>
                Ok (@GeoTIFF Q tiff_magic) = rmap (@GeoTIFF Q) (memfile_write meta stack) /\
                geotiff_calls = loaded ++ [EvRasterOpen meta; EvRasterWrite stack]
            end
        end)
       \/
       ("GeoTIFF" <> "json" /\ lower "GeoTIFF" <> "geotiff" /\
        Ok (@GeoTIFF Q tiff_magic) = rmap NetCDF (to_netcdf ds) /\
        geotiff_calls = loaded ++ [EvToNetcdf ds])))).
Proof.
  split; [reflexivity |].
  apply (@output_format_dispatch Q QNum QLibs (provider one_slice None)
           [] [] [] None "GeoTIFF"%string []
           (Ok (GeoTIFF tiff_magic)) geotiff_calls).
  reflexivity.
Defined.

(** On the catalogue the three branches give, for the same provider and
    the same window: the document for "json", the raster bytes for a
    spelling of "geotiff", the NetCDF bytes for anything else. *)
Example json_run :
  query (provider one_slice None) ["B02"%string] [] [] None "json" [] =
  (Ok (CoverageJSON (document [("B02"%string, ("int16"%string, [1; 2; 3; 4]))])),
   [EvLoad "scenes" (full_extent_load (Some ["B02"%string]))]).
Proof. reflexivity. Qed.

(** The three formats, and the case of the letters *)
Example geotiff_run :
  query (provider one_slice None) [] [] [] None "GeoTIFF" [] =
  (Ok (GeoTIFF tiff_magic),
   [EvLoad "scenes" (full_extent_load None);
    EvRasterOpen (raster_metadata ["B02"; "B03"]%string);
    EvRasterWrite [[[1; 2]; [3; 4]]; [[5; 6]; [7; 8]]]]).
Proof. reflexivity. Qed.

Example netcdf_run :
  query (provider one_slice None) [] [] [] None "netcdf" [] =
  (Ok (NetCDF cdf_magic),
   [EvLoad "scenes" (full_extent_load None); EvToNetcdf one_slice_loaded]).
Proof. reflexivity. Qed.

Example uppercase_json_is_netcdf :
  fst (query (provider one_slice None) [] [] [] None "JSON" [])
  = Ok (NetCDF cdf_magic).
Proof. reflexivity. Qed.

(** The raster of a GeoTIFF query for band B03 alone still has the dtype
    and nodata of B02, the first measurement. *)
Example geotiff_b03_has_dtype_of_b02 :
  snd (query (provider one_slice None) ["B03"%string] [] [] None "geotiff" []) =
  [EvLoad "scenes" (full_extent_load (Some ["B03"%string]));
   EvRasterOpen (raster_metadata ["B03"%string]);
   EvRasterWrite [[[5; 6]; [7; 8]]]].
Proof. reflexivity. Qed.

(** C7, on the catalogue: a GeoTIFF query for all bands *)
Lemma geotiff_raster_metadata_scenes :
  "GeoTIFF"%string <> "json"%string /\
  lower "GeoTIFF" = "geotiff"%string /\
  query (provider one_slice None) [] [] [] None "GeoTIFF" [] =
  (Ok (GeoTIFF tiff_magic),
   [EvLoad "scenes" (full_extent_load None);
    EvRasterOpen (raster_metadata ["B02"; "B03"]%string);
    EvRasterWrite [[[1; 2]; [3; 4]]; [[5; 6]; [7; 8]]]]) /\
  ((forall meta,
      In (EvRasterOpen meta)
        [EvLoad "scenes" (full_extent_load None);
         EvRasterOpen (raster_metadata ["B02"; "B03"]%string);
         EvRasterWrite [[[1; 2]; [3; 4]]; [[5; 6]; [7; 8]]]] ->
      exists m ms t0 t1 t2 t3 t4 t5 rest w ds0 ds,
        _measurement_properties (provider one_slice None) = m :: ms /\
        cp_transform (_coverage_properties (provider one_slice None))
          = t0 :: t1 :: t2 :: t3 :: t4 :: t5 :: rest /\
        load (dc (provider one_slice None))
          (product_name (provider one_slice None))
          (load_params (provider one_slice None) [] w) = Ok ds0 /\
        pop_time_units ds0 = Ok ds /\
        dict_get "dtype" meta = Some (VStr (mp_dtype m)) /\
        dict_get "nodata" meta = Some (VNum (mp_nodata m)) /\
        dict_get "count" meta
          = Some (VInt (Z.of_nat (length (select_bands [] ds)))) /\
        (@nil string <> [] ->
         dict_get "count" meta = Some (VInt (Z.of_nat (length (@nil string))))) /\
        dict_get "transform" meta = Some (VAffine t0 t1 t2 t3 t4 t5))
   /\
   (forall data, Ok (@GeoTIFF Q tiff_magic) = Ok (GeoTIFF data) ->
      exists meta stack,
        In (EvRasterOpen meta)
          [EvLoad "scenes" (full_extent_load None);
           EvRasterOpen (raster_metadata ["B02"; "B03"]%string);
           EvRasterWrite [[[1; 2]; [3; 4]]; [[5; 6]; [7; 8]]]] /\
        memfile_write meta stack = Ok data)).
Proof.
  split; [discriminate |]. split; [reflexivity |]. split; [reflexivity |].
  apply (@geotiff_raster_metadata Q QNum QLibs (provider one_slice None)
           [] [] [] None "GeoTIFF"%string (Ok (GeoTIFF tiff_magic))
           [EvLoad "scenes" (full_extent_load None);
            EvRasterOpen (raster_metadata ["B02"; "B03"]%string);
            EvRasterWrite [[[1; 2]; [3; 4]]; [[5; 6]; [7; 8]]]]);
    [discriminate | reflexivity | reflexivity].
Defined.

(** On the catalogue: the range of B02 in the document of a JSON query *)
Lemma covjson_range_values_scenes :
  gen_covjson (provider one_slice None) (full_extent_metadata ["B02"%string])
    one_slice
  = Ok (document [("B02"%string, ("int16"%string, [1; 2; 3; 4]))]) /\
  dict_get "B02"
    (cj_ranges (document [("B02"%string, ("int16"%string, [1; 2; 3; 4]))]))
  = Some (range_entry "int16" [1; 2; 3; 4]) /\
  exists a height width,
    dict_get "B02" (ds_vars one_slice) = Some a /\
    dict_get "height" (full_extent_metadata ["B02"%string]) = Some height /\
    dict_get "width" (full_extent_metadata ["B02"%string]) = Some width /\
    rg_shape (range_entry "int16" [1; 2; 3; 4]) = [height; width] /\
    rg_values (range_entry "int16" [1; 2; 3; 4]) = flatten (da_values a) /\
    forall t h w, rectangular t h w (da_values a) ->
                  length (rg_values (range_entry "int16" [1; 2; 3; 4]))
                  = (t * h * w)%nat.
Proof.
  split; [reflexivity |]. split; [reflexivity |].
  apply (@covjson_range_values Q (provider one_slice None)
           (full_extent_metadata ["B02"%string]) one_slice
           (document [("B02"%string, ("int16"%string, [1; 2; 3; 4]))])
           "B02"%string (range_entry "int16" [1; 2; 3; 4]));
    reflexivity.
Defined.

(** C10 (amended), on the catalogue: the keys of the document of a JSON
    query for band B02 *)
Lemma covjson_keys_scenes :
  query (provider one_slice None) ["B02"%string] [] [] None "json" [] =
  (Ok (CoverageJSON (document [("B02"%string, ("int16"%string, [1; 2; 3; 4]))])),
   [EvLoad "scenes" (full_extent_load (Some ["B02"%string]))])
  /\
  exists w ds0 ds bands names,
    load (dc (provider one_slice None)) (product_name (provider one_slice None))
      (load_params (provider one_slice None) ["B02"%string] w) = Ok ds0 /\
    pop_time_units ds0 = Ok ds /\
    py_iter match option_value (options (provider one_slice None)) "bands" with
            | Some v => v
            | None => VList (map (@VStr Q) (select_bands ["B02"%string] ds))
            end = Ok bands /\
    mapM (@band_name Q) bands = Ok names /\
    (forall k,
       In k (dict_keys
               (cj_parameters
                  (document [("B02"%string, ("int16"%string, [1; 2; 3; 4]))])))
       <-> In k names) /\
    dict_keys (cj_ranges (document [("B02"%string, ("int16"%string, [1; 2; 3; 4]))]))
    = dict_keys (cj_parameters
                   (document [("B02"%string, ("int16"%string, [1; 2; 3; 4]))])) /\
    (option_value (options (provider one_slice None)) "bands" = None ->
     names = select_bands ["B02"%string] ds).
Proof.
  split; [reflexivity |].
  apply (@covjson_keys Q QNum QLibs (provider one_slice None) ["B02"%string]
           [] [] None []
           (document [("B02"%string, ("int16"%string, [1; 2; 3; 4]))])
           [EvLoad "scenes" (full_extent_load (Some ["B02"%string]))]).
  reflexivity.
Defined.

(** C5 (amended), on the catalogue: a GeoTIFF query over a dataset with one
    time slice *)
Lemma geotiff_time_axis_scenes :
  "geotiff"%string <> "json"%string /\
  lower "geotiff" = "geotiff"%string /\
  query (provider one_slice None) [] [] [] None "geotiff" [] =
  (Ok (GeoTIFF tiff_magic),
   [EvLoad "scenes" (full_extent_load None);
    EvRasterOpen (raster_metadata ["B02"; "B03"]%string);
    EvRasterWrite [[[1; 2]; [3; 4]]; [[5; 6]; [7; 8]]]]) /\
  spatial_subset (provider one_slice None) [] [] = Ok (0, 0, 2, 2) /\
  load (dc (provider one_slice None)) (product_name (provider one_slice None))
    (load_params (provider one_slice None) [] (0, 0, 2, 2)) = Ok one_slice /\
  pop_time_units one_slice = Ok one_slice_loaded /\
  ds_time one_slice_loaded = Some {| tc_attrs := []; tc_values := [0%Z] |} /\
  (((2 <= length [0%Z])%nat ->
    (exists e, Ok (@GeoTIFF Q tiff_magic) = Raise e) /\
    no_write [EvLoad "scenes" (full_extent_load None);
              EvRasterOpen (raster_metadata ["B02"; "B03"]%string);
              EvRasterWrite [[[1; 2]; [3; 4]]; [[5; 6]; [7; 8]]]] /\
    forall meta,
      In (EvRasterOpen meta)
        [EvLoad "scenes" (full_extent_load None);
         EvRasterOpen (raster_metadata ["B02"; "B03"]%string);
         EvRasterWrite [[[1; 2]; [3; 4]]; [[5; 6]; [7; 8]]]] ->
      memfile_open meta = Ok tt ->
      select_bands [] one_slice_loaded <> [] ->
      Ok (@GeoTIFF Q tiff_magic) =
        Raise (ValueError "cannot select a dimension to squeeze out which has length greater than one") /\
      [EvLoad "scenes" (full_extent_load None);
       EvRasterOpen (raster_metadata ["B02"; "B03"]%string);
       EvRasterWrite [[[1; 2]; [3; 4]]; [[5; 6]; [7; 8]]]] =
      [EvLoad (product_name (provider one_slice None))
         (load_params (provider one_slice None) [] (0, 0, 2, 2));
       EvRasterOpen meta])
   /\
   (length [0%Z] = 1%nat ->
    forall data,
      In (EvRasterWrite data)
        [EvLoad "scenes" (full_extent_load None);
         EvRasterOpen (raster_metadata ["B02"; "B03"]%string);
         EvRasterWrite [[[1; 2]; [3; 4]]; [[5; 6]; [7; 8]]]] ->
      mapM (band_slice one_slice_loaded)
        (map (@VStr Q) (select_bands [] one_slice_loaded)) = Ok data)).
Proof.
  split; [discriminate |]. split; [reflexivity |]. split; [reflexivity |].
  split; [reflexivity |]. split; [reflexivity |]. split; [reflexivity |].
  split; [reflexivity |].
  apply (@geotiff_time_axis Q QNum QLibs (provider one_slice None)
           [] [] [] None "geotiff"%string
           (Ok (GeoTIFF tiff_magic))
           [EvLoad "scenes" (full_extent_load None);
            EvRasterOpen (raster_metadata ["B02"; "B03"]%string);
            EvRasterWrite [[[1; 2]; [3; 4]]; [[5; 6]; [7; 8]]]]
           (0, 0, 2, 2) one_slice one_slice_loaded
           {| tc_attrs := []; tc_values := [0%Z] |});
    first [discriminate | reflexivity].
Defined.

(** C4 fails on the code.  Two acquisition dates: the range of B02 is
    declared with the axes y, x and the shape [[2, 2]] and holds the eight
    values of both slices, so the number of values is not
    [shape[0] * shape[1]]. *)
Lemma two_slices_values_exceed_shape :
  fst (query (provider two_slices None) [] [] [] None "json" [])
  = Ok (CoverageJSON
          (document [("B02"%string, ("int16"%string, [1; 2; 3; 4; 5; 6; 7; 8]))]))
  /\
  dict_get "B02"
    (cj_ranges
       (document [("B02"%string, ("int16"%string, [1; 2; 3; 4; 5; 6; 7; 8]))]))
  = Some (range_entry "int16" [1; 2; 3; 4; 5; 6; 7; 8])
  /\
  ~ fills_shape (range_entry "int16" [1; 2; 3; 4; 5; 6; 7; 8]).
Proof.
  split; [reflexivity |]. split; [reflexivity |].
  unfold fills_shape. simpl. intros Heq. discriminate Heq.
Qed.

(** C5 as stated fails.  Two acquisition dates: the GeoTIFF query opens the
    raster, then stops with the [ValueError] of [squeeze]; no slice is
    written. *)
Lemma two_slices_geotiff_raises :
  ds_time two_slices = Some {| tc_attrs := []; tc_values := [0%Z; 86400%Z] |}
  /\
  query (provider two_slices None) [] [] [] None "geotiff" [] =
  (Raise (ValueError "cannot select a dimension to squeeze out which has length greater than one"),
   [EvLoad "scenes" (full_extent_load None);
    EvRasterOpen (raster_metadata ["B02"%string])])
  /\
  no_write (snd (query (provider two_slices None) [] [] [] None "geotiff" [])).
Proof.
  split; [reflexivity |]. split; [reflexivity |].
  intros data Hin. simpl in Hin.
  destruct Hin as [Hin | [Hin | []]]; discriminate.
Qed.

(** C10 as stated fails.  Options that bind ['bands'] to B03: with no band
    asked for, the selected
    bands are B02 and B03, and the document has the key B03 alone. *)
Lemma rebound_bands_replace_selection :
  fst (query (provider one_slice (Some rebinding_options)) [] [] [] None "json" [])
  = Ok (CoverageJSON (document [("B03"%string, ("float32"%string, [5; 6; 7; 8]))]))
  /\
  snd (query (provider one_slice (Some rebinding_options)) [] [] [] None "json" [])
  = [EvLoad "scenes" (full_extent_load None)]
  /\
  load (cube one_slice) "scenes" (full_extent_load None) = Ok one_slice
  /\
  pop_time_units one_slice = Ok one_slice_loaded
  /\
  select_bands [] one_slice_loaded = ["B02"; "B03"]%string
  /\
  ~ (forall k,
       In k (dict_keys
               (cj_ranges
                  (document [("B03"%string, ("float32"%string, [5; 6; 7; 8]))])))
       <-> In k (select_bands [] one_slice_loaded)).
Proof.
  split; [reflexivity |]. split; [reflexivity |]. split; [reflexivity |].
  split; [reflexivity |]. split; [reflexivity |].
  intros Hkeys. destruct (Hkeys "B02"%string) as [_ Hin].
  simpl in Hin. destruct Hin as [Hin | []]; [auto | discriminate].
Qed.

(** C1 fails on the code.  Native CRS EPSG:4326 and [bbox = [0, 0, 1, 1]]:
    the window stays at the full extent (0, 0, 2, 2), and so do the ranges of the load and the axes
    of the document. *)
Lemma wgs84_bbox_is_not_applied :
  to_epsg (crs_obj (provider one_slice None)) = Some 4326%Z
  /\
  spatial_subset (provider one_slice None) [] [0; 0; 1; 1] = Ok (0, 0, 2, 2)
  /\
  query (provider one_slice None) ["B02"%string] [] [0; 0; 1; 1] None "json" [] =
  (Ok (CoverageJSON (document [("B02"%string, ("int16"%string, [1; 2; 3; 4]))])),
   [EvLoad "scenes" (full_extent_load (Some ["B02"%string]))])
  /\
  lp_x (full_extent_load (Some ["B02"%string])) = (0, 2)
  /\
  lp_y (full_extent_load (Some ["B02"%string])) = (0, 2).
Proof. repeat split; reflexivity. Qed.

(** C3 fails on the code.  A requested band without ['units']: the
    [KeyError] of the lookup leaves
    [gen_covjson] and [query] as it is, not as a [ProviderQueryError]. *)
Lemma missing_units_is_not_a_query_error :
  dict_get "units" (da_attrs (band [] "int16" [[[1; 2]; [3; 4]]])) = None
  /\
  gen_covjson (provider no_units None) (full_extent_metadata ["B02"%string])
    no_units
  = Raise (KeyError "units")
  /\
  query (provider no_units None) ["B02"%string] [] [] None "json" [] =
  (Raise (KeyError "units"),
   [EvLoad "scenes" (full_extent_load (Some ["B02"%string]))]).
Proof. repeat split; reflexivity. Qed.

End Runs.

(** * Further properties of the provider *)

Lemma dict_get_pop_other : forall V k k' (d : dict V),
  k <> k' -> dict_get k (dict_pop k' d) = dict_get k d.
Proof.
  induction d as [| [k0 v0] d IH]; intros Hne; simpl; [reflexivity |].
  destruct (String.eqb_spec k' k0) as [-> | Hne0]; simpl.
  - destruct (String.eqb_spec k k0); [contradiction | reflexivity].
  - destruct (String.eqb_spec k k0); [reflexivity | auto].
Qed.

Lemma dict_get_pop_same : forall V k (d : dict V),
  NoDup (dict_keys d) -> dict_get k (dict_pop k d) = None.
Proof.
  induction d as [| [k0 v0] d IH]; intros Hnd; simpl; [reflexivity |].
  inversion Hnd as [| x l Hnotin Hnd']; subst.
  destruct (String.eqb_spec k k0) as [-> | Hne]; simpl.
  - destruct (dict_get k0 d) eqn:Hget; [| reflexivity].
    exfalso. apply Hnotin. eapply dict_get_In. exact Hget.
  - destruct (String.eqb_spec k k0); [contradiction | auto].
Qed.

Lemma mapM_length : forall A B (f : A -> result B) l bs,
  mapM f l = Ok bs -> length bs = length l.
Proof.
  induction l as [| a l IH]; intros bs Hm; simpl in Hm.
  - inversion Hm. reflexivity.
  - apply rbind_ok in Hm. destruct Hm as [b [_ Hm]].
    apply rbind_ok in Hm. destruct Hm as [bs' [Hbs Hm]].
    inversion Hm; subst. simpl. f_equal. auto.
Qed.

Lemma map_combine_seq_fst : forall A (l : list A) n,
  map fst (combine (seq n (length l)) l) = seq n (length l).
Proof.
  induction l as [| a l IH]; intros n; simpl; [reflexivity |].
  now rewrite IH.
Qed.

Lemma map_combine_seq_snd : forall A (l : list A) n,
  map snd (combine (seq n (length l)) l) = l.
Proof.
  induction l as [| a l IH]; intros n; simpl; [reflexivity |].
  now rewrite IH.
Qed.

Section MoreProperties.

Context {num : Type} `{PyNum num} `{@Libs num}.

Implicit Types (self : @Provider num) (log : list (@event num)).

(** ** The window of a query *)

(** Ranges for both axis labels and no bbox: the window is made of the
    first two numbers of each range, taken as they are. *)
Theorem axis_subsets_window : forall self subsets a0 a1 ra b0 b1 rb,
  dict_get (cp_x_axis_label (_coverage_properties self)) subsets
    = Some (a0 :: a1 :: ra) ->
  dict_get (cp_y_axis_label (_coverage_properties self)) subsets
    = Some (b0 :: b1 :: rb) ->
  spatial_subset self subsets [] = Ok (a0, b0, a1, b1).
Proof.
  intros self subsets a0 a1 ra b0 b1 rb Hx Hy. unfold spatial_subset.
  destruct (cp_bbox (_coverage_properties self)) as [[[minx miny] maxx] maxy].
  unfold dict_mem, dict_item. rewrite Hx, Hy. reflexivity.
Qed.

(** A query whose window cannot be resolved makes no outside call. *)
Lemma query_subset_raises :
  forall self range_subset subsets bbox datetime_ format_ log e,
    spatial_subset self subsets bbox = Raise e ->
    query self range_subset subsets bbox datetime_ format_ log = (Raise e, log).
Proof.
  intros self range_subset subsets bbox datetime_ format_ log e Hw.
  unfold query, bind, lift. rewrite Hw. reflexivity.
Qed.

(** Ranges for both axis labels, no bbox, and one of the ranges with fewer
    than two numbers: the query stops with an [IndexError] before the load. *)
Theorem short_axis_range_raises :
  forall self range_subset subsets datetime_ format_ log rx ry,
    dict_get (cp_x_axis_label (_coverage_properties self)) subsets = Some rx ->
    dict_get (cp_y_axis_label (_coverage_properties self)) subsets = Some ry ->
    (length rx < 2 \/ length ry < 2)%nat ->
    query self range_subset subsets [] datetime_ format_ log
      = (Raise IndexError, log).
Proof.
  intros self range_subset subsets datetime_ format_ log rx ry Hx Hy Hshort.
  apply query_subset_raises. unfold spatial_subset.
  destruct (cp_bbox (_coverage_properties self)) as [[[minx miny] maxx] maxy].
  unfold dict_mem, dict_item. rewrite Hx, Hy. simpl.
  destruct rx as [| a0 [| a1 ra]]; try reflexivity;
    destruct ry as [| b0 [| b1 rb]]; try reflexivity.
  simpl in Hshort. lia.
Qed.

(** No bbox and not both axis labels among the subsets (a range for one
    axis alone included): the window is the full extent of the description. *)
Theorem no_spatial_constraint_full_extent : forall self subsets,
  ~ (In (cp_x_axis_label (_coverage_properties self)) (dict_keys subsets) /\
     In (cp_y_axis_label (_coverage_properties self)) (dict_keys subsets)) ->
  spatial_subset self subsets [] = Ok (cp_bbox (_coverage_properties self)).
Proof.
  intros self subsets Hnot. unfold spatial_subset.
  destruct (cp_bbox (_coverage_properties self)) as [[[minx miny] maxx] maxy].
  destruct (dict_mem (cp_x_axis_label (_coverage_properties self)) subsets)
    eqn:Hx;
    destruct (dict_mem (cp_y_axis_label (_coverage_properties self)) subsets)
      eqn:Hy; try reflexivity.
  exfalso. apply Hnot. split; apply dict_mem_In; assumption.
Qed.

(** A 4-number bbox over a native CRS other than EPSG:4326: the window is
    made of the images of the two corners (minx, miny) and (maxx, maxy),
    each transformed on its own from EPSG:4326 to the native code. *)
Theorem reprojected_window : forall self subsets code b0 b1 b2 b3,
  to_epsg (crs_obj self) = Some code ->
  code <> 4326 ->
  ~ (In (cp_x_axis_label (_coverage_properties self)) (dict_keys subsets) /\
     In (cp_y_axis_label (_coverage_properties self)) (dict_keys subsets)) ->
  spatial_subset self subsets [b0; b1; b2; b3] =
  Ok (fst (transform 4326 code b0 b1), snd (transform 4326 code b0 b1),
      fst (transform 4326 code b2 b3), snd (transform 4326 code b2 b3)).
Proof.
  intros self subsets code b0 b1 b2 b3 Hcode Hne Hnot. unfold spatial_subset.
  destruct (cp_bbox (_coverage_properties self)) as [[[minx miny] maxx] maxy].
  assert (Hmem : (dict_mem (cp_x_axis_label (_coverage_properties self)) subsets
                  && dict_mem (cp_y_axis_label (_coverage_properties self)) subsets)%bool
                 = false).
  { apply not_true_is_false. intros Hboth.
    apply andb_true_iff in Hboth. destruct Hboth as [Hx Hy].
    apply Hnot. split; apply dict_mem_In; assumption. }
  assert (Heqb : Z.eqb 4326 code = false)
    by (apply Z.eqb_neq; congruence).
  rewrite Hmem. cbv [length Nat.ltb Nat.leb unpack4 rbind].
  rewrite Hcode. cbv [of_option]. rewrite Heqb.
  destruct (transform 4326 code b0 b1) as [x0 y0].
  destruct (transform 4326 code b2 b3) as [x1 y1]. reflexivity.
Qed.

(** A bbox that is not empty and does not hold four numbers stops the query
    with the [ValueError] of the unpacking, before the load. *)
Theorem bbox_wrong_length_raises :
  forall self range_subset subsets bbox datetime_ format_ log,
    bbox <> [] ->
    length bbox <> 4%nat ->
    ~ (In (cp_x_axis_label (_coverage_properties self)) (dict_keys subsets) /\
       In (cp_y_axis_label (_coverage_properties self)) (dict_keys subsets)) ->
    query self range_subset subsets bbox datetime_ format_ log
      = (Raise (ValueError "wrong number of values to unpack"), log).
Proof.
  intros self range_subset subsets bbox datetime_ format_ log Hne Hlen Hnot.
  apply query_subset_raises. unfold spatial_subset.
  destruct (cp_bbox (_coverage_properties self)) as [[[minx miny] maxx] maxy].
  assert (Hmem : (dict_mem (cp_x_axis_label (_coverage_properties self)) subsets
                  && dict_mem (cp_y_axis_label (_coverage_properties self)) subsets)%bool
                 = false).
  { apply not_true_is_false. intros Hboth.
    apply andb_true_iff in Hboth. destruct Hboth as [Hx Hy].
    apply Hnot. split; apply dict_mem_In; assumption. }
  rewrite Hmem.
  destruct bbox as [| a [| b [| c [| d [| x y]]]]]; simpl in *;
    try reflexivity; congruence.
Qed.

(** ** The outside calls of a query *)

(** The encoders append to the log: nothing, a raster opening, a raster
    opening and a write, or one call of [to_netcdf]. *)
Lemma encode_events : forall self format_ bands out_meta ds log r log',
  encode self format_ bands out_meta ds log = (r, log') ->
  exists events,
    log' = log ++ events /\
    (events = [] \/
     (exists meta, events = [EvRasterOpen meta]) \/
     (exists meta data, events = [EvRasterOpen meta; EvRasterWrite data]) \/
     events = [EvToNetcdf ds]).
Proof.
  intros self format_ bands out_meta ds log r log' He. unfold encode in He.
  destruct (String.eqb format_ "json").
  - unfold bind, lift, ret in He.
    exists []. rewrite app_nil_r.
    destruct (gen_covjson self out_meta ds); inversion He; auto.
  - destruct (String.eqb (lower format_) "geotiff").
    + unfold bind, ret in He.
      destruct (encode_geotiff self bands out_meta ds log) as [r0 l0] eqn:Henc.
      assert (Hl : l0 = log') by (destruct r0; inversion He; reflexivity).
      subst l0. apply encode_geotiff_cases in Henc.
      destruct Henc as [[e [_ [_ ->]]] | [meta [_ Henc]]].
      * exists []. rewrite app_nil_r. auto.
      * destruct Henc as [[e [_ [-> _]]] | [st [_ [_ ->]]]]; eauto 8.
    + unfold bind, call, ret in He.
      exists [EvToNetcdf ds].
      destruct (to_netcdf ds); inversion He; auto 6.
Qed.

(** A query calls [load] at most once, before any other outside call, for
    the product of the provider and with the parameters built from the
    resolved window: the CRS string, an alignment of half the absolute
    resolution in (y, x) order, the x and y ranges of the window, and the
    measurements when bands were asked for.  A query whose window cannot be
    resolved calls nothing. *)
Theorem query_load_call :
  forall self range_subset subsets bbox datetime_ format_ r log',
    query self range_subset subsets bbox datetime_ format_ [] = (r, log') ->
    (exists e, spatial_subset self subsets bbox = Raise e /\
               r = Raise e /\ log' = [])
    \/
    (exists minx miny maxx maxy rest,
       spatial_subset self subsets bbox = Ok (minx, miny, maxx, maxy) /\
       log' =
         EvLoad (product_name self)
           {| lp_crs := "epsg:" ++ fmt_opt_Z (to_epsg (crs_obj self));
              lp_align :=
                (nabs (nhalf (cp_resy (_coverage_properties self))),
                 nabs (nhalf (cp_resx (_coverage_properties self))));
              lp_x := (minx, maxx);
              lp_y := (miny, maxy);
              lp_measurements :=
                match range_subset with
                | [] => None
                | _ :: _ => Some range_subset
                end |} :: rest /\
       forall product params, ~ In (EvLoad product params) rest).
Proof.
  intros self range_subset subsets bbox datetime_ format_ r log' Hq.
  destruct (spatial_subset self subsets bbox) as [w | e] eqn:Hw.
  2: { left. exists e. rewrite (query_subset_raises _ _ _ _ _ _ _ Hw) in Hq.
       inversion Hq. auto. }
  right. destruct w as [[[minx miny] maxx] maxy].
  exists minx, miny, maxx, maxy.
  assert (Hparams :
            load_params self range_subset (minx, miny, maxx, maxy) =
            {| lp_crs := "epsg:" ++ fmt_opt_Z (to_epsg (crs_obj self));
               lp_align :=
                 (nabs (nhalf (cp_resy (_coverage_properties self))),
                  nabs (nhalf (cp_resx (_coverage_properties self))));
               lp_x := (minx, maxx);
               lp_y := (miny, maxy);
               lp_measurements :=
                 match range_subset with
                 | [] => None
                 | _ :: _ => Some range_subset
                 end |}).
  { unfold load_params. destruct range_subset; reflexivity. }
  rewrite <- Hparams. clear Hparams.
  unfold query, bind, lift, call in Hq. rewrite Hw in Hq.
  change ([] ++ [EvLoad (product_name self)
                   (load_params self range_subset (minx, miny, maxx, maxy))])
    with [EvLoad (product_name self)
            (load_params self range_subset (minx, miny, maxx, maxy))] in Hq.
  destruct (load (dc self) (product_name self)
              (load_params self range_subset (minx, miny, maxx, maxy)))
    as [ds0 | e].
  2: { inversion Hq. exists []. repeat split; auto. }
  destruct (pop_time_units ds0) as [ds | e].
  2: { inversion Hq. exists []. repeat split; auto. }
  destruct (out_metadata self (minx, miny, maxx, maxy)
              (select_bands range_subset ds)) as [om | e].
  2: { inversion Hq. exists []. repeat split; auto. }
  apply encode_events in Hq. destruct Hq as [evs [-> Hevs]].
  exists evs. split; [reflexivity |]. split; [reflexivity |].
  intros product params Hin.
  destruct Hevs as [-> | [[m ->] | [[m [d ->]] | ->]]]; simpl in Hin;
    intuition discriminate.
Qed.

(** An exception of [load] leaves the query as it is, right after the call:
    no encoder runs. *)
Theorem load_failure_propagates :
  forall self range_subset subsets bbox datetime_ format_ log w e,
    spatial_subset self subsets bbox = Ok w ->
    load (dc self) (product_name self) (load_params self range_subset w)
      = Raise e ->
    query self range_subset subsets bbox datetime_ format_ log =
    (Raise e,
     log ++ [EvLoad (product_name self) (load_params self range_subset w)]).
Proof.
  intros self range_subset subsets bbox datetime_ format_ log w e Hw Hload.
  unfold query, bind, lift, call. rewrite Hw, Hload. reflexivity.
Qed.

(** A loaded dataset without a time coordinate (what a load that finds
    nothing returns) stops the query with an [AttributeError] after the
    load, whatever the format. *)
Theorem missing_time_coordinate_raises :
  forall self range_subset subsets bbox datetime_ format_ log w ds0,
    spatial_subset self subsets bbox = Ok w ->
    load (dc self) (product_name self) (load_params self range_subset w)
      = Ok ds0 ->
    ds_time ds0 = None ->
    query self range_subset subsets bbox datetime_ format_ log =
    (Raise (AttributeError "time"),
     log ++ [EvLoad (product_name self) (load_params self range_subset w)]).
Proof.
  intros self range_subset subsets bbox datetime_ format_ log w ds0 Hw Hload Ht.
  unfold query, bind, lift, call. rewrite Hw, Hload.
  unfold pop_time_units. rewrite Ht. reflexivity.
Qed.

(** What [dataset.time.attrs.pop('units', None)] changes: the time
    coordinate loses its ['units'] attribute (its keys being distinct, as
    in a dictionary) and keeps every other attribute and its values; the
    variables are untouched. *)
Theorem pop_time_units_effect : forall (ds0 ds : @Dataset num),
  pop_time_units ds0 = Ok ds ->
  exists t0 t,
    ds_time ds0 = Some t0 /\ ds_time ds = Some t /\
    tc_values t = tc_values t0 /\
    ds_vars ds = ds_vars ds0 /\
    (forall k, k <> "units" ->
               dict_get k (tc_attrs t) = dict_get k (tc_attrs t0)) /\
    (NoDup (dict_keys (tc_attrs t0)) -> dict_get "units" (tc_attrs t) = None).
Proof.
  intros ds0 ds Hpop. unfold pop_time_units in Hpop.
  destruct (ds_time ds0) as [t0 |] eqn:Ht0; [| discriminate].
  inversion Hpop; subst ds; clear Hpop. simpl.
  exists t0. eexists. split; [reflexivity |]. split; [reflexivity |]. simpl.
  repeat split.
  - intros k Hne. apply dict_get_pop_other. exact Hne.
  - intros Hnd. apply dict_get_pop_same. exact Hnd.
Qed.

(** The JSON encoder makes no outside call: a JSON query logs the load and
    nothing else. *)
Theorem json_query_only_loads :
  forall self range_subset subsets bbox datetime_ log r log',
    query self range_subset subsets bbox datetime_ "json" log = (r, log') ->
    log' = log \/
    exists w, spatial_subset self subsets bbox = Ok w /\
              log' = log ++ [EvLoad (product_name self)
                               (load_params self range_subset w)].
Proof.
  intros self range_subset subsets bbox datetime_ log r log' Hq.
  unfold query, bind, lift, call in Hq.
  destruct (spatial_subset self subsets bbox) as [w | e] eqn:Hw.
  2: { inversion Hq. auto. }
  right. exists w. split; [reflexivity |].
  destruct (load (dc self) (product_name self)
              (load_params self range_subset w)) as [ds0 | e].
  2: { inversion Hq. reflexivity. }
  destruct (pop_time_units ds0) as [ds | e].
  2: { inversion Hq. reflexivity. }
  destruct (out_metadata self w (select_bands range_subset ds)) as [om | e].
  2: { inversion Hq. reflexivity. }
  unfold encode in Hq. simpl in Hq. unfold bind, lift, ret in Hq.
  destruct (gen_covjson self om ds); inversion Hq; reflexivity.
Qed.

(** A NetCDF query that returns has serialised the whole loaded dataset:
    every variable the load returned, with the time coordinate stripped of
    its units, whatever the selected bands are. *)
Theorem netcdf_whole_dataset :
  forall self range_subset subsets bbox datetime_ format_ log out log',
    format_ <> "json" ->
    lower format_ <> "geotiff" ->
    query self range_subset subsets bbox datetime_ format_ log = (Ok out, log') ->
    exists w ds0 ds data,
      spatial_subset self subsets bbox = Ok w /\
      load (dc self) (product_name self) (load_params self range_subset w)
        = Ok ds0 /\
      pop_time_units ds0 = Ok ds /\
      ds_vars ds = ds_vars ds0 /\
      to_netcdf ds = Ok data /\
      out = NetCDF data /\
      log' = log ++ [EvLoad (product_name self) (load_params self range_subset w);
                     EvToNetcdf ds].
Proof.
  intros self range_subset subsets bbox datetime_ format_ log out log'
    Hjson Hg Hq.
  apply query_cases in Hq.
  destruct Hq as [[e [Hr _]] | [w [ds0 [ds [om [Hw [Hload [Hpop [_ He]]]]]]]]];
    [discriminate |].
  unfold encode in He.
  destruct (String.eqb_spec format_ "json") as [| _]; [contradiction |].
  destruct (String.eqb_spec (lower format_) "geotiff") as [| _];
    [contradiction |].
  unfold bind, call, ret in He.
  destruct (to_netcdf ds) as [data | e] eqn:Hnc; inversion He; subst.
  exists w, ds0, ds, data. rewrite <- app_assoc.
  destruct (pop_time_units_effect _ Hpop) as [t0 [t [_ [_ [_ [Hvars _]]]]]].
  repeat split; auto.
Qed.

(** ** The CoverageJSON document *)

Lemma out_metadata_get : forall self minx miny maxx maxy bands om,
  out_metadata self (minx, miny, maxx, maxy) bands = Ok om ->
  exists width height,
    py_div (nsub maxx minx) (cp_resx (_coverage_properties self)) = Ok width /\
    py_div (nsub maxy miny) (cp_resy (_coverage_properties self)) = Ok height /\
    forall k,
      dict_get k om =
      match option_value (options self) k with
      | Some v => Some v
      | None =>
          dict_get k
            [("bbox", VList [VNum minx; VNum miny; VNum maxx; VNum maxy]);
             ("width", VNum (nabs width));
             ("height", VNum (nabs height));
             ("bands", VList (map (@VStr num) bands))]
      end.
Proof.
  intros self minx miny maxx maxy bands om Hom. unfold out_metadata in Hom.
  apply rbind_ok in Hom. destruct Hom as [width [Hw Hom]].
  apply rbind_ok in Hom. destruct Hom as [height [Hh Hom]].
  inversion Hom; subst om. exists width, height.
  split; [exact Hw |]. split; [exact Hh |].
  intros k. apply add_options_get.
Qed.

(** The domain of the document of a JSON query, when the options bind none
    of ['bbox'], ['width'] and ['height']: both axes run from the minimum to
    the maximum of the resolved window, with [|extent / resolution|] as
    number of cells, the referencing names the CRS type and URI of the
    description, and every range carries the shape [[height, width]] made
    of these two numbers. *)
Theorem covjson_domain_of_window :
  forall self range_subset subsets bbox datetime_ log cj log',
    option_value (options self) "bbox" = None ->
    option_value (options self) "width" = None ->
    option_value (options self) "height" = None ->
    query self range_subset subsets bbox datetime_ "json" log
      = (Ok (CoverageJSON cj), log') ->
    exists minx miny maxx maxy width height,
      spatial_subset self subsets bbox = Ok (minx, miny, maxx, maxy) /\
      py_div (nsub maxx minx) (cp_resx (_coverage_properties self)) = Ok width /\
      py_div (nsub maxy miny) (cp_resy (_coverage_properties self)) = Ok height /\
      cj_type cj = "Coverage" /\
      cj_domain cj =
        {| dom_type := "Domain";
           dom_domainType := "Grid";
           dom_x := {| ax_start := VNum minx; ax_stop := VNum maxx;
                       ax_num := VNum (nabs width) |};
           dom_y := {| ax_start := VNum miny; ax_stop := VNum maxy;
                       ax_num := VNum (nabs height) |};
           dom_referencing :=
             [{| ref_coordinates := ["x"; "y"];
                 ref_system_type := cp_crs_type (_coverage_properties self);
                 ref_system_id := cp_crs_uri (_coverage_properties self) |}] |} /\
      forall key r, dict_get key (cj_ranges cj) = Some r ->
                    rg_shape r = [VNum (nabs height); VNum (nabs width)].
Proof.
  intros self range_subset subsets bbox datetime_ log cj log' Hb Hwd Hht Hq.
  apply query_cases in Hq.
  destruct Hq as [[e [Hr _]] | [w [ds0 [ds [om [Hw [_ [_ [Hom He]]]]]]]]];
    [discriminate |].
  destruct w as [[[minx miny] maxx] maxy].
  destruct (out_metadata_get _ _ _ _ _ _ Hom) as [width [height [Hpw [Hph Hget]]]].
  unfold encode in He. simpl in He. unfold bind, lift, ret in He.
  destruct (gen_covjson self om ds) as [cj0 | e] eqn:Hcj; inversion He.
  subst cj0. clear He.
  exists minx, miny, maxx, maxy, width, height.
  split; [exact Hw |]. split; [exact Hpw |]. split; [exact Hph |].
  assert (Hbox : dict_get "bbox" om
                 = Some (VList [VNum minx; VNum miny; VNum maxx; VNum maxy]))
    by (rewrite Hget, Hb; reflexivity).
  assert (Hwidth : dict_get "width" om = Some (VNum (nabs width)))
    by (rewrite Hget, Hwd; reflexivity).
  assert (Hheight : dict_get "height" om = Some (VNum (nabs height)))
    by (rewrite Hget, Hht; reflexivity).
  assert (Hshape : forall key r, dict_get key (cj_ranges cj) = Some r ->
                     rg_shape r = [VNum (nabs height); VNum (nabs width)]).
  { intros key r Hr.
    destruct (gen_covjson_ok _ _ _ Hcj) as [bsel [bands [_ [_ [_ Hrs]]]]].
    destruct (fill_ranges_entries _ _ _ _ _ Hrs Hr) as [Hnil | Hnew];
      [discriminate |].
    destruct Hnew as [a [h [w0 [_ [Hh [Hw0 ->]]]]]]. simpl. congruence. }
  unfold gen_covjson, dict_item in Hcj.
  rewrite Hbox, Hwidth, Hheight in Hcj. simpl in Hcj.
  apply rbind_ok in Hcj. destruct Hcj as [bsel [_ Hcj]].
  apply rbind_ok in Hcj. destruct Hcj as [bands [_ Hcj]].
  apply rbind_ok in Hcj. destruct Hcj as [ps [_ Hcj]].
  apply rbind_ok in Hcj. destruct Hcj as [rs [_ Hcj]].
  inversion Hcj; subst cj; simpl in *. auto.
Qed.

Lemma fill_parameters_entries :
  forall (ds : @Dataset num) bands acc ps key p,
    fill_parameters ds bands acc = Ok ps ->
    dict_get key ps = Some p ->
    dict_get key acc = Some p \/
    exists a symbol,
      dict_get key (ds_vars ds) = Some a /\
      dict_get "units" (da_attrs a) = Some symbol /\
      p = {| par_type := "Parameter";
             par_description := key;
             par_unit_symbol := symbol;
             par_observed_id := key;
             par_observed_label_en := key |}.
Proof.
  intros ds bands. induction bands as [| bs bands IH]; intros acc ps key p Hf Hget;
    simpl in Hf.
  - inversion Hf; subst. auto.
  - apply rbind_ok in Hf. destruct Hf as [a [Ha Hf]].
    apply rbind_ok in Hf. destruct Hf as [u [Hu Hf]].
    apply rbind_ok in Hf. destruct Hf as [name [Hname Hf]].
    destruct (IH _ _ _ _ Hf Hget) as [Hacc | Hnew]; [| auto].
    destruct bs; simpl in Hname; try discriminate.
    inversion Hname; subst name. simpl in Ha.
    apply of_option_ok in Ha. apply of_option_ok in Hu.
    destruct (string_dec key s) as [-> | Hne].
    + rewrite dict_get_set_same in Hacc. inversion Hacc; subst p.
      right. exists a, u. auto.
    + rewrite dict_get_set_other in Hacc by exact Hne. auto.
Qed.

(** Every parameter of a document returned by [gen_covjson] describes a
    variable of the dataset: its description, observed property id and
    English label are the band name, and its unit symbol is the ['units']
    attribute of that variable. *)
Theorem covjson_parameter_entries : forall self md ds cj key p,
  gen_covjson self md ds = Ok cj ->
  dict_get key (cj_parameters cj) = Some p ->
  exists a symbol,
    dict_get key (ds_vars ds) = Some a /\
    dict_get "units" (da_attrs a) = Some symbol /\
    p = {| par_type := "Parameter";
           par_description := key;
           par_unit_symbol := symbol;
           par_observed_id := key;
           par_observed_label_en := key |}.
Proof.
  intros self md ds cj key p Hg Hget.
  apply gen_covjson_ok in Hg.
  destruct Hg as [bsel [bands [_ [_ [Hps _]]]]].
  destruct (fill_parameters_entries _ _ _ _ Hps Hget) as [Hnil | Hnew];
    [discriminate | exact Hnew].
Qed.

Lemma fill_parameters_order : forall (ds : @Dataset num) names acc ps,
  fill_parameters ds (map (@VStr num) names) acc = Ok ps ->
  NoDup names ->
  (forall k, In k names -> ~ In k (dict_keys acc)) ->
  dict_keys ps = dict_keys acc ++ names.
Proof.
  intros ds names. induction names as [| n names IH]; intros acc ps Hf Hnd Hdis;
    simpl in Hf.
  - inversion Hf. now rewrite app_nil_r.
  - apply rbind_ok in Hf. destruct Hf as [a [_ Hf]].
    apply rbind_ok in Hf. destruct Hf as [u [_ Hf]].
    inversion Hnd as [| x l Hnotin Hnd']; subst.
    apply IH in Hf; [| exact Hnd' |].
    + rewrite Hf, dict_keys_set.
      destruct (dict_mem n acc) eqn:Hmem.
      * apply dict_mem_In in Hmem. exfalso. apply (Hdis n); simpl; auto.
      * rewrite <- app_assoc. reflexivity.
    + intros k Hk Hin. apply dict_keys_set_In in Hin.
      destruct Hin as [-> | Hin]; [contradiction |].
      apply (Hdis k); simpl; auto.
Qed.

(** When the band list handed to [gen_covjson] holds distinct names, the
    parameters and the ranges of the document are keyed by these names in
    the order of the list. *)
Theorem covjson_keys_in_band_order : forall self md ds cj names,
  dict_get "bands" md = Some (VList (map (@VStr num) names)) ->
  NoDup names ->
  gen_covjson self md ds = Ok cj ->
  dict_keys (cj_parameters cj) = names /\ dict_keys (cj_ranges cj) = names.
Proof.
  intros self md ds cj names Hb Hnd Hg.
  apply gen_covjson_ok in Hg.
  destruct Hg as [bsel [bands [Hbsel [Hiter [Hps Hrs]]]]].
  rewrite Hb in Hbsel. inversion Hbsel; subst bsel. simpl in Hiter.
  inversion Hiter; subst bands.
  assert (Hkeys : dict_keys (cj_parameters cj) = names).
  { change (dict_keys (cj_parameters cj) = dict_keys (@nil (string * CovParameter)) ++ names).
    eapply fill_parameters_order; [exact Hps | exact Hnd | intros k _ []]. }
  split; [exact Hkeys |].
  rewrite Hkeys in Hrs.
  change (dict_keys (cj_ranges cj) = dict_keys (@nil (string * @NdArrayRange num)) ++ names).
  eapply fill_ranges_keys; [exact Hrs | exact Hnd | intros k _ []].
Qed.

(** ** The GeoTIFF branch *)

(** A run of a GeoTIFF query from an empty log: it stops before any raster
    is opened, or it opens the raster with the metadata of
    [geotiff_metadata] and then either fails or writes the stacked bands. *)
Lemma geotiff_query_cases :
  forall self range_subset subsets bbox datetime_ format_ r log',
    format_ <> "json" ->
    lower format_ = "geotiff" ->
    query self range_subset subsets bbox datetime_ format_ [] = (r, log') ->
    ((exists e, r = Raise e) /\
     (log' = [] \/ exists product params, log' = [EvLoad product params]))
    \/
    (exists w ds0 ds om meta,
       spatial_subset self subsets bbox = Ok w /\
       load (dc self) (product_name self) (load_params self range_subset w)
         = Ok ds0 /\
       pop_time_units ds0 = Ok ds /\
       out_metadata self w (select_bands range_subset ds) = Ok om /\
       geotiff_metadata self (select_bands range_subset ds) om = Ok meta /\
       (((exists e, r = Raise e) /\
         (exists e, stacked_bands ds (select_bands range_subset ds) = Raise e
                    \/ memfile_open meta = Raise e) /\
         log' = [EvLoad (product_name self) (load_params self range_subset w);
                 EvRasterOpen meta])
        \/
        (exists st,
           stacked_bands ds (select_bands range_subset ds) = Ok st /\
           log' = [EvLoad (product_name self) (load_params self range_subset w);
                   EvRasterOpen meta; EvRasterWrite st]))).
Proof.
  intros self range_subset subsets bbox datetime_ format_ r log' Hjson Hg Hq.
  apply query_cases in Hq.
  destruct Hq as [[e [Hr Hlog]] | [w [ds0 [ds [om [Hw [Hload [Hpop [Hom He]]]]]]]]].
  - left. split; [eauto |]. destruct Hlog as [-> | [w ->]]; [auto |].
    right. eexists. eexists. reflexivity.
  - unfold encode in He.
    destruct (String.eqb_spec format_ "json") as [| _]; [contradiction |].
    rewrite Hg in He. simpl in He. unfold bind, ret in He.
    destruct (encode_geotiff self (select_bands range_subset ds) om ds _)
      as [r0 l0] eqn:Henc.
    assert (Hl : l0 = log') by (destruct r0; inversion He; reflexivity).
    subst l0.
    assert (Hr : forall e, r0 = Raise e -> r = Raise e)
      by (intros e ->; inversion He; reflexivity).
    clear He. apply encode_geotiff_cases in Henc.
    destruct Henc as [[e [_ [Hr0 ->]]] | [meta [Hmeta Henc]]].
    + left. split; eauto.
    + right. exists w, ds0, ds, om, meta. repeat split; try assumption.
      destruct Henc as [[e [Hr0 [-> Hwhy]]] | [st [Hst [_ ->]]]].
      * left. split; [eauto |]. split; [| reflexivity].
        exists e. tauto.
      * right. exists st. auto.
Qed.

Lemma geotiff_metadata_other_keys : forall self bands out_meta meta k,
  geotiff_metadata self bands out_meta = Ok meta ->
  ~ In k geotiff_keys ->
  dict_get k meta = dict_get k out_meta.
Proof.
  intros self bands out_meta meta k Hm Hk. unfold geotiff_metadata in Hm.
  apply rbind_ok in Hm. destruct Hm as [m [_ Hm]].
  apply rbind_ok in Hm. destruct Hm as [m' [_ Hm]].
  apply rbind_ok in Hm. destruct Hm as [t0 [_ Hm]].
  apply rbind_ok in Hm. destruct Hm as [t1 [_ Hm]].
  apply rbind_ok in Hm. destruct Hm as [t2 [_ Hm]].
  apply rbind_ok in Hm. destruct Hm as [t3 [_ Hm]].
  apply rbind_ok in Hm. destruct Hm as [t4 [_ Hm]].
  apply rbind_ok in Hm. destruct Hm as [t5 [_ Hm]].
  inversion Hm; subst meta. unfold geotiff_keys in Hk. simpl in Hk.
  repeat rewrite dict_get_set_other by (intros ->; apply Hk; tauto).
  reflexivity.
Qed.

(** The options of the provider reach the raster: in a GeoTIFF query every
    option whose key is not one of the six keys the branch sets itself is
    passed to the opening of the raster with its configured value. *)
Theorem options_reach_raster :
  forall self range_subset subsets bbox datetime_ format_ r log' meta k v,
    format_ <> "json" ->
    lower format_ = "geotiff" ->
    query self range_subset subsets bbox datetime_ format_ [] = (r, log') ->
    In (EvRasterOpen meta) log' ->
    option_value (options self) k = Some v ->
    ~ In k geotiff_keys ->
    dict_get k meta = Some v.
Proof.
  intros self range_subset subsets bbox datetime_ format_ r log' meta k v
    Hjson Hg Hq Hin Hopt Hk.
  destruct (geotiff_query_cases _ _ _ _ _ Hjson Hg Hq)
    as [[_ Hlog] | [w [ds0 [ds [om [meta' [_ [_ [_ [Hom [Hmeta Htail]]]]]]]]]]].
  - exfalso. destruct Hlog as [-> | [pr [pa ->]]]; simpl in Hin;
      [exact Hin | destruct Hin as [Hin | []]; discriminate].
  - assert (meta' = meta).
    { destruct Htail as [[_ [_ ->]] | [st [_ ->]]]; simpl in Hin.
      - destruct Hin as [Hin | [Hin | []]]; [discriminate | congruence].
      - destruct Hin as [Hin | [Hin | [Hin | []]]];
          [discriminate | congruence | discriminate]. }
    subst meta'.
    rewrite (geotiff_metadata_other_keys _ _ _ Hmeta Hk).
    destruct w as [[[minx miny] maxx] maxy].
    destruct (out_metadata_get _ _ _ _ _ _ Hom) as [wd [ht [_ [_ Hget]]]].
    rewrite Hget, Hopt. reflexivity.
Qed.

(** A provider without measurements, or whose stored transform has fewer
    than six numbers, answers every GeoTIFF query with an exception and
    opens no raster. *)
Theorem geotiff_needs_measurement_and_transform :
  forall self range_subset subsets bbox datetime_ format_ r log',
    _measurement_properties self = [] \/
    (length (cp_transform (_coverage_properties self)) < 6)%nat ->
    format_ <> "json" ->
    lower format_ = "geotiff" ->
    query self range_subset subsets bbox datetime_ format_ [] = (r, log') ->
    (exists e, r = Raise e) /\
    forall meta, ~ In (EvRasterOpen meta) log'.
Proof.
  intros self range_subset subsets bbox datetime_ format_ r log'
    Hbad Hjson Hg Hq.
  destruct (geotiff_query_cases _ _ _ _ _ Hjson Hg Hq)
    as [[Hr Hlog] | [w [ds0 [ds [om [meta [_ [_ [_ [_ [Hmeta _]]]]]]]]]]].
  - split; [exact Hr |]. intros meta Hin.
    destruct Hlog as [-> | [pr [pa ->]]]; simpl in Hin;
      [exact Hin | destruct Hin as [Hin | []]; discriminate].
  - exfalso. apply geotiff_metadata_keys in Hmeta.
    destruct Hmeta as [m [ms [t0 [t1 [t2 [t3 [t4 [t5 [rest [Hms [Htr _]]]]]]]]]]].
    destruct Hbad as [Hnil | Hshort]; [congruence |].
    rewrite Htr in Hshort. simpl in Hshort. lia.
Qed.

(** No band asked for and no variable in the loaded dataset: the GeoTIFF
    query has nothing to stack; it raises and writes no raster data. *)
Theorem geotiff_without_bands_raises :
  forall self subsets bbox datetime_ format_ r log' w ds0,
    format_ <> "json" ->
    lower format_ = "geotiff" ->
    query self [] subsets bbox datetime_ format_ [] = (r, log') ->
    spatial_subset self subsets bbox = Ok w ->
    load (dc self) (product_name self) (load_params self [] w) = Ok ds0 ->
    ds_vars ds0 = [] ->
    (exists e, r = Raise e) /\ no_write log'.
Proof.
  intros self subsets bbox datetime_ format_ r log' w ds0
    Hjson Hg Hq Hw Hload Hvars.
  destruct (geotiff_query_cases _ _ _ _ _ Hjson Hg Hq)
    as [[Hr Hlog] | [w' [ds0' [ds [om [meta [Hw' [Hload' [Hpop [_ [_ Htail]]]]]]]]]]].
  - split; [exact Hr |]. intros data Hin.
    destruct Hlog as [-> | [pr [pa ->]]]; simpl in Hin;
      [exact Hin | destruct Hin as [Hin | []]; discriminate].
  - assert (w' = w) by congruence. subst w'.
    assert (ds0' = ds0) by congruence. subst ds0'.
    destruct (pop_time_units_effect _ Hpop) as [t0 [t [_ [_ [_ [Hv _]]]]]].
    assert (Hsel : select_bands [] ds = []).
    { unfold select_bands. simpl. rewrite Hv, Hvars. reflexivity. }
    rewrite Hsel in Htail.
    destruct Htail as [[Hr [_ ->]] | [st [Hst _]]].
    + split; [exact Hr |]. intros data Hin. simpl in Hin.
      destruct Hin as [Hin | [Hin | []]]; discriminate.
    + unfold stacked_bands in Hst. simpl in Hst. discriminate.
Qed.

(** ** Construction, once more *)

Lemma py_div_ok_nonzero : forall (x y q : num),
  py_div x y = Ok q -> nis_zero y = false.
Proof.
  intros x y q Hq. unfold py_div in Hq.
  destruct (nis_zero y); [discriminate | reflexivity].
Qed.

(** The steps behind a resolved coverage description *)
Lemma coverage_properties_inv : forall (handle : @Datacube num) name crs cp,
  _get_coverage_properties handle name = Ok (crs, cp) ->
  exists row measurements datasets grids resx resy tr w h base,
    product_metadata handle name = Ok row /\
    product_measurements handle name = Some measurements /\
    find_datasets handle name = Ok datasets /\
    mapM dataset_grid datasets = Ok grids /\
    match pr_crs row with
    | None => list_item (map grid_crs grids) 0 = Ok crs
    | Some s => CRS_dc s = Ok crs
    end /\
    list_item (map grid_transform grids) 0 = Ok tr /\
    py_div (nsub (right (bbox_union (map grid_bounds grids)))
                 (left (bbox_union (map grid_bounds grids)))) resx = Ok w /\
    py_div (nsub (top (bbox_union (map grid_bounds grids)))
                 (bottom (bbox_union (map grid_bounds grids)))) resy = Ok h /\
    cp_resx base = resx /\ cp_resy base = resy /\
    cp_transform base = tr /\
    cp_num_bands base = length measurements /\
    cp_crs_uri base = "http://www.opengis.net/def/crs/OGC/1.3/CRS84" /\
    cp_crs_type base = "GeographicCRS" /\
    cp_bbox_units base = "deg" /\
    cp_x_axis_label base = "Lon" /\
    cp_y_axis_label base = "Lat" /\
    (if projected crs
     then exists p, projected_properties crs base = Ok p /\ cp = set_axes p
     else cp = set_axes base).
Proof.
  intros handle name crs cp Hcov. unfold _get_coverage_properties in Hcov.
  apply rbind_ok in Hcov. destruct Hcov as [row [Hrow Hcov]].
  destruct (match pr_resolution row with
            | Some (r0, r1) => (Some r1, Some r0)
            | None => (None, None)
            end) as [resx0 resy0].
  apply rbind_ok in Hcov. destruct Hcov as [ms [Hms Hcov]].
  apply rbind_ok in Hcov. destruct Hcov as [datasets [Hfind Hcov]].
  apply rbind_ok in Hcov. destruct Hcov as [grids [Hgrids Hcov]].
  apply rbind_ok in Hcov. destruct Hcov as [crs0 [Hcrs Hcov]].
  apply rbind_ok in Hcov. destruct Hcov as [resx [_ Hcov]].
  apply rbind_ok in Hcov. destruct Hcov as [resy [_ Hcov]].
  apply rbind_ok in Hcov. destruct Hcov as [tr [Htr Hcov]].
  apply rbind_ok in Hcov. destruct Hcov as [w [Hw Hcov]].
  apply rbind_ok in Hcov. destruct Hcov as [h [Hh Hcov]].
  apply rbind_ok in Hcov. destruct Hcov as [props [Hprops Hcov]].
  inversion Hcov; subst crs0 cp; clear Hcov.
  apply of_option_ok in Hms.
  exists row, ms, datasets, grids, resx, resy, tr, w, h.
  match type of Hprops with
  | (if _ then _ else Ok ?b) = _ => exists b
  end.
  simpl. split; [exact Hrow |]. split; [exact Hms |]. split; [exact Hfind |].
  split; [exact Hgrids |].
  split; [destruct (pr_crs row); exact Hcrs |].
  repeat (split; [first [assumption | reflexivity] |]).
  destruct (projected crs).
  - exists props. auto.
  - inversion Hprops. reflexivity.
Qed.

(** What the description says about the CRS.  The CRS is the one the
    product names, parsed, or else that of the first dataset.  A projected
    CRS gives the EPSG URI built from its code, the type "ProjectedCRS", the
    axis labels x and y and the first unit of the CRS; any other CRS gives
    the CRS84 URI, "GeographicCRS", Lon and Lat, and degrees.  The axes are
    the two labels, x first. *)
Theorem coverage_crs_classification :
  forall (handle : @Datacube num) name crs cp,
    _get_coverage_properties handle name = Ok (crs, cp) ->
    (exists row,
       product_metadata handle name = Ok row /\
       match pr_crs row with
       | Some s => CRS_dc s = Ok crs
       | None =>
           exists d rest,
             find_datasets handle name = Ok (d :: rest) /\ dr_crs d = Some crs
       end) /\
    cp_axes cp = [cp_x_axis_label cp; cp_y_axis_label cp] /\
    (if projected crs
     then cp_crs_uri cp = ("http://www.opengis.net/def/crs/EPSG/9.8.15/"
                           ++ fmt_opt_Z (to_epsg crs))%string /\
          cp_crs_type cp = "ProjectedCRS" /\
          cp_x_axis_label cp = "x" /\ cp_y_axis_label cp = "y" /\
          exists u rest, units crs = u :: rest /\ cp_bbox_units cp = u
     else cp_crs_uri cp = "http://www.opengis.net/def/crs/OGC/1.3/CRS84" /\
          cp_crs_type cp = "GeographicCRS" /\
          cp_x_axis_label cp = "Lon" /\ cp_y_axis_label cp = "Lat" /\
          cp_bbox_units cp = "deg").
Proof.
  intros handle name crs cp Hcov.
  destruct (coverage_properties_inv _ _ Hcov)
    as [row [ms [datasets [grids [resx [resy [tr [w [h [base Hinv]]]]]]]]]].
  destruct Hinv as [Hrow [_ [Hfind [Hgrids [Hcrs [_ [_ [_ [_ [_ [_ [_ Hinv]]]]]]]]]]]].
  destruct Hinv as [Huri [Htype [Hunits [Hx [Hy Hcp]]]]].
  split.
  - exists row. split; [exact Hrow |].
    destruct (pr_crs row) as [s |]; [exact Hcrs |].
    destruct datasets as [| d rest]; simpl in Hgrids.
    + inversion Hgrids; subst grids. discriminate.
    + apply rbind_ok in Hgrids. destruct Hgrids as [g [Hg Hgrids]].
      apply rbind_ok in Hgrids. destruct Hgrids as [gs [_ Hgrids]].
      inversion Hgrids; subst grids. simpl in Hcrs. inversion Hcrs as [Hc].
      exists d, rest. split; [exact Hfind |].
      unfold dataset_grid in Hg.
      apply rbind_ok in Hg. destruct Hg as [t [_ Hg]].
      apply rbind_ok in Hg. destruct Hg as [rx [_ Hg]].
      apply rbind_ok in Hg. destruct Hg as [ry [_ Hg]].
      apply rbind_ok in Hg. destruct Hg as [c [Hdc Hg]].
      apply of_option_ok in Hdc. inversion Hg; subst g. simpl. exact Hdc.
  - destruct (projected crs).
    + destruct Hcp as [p [Hp ->]]. unfold projected_properties in Hp.
      apply rbind_ok in Hp. destruct Hp as [u [Hu Hp]].
      apply list_item_0 in Hu. destruct Hu as [rest Hu].
      inversion Hp; subst p; simpl.
      split; [reflexivity |]. split; [reflexivity |].
      split; [reflexivity |]. split; [reflexivity |].
      split; [reflexivity |]. exists u, rest. auto.
    + subst cp. simpl. rewrite Hx, Hy, Huri, Htype, Hunits.
      repeat split; reflexivity.
Qed.

(** What [__init__] stored in a provider it returned *)
Lemma init_ok_inv : forall (handle : @Datacube num) provider_def p,
  __init__ handle provider_def = Ok p ->
  _get_coverage_properties handle (pd_product provider_def)
    = Ok (crs_obj p, _coverage_properties p) /\
  _get_measurement_properties handle (pd_product provider_def)
    = Ok (_measurement_properties p) /\
  dc p = handle /\
  product_name p = pd_product provider_def /\
  options p = pd_options provider_def /\
  crs p = cp_crs_uri (_coverage_properties p) /\
  axes p = cp_axes (_coverage_properties p) /\
  num_bands p = cp_num_bands (_coverage_properties p) /\
  fields p = map str_of_nat (seq 1 (num_bands p)).
Proof.
  intros handle provider_def p Hinit. unfold __init__, resolve_metadata in Hinit.
  destruct (_get_coverage_properties handle (pd_product provider_def))
    as [[c cp] | e]; simpl in Hinit; [| discriminate].
  destruct (_get_measurement_properties handle (pd_product provider_def))
    as [m | e]; simpl in Hinit; [| discriminate].
  destruct (pd_format_name provider_def) as [f |]; simpl in Hinit;
    [| discriminate].
  inversion Hinit; subst p; simpl. repeat split; reflexivity.
Qed.

(** A provider returned by [__init__] has resolutions that are not zero and
    a stored transform of at least five numbers; its band count is the
    number of measurements of the product and it has as many field names;
    and the width and height of a query window can always be computed: the
    metadata of a query never fails on a division. *)
Theorem constructed_provider_invariants :
  forall (handle : @Datacube num) provider_def p,
    __init__ handle provider_def = Ok p ->
    nis_zero (cp_resx (_coverage_properties p)) = false /\
    nis_zero (cp_resy (_coverage_properties p)) = false /\
    (5 <= length (cp_transform (_coverage_properties p)))%nat /\
    product_measurements handle (pd_product provider_def)
      <> None /\
    (forall ms, product_measurements handle (pd_product provider_def) = Some ms ->
                num_bands p = length ms) /\
    length (fields p) = num_bands p /\
    forall w bands, exists om, out_metadata p w bands = Ok om.
Proof.
  intros handle provider_def p Hinit.
  destruct (init_ok_inv _ _ Hinit)
    as [Hcov [_ [_ [_ [_ [_ [_ [Hnb Hfields]]]]]]]].
  destruct (coverage_properties_inv _ _ Hcov)
    as [row [ms [datasets [grids [resx [resy [tr [w [h [base Hinv]]]]]]]]]].
  destruct Hinv as [_ [Hms [_ [Hgrids [_ [Htr [Hw [Hh [Hrx [Hry [Hbt [Hbn Hinv]]]]]]]]]]]].
  destruct Hinv as [_ [_ [_ [_ [_ Hcp]]]]].
  assert (Hsame : cp_resx (_coverage_properties p) = resx /\
                  cp_resy (_coverage_properties p) = resy /\
                  cp_transform (_coverage_properties p) = tr /\
                  cp_num_bands (_coverage_properties p) = length ms).
  { destruct (projected (crs_obj p)).
    - destruct Hcp as [q [Hq ->]]. unfold projected_properties in Hq.
      apply rbind_ok in Hq. destruct Hq as [u [_ Hq]].
      inversion Hq; subst q; simpl. auto.
    - rewrite Hcp. simpl. auto. }
  destruct Hsame as [Hx [Hy [Ht Hn]]].
  assert (Hzx : nis_zero (cp_resx (_coverage_properties p)) = false)
    by (rewrite Hx; eapply py_div_ok_nonzero; exact Hw).
  assert (Hzy : nis_zero (cp_resy (_coverage_properties p)) = false)
    by (rewrite Hy; eapply py_div_ok_nonzero; exact Hh).
  split; [exact Hzx |]. split; [exact Hzy |]. split.
  { rewrite Ht. destruct grids as [| g gs]; [discriminate |].
    simpl in Htr. inversion Htr; subst tr.
    destruct datasets as [| d rest]; simpl in Hgrids; [discriminate |].
    apply rbind_ok in Hgrids. destruct Hgrids as [g' [Hg Hgrids]].
    apply rbind_ok in Hgrids. destruct Hgrids as [gs' [_ Hgrids]].
    inversion Hgrids; subst g' gs'. unfold dataset_grid in Hg.
    apply rbind_ok in Hg. destruct Hg as [t [_ Hg]].
    apply rbind_ok in Hg. destruct Hg as [rx [_ Hg]].
    apply rbind_ok in Hg. destruct Hg as [ry [Hry4 Hg]].
    apply rbind_ok in Hg. destruct Hg as [c [_ Hg]].
    inversion Hg; subst g. simpl.
    apply of_option_ok in Hry4.
    assert (Hlt : (4 < length t)%nat)
      by (apply nth_error_Some; congruence).
    lia. }
  split; [congruence |]. split.
  { intros ms' Hms'. rewrite Hnb, Hn. congruence. }
  split.
  { rewrite Hfields, length_map, length_seq. reflexivity. }
  intros [[[minx miny] maxx] maxy] bands. unfold out_metadata, py_div.
  rewrite Hzx, Hzy. simpl. eauto.
Qed.

Lemma coverage_properties_needs_dataset :
  forall (handle : @Datacube num) name crs cp,
    _get_coverage_properties handle name = Ok (crs, cp) ->
    exists d rest, find_datasets handle name = Ok (d :: rest).
Proof.
  intros handle name crs cp Hcov.
  destruct (coverage_properties_inv _ _ Hcov)
    as [row [ms [datasets [grids [resx [resy [tr [w [h [base Hinv]]]]]]]]]].
  destruct Hinv as [_ [_ [Hfind [Hgrids [_ [Htr _]]]]]].
  destruct datasets as [| d rest]; [| eauto].
  simpl in Hgrids. inversion Hgrids; subst grids. discriminate.
Qed.

(** A product without datasets cannot be served: [__init__] raises a
    [ProviderConnectionError] whatever the rest of the catalogue says. *)
Theorem no_datasets_no_provider :
  forall (handle : @Datacube num) provider_def,
    find_datasets handle (pd_product provider_def) = Ok [] ->
    exists cause,
      __init__ handle provider_def = Raise (ProviderConnectionError cause).
Proof.
  intros handle provider_def Hfind. unfold __init__, resolve_metadata.
  destruct (_get_coverage_properties handle (pd_product provider_def))
    as [[c cp] | e] eqn:Hcov; simpl; [| eauto].
  apply coverage_properties_needs_dataset in Hcov.
  destruct Hcov as [d [rest Hcov]]. congruence.
Qed.

(** A product name that the catalogue does not list makes [__init__] raise
    a [ProviderConnectionError] around the [IndexError] of [iloc[0]]. *)
Theorem unknown_product_raises :
  forall (handle : @Datacube num) provider_def rows,
    list_products handle = Ok rows ->
    (forall row, In row rows -> pr_name row <> pd_product provider_def) ->
    __init__ handle provider_def = Raise (ProviderConnectionError IndexError).
Proof.
  intros handle provider_def rows Hrows Hnone.
  unfold __init__, resolve_metadata, _get_coverage_properties, product_metadata.
  rewrite Hrows. simpl.
  assert (Hfilter : filter (fun r => String.eqb (pr_name r) (pd_product provider_def))
                      rows = []).
  { clear Hrows. induction rows as [| r rows IH]; simpl; [reflexivity |].
    destruct (String.eqb_spec (pr_name r) (pd_product provider_def)) as [Heq | _].
    - exfalso. apply (Hnone r); simpl; auto.
    - apply IH. intros row Hin. apply Hnone. simpl. auto. }
  rewrite Hfilter. reflexivity.
Qed.

(** ** Measurements and the range type *)

(** The measurement list follows the rows of the product's table: the ids
    count from 1, names, dtypes, nodata values and units are those of the
    rows in order, and the aliases are those of the rows when the table has
    an aliases column and absent otherwise. *)
Theorem measurement_properties_follow_table :
  forall (handle : @Datacube num) name mps,
    _get_measurement_properties handle name = Ok mps ->
    exists tables table,
      list_measurements handle = Ok tables /\
      dict_get name tables = Some table /\
      map (@mp_id num) mps = seq 1 (length (mt_rows table)) /\
      map (@mp_name num) mps = map (@mr_name num) (mt_rows table) /\
      map (@mp_dtype num) mps = map (@mr_dtype num) (mt_rows table) /\
      map (@mp_nodata num) mps = map (@mr_nodata num) (mt_rows table) /\
      map (@mp_unit num) mps = map (@mr_units num) (mt_rows table) /\
      map (@mp_aliases num) mps =
        map (fun r => if mt_has_aliases table then mr_aliases r else None)
          (mt_rows table).
Proof.
  intros handle name mps Hm. unfold _get_measurement_properties in Hm.
  apply rbind_ok in Hm. destruct Hm as [tables [Htables Hm]].
  apply rbind_ok in Hm. destruct Hm as [table [Htable Hm]].
  apply of_option_ok in Htable. inversion Hm; subst mps; clear Hm.
  exists tables, table. split; [exact Htables |]. split; [exact Htable |].
  set (rows := mt_rows table).
  assert (Hgen : forall (l : list (@MeasurementRow num)) n,
            map (@mp_id num)
              (map (measurement_row (mt_has_aliases table))
                 (combine (seq n (length l)) l)) = seq (S n) (length l) /\
            forall A (f : @MeasurementProperties num -> A)
                   (g : @MeasurementRow num -> A),
              (forall i r, f (measurement_row (mt_has_aliases table) (i, r)) = g r) ->
              map f (map (measurement_row (mt_has_aliases table))
                       (combine (seq n (length l)) l)) = map g l).
  { induction l as [| r l IH]; intros n; simpl.
    - split; [reflexivity | intros; reflexivity].
    - destruct (IH (S n)) as [IHid IHf]. split.
      + f_equal; [apply Nat.add_1_r | exact IHid].
      + intros A f g Hfg. rewrite Hfg. f_equal. apply IHf. exact Hfg. }
  destruct (Hgen rows 0%nat) as [Hid Hf].
  split; [exact Hid |].
  repeat split; apply Hf; intros i r; reflexivity.
Qed.

(** The range type of a provider returned by [__init__] has one field per
    row of the product's measurement table, in order: ids counting from 1,
    the row's name, its dtype as definition, its nodata value and its units
    as unit code. *)
Theorem rangetype_follows_table :
  forall (handle : @Datacube num) provider_def p,
    __init__ handle provider_def = Ok p ->
    exists tables table,
      list_measurements handle = Ok tables /\
      dict_get (pd_product provider_def) tables = Some table /\
      let fields := rt_field (get_coverage_rangetype p) in
      map (@rf_id num) fields = seq 1 (length (mt_rows table)) /\
      map (@rf_name num) fields = map (@mr_name num) (mt_rows table) /\
      map (@rf_definition num) fields = map (@mr_dtype num) (mt_rows table) /\
      map (@rf_nodata num) fields = map (@mr_nodata num) (mt_rows table) /\
      map (@rf_uom_code num) fields = map (@mr_units num) (mt_rows table) /\
      map (@rf_aliases num) fields =
        map (fun r => if mt_has_aliases table then mr_aliases r else None)
          (mt_rows table).
Proof.
  intros handle provider_def p Hinit.
  destruct (init_ok_inv _ _ Hinit) as [_ [Hmeas _]].
  destruct (measurement_properties_follow_table _ _ Hmeas)
    as [tables [table [Ht [Hg [Hid [Hname [Hdt [Hnd [Hun Hal]]]]]]]]].
  exists tables, table. split; [exact Ht |]. split; [exact Hg |].
  unfold get_coverage_rangetype. simpl. rewrite !map_map. simpl.
  repeat split; assumption.
Qed.

(** The domain set of a provider returned by [__init__] agrees with the
    provider's own attributes and description: its CRS name is [crs], its
    axis labels are [axes] and label the two regular axes in that order,
    the axes run between the corners of the description's bbox with the
    description's resolutions, and the index limits are its width and
    height. *)
Theorem domainset_of_constructed_provider :
  forall (handle : @Datacube num) provider_def p,
    __init__ handle provider_def = Ok p ->
    let grid := dset_generalGrid (get_coverage_domainset p) in
    gg_srsName grid = crs p /\
    gg_axisLabels grid = axes p /\
    map (@ra_axisLabel num) (gg_axis grid) = axes p /\
    (exists ax ay,
       gg_axis grid = [ax; ay] /\
       cp_bbox (_coverage_properties p)
         = (ra_lowerBound ax, ra_lowerBound ay,
            ra_upperBound ax, ra_upperBound ay) /\
       ra_resolution ax = cp_resx (_coverage_properties p) /\
       ra_resolution ay = cp_resy (_coverage_properties p)) /\
    map (@ia_upperBound num) (gl_axis (gg_gridLimits grid))
      = [cp_width (_coverage_properties p); cp_height (_coverage_properties p)].
Proof.
  intros handle provider_def p Hinit.
  destruct (init_ok_inv _ _ Hinit)
    as [Hcov [_ [_ [_ [_ [Hcrs [Haxes _]]]]]]].
  destruct (coverage_crs_classification _ _ Hcov) as [_ [Hax _]].
  unfold get_coverage_domainset.
  destruct (cp_bbox (_coverage_properties p)) as [[[b0 b1] b2] b3] eqn:Hbox.
  simpl. rewrite Hcrs, Haxes, Hax.
  repeat split. eexists. eexists. split; [reflexivity |]. simpl. auto.
Qed.

End MoreProperties.

(** * The catalogue of [Scenes]: further runs *)

Section MoreRuns.

Import Scenes.
Local Open Scope Q_scope.

Lemma tiles_init : __init__ tiles_cube tiles_def = Ok tiles_provider.
Proof. reflexivity. Qed.

Lemma axis_subsets_window_scenes :
  dict_get "Lon" [("Lon"%string, [0; 1]); ("Lat"%string, [1; 2])]
    = Some [0; 1] /\
  dict_get "Lat" [("Lon"%string, [0; 1]); ("Lat"%string, [1; 2])]
    = Some [1; 2] /\
  spatial_subset (provider one_slice None)
    [("Lon"%string, [0; 1]); ("Lat"%string, [1; 2])] [] = Ok (0, 1, 1, 2).
Proof.
  split; [reflexivity |]. split; [reflexivity |].
  apply (@axis_subsets_window Q QLibs (provider one_slice None)
           [("Lon"%string, [0; 1]); ("Lat"%string, [1; 2])]
           0 1 [] 1 2 []); reflexivity.
Defined.

Lemma short_axis_range_raises_scenes :
  dict_get "Lon" [("Lon"%string, [0]); ("Lat"%string, [0; 1])] = Some [0] /\
  dict_get "Lat" [("Lon"%string, [0]); ("Lat"%string, [0; 1])] = Some [0; 1] /\
  (length [0] < 2 \/ length [0; 1] < 2)%nat /\
  query (provider one_slice None) []
    [("Lon"%string, [0]); ("Lat"%string, [0; 1])] [] None "json" []
  = (Raise IndexError, []).
Proof.
  split; [reflexivity |]. split; [reflexivity |].
  split; [left; simpl; lia |].
  apply (@short_axis_range_raises Q QNum QLibs (provider one_slice None) []
           [("Lon"%string, [0]); ("Lat"%string, [0; 1])] None "json"%string []
           [0] [0; 1]); [reflexivity | reflexivity | left; simpl; lia].
Defined.

Lemma no_spatial_constraint_full_extent_scenes :
  ~ (In "Lon"%string (dict_keys [("Lon"%string, [0; 1])]) /\
     In "Lat"%string (dict_keys [("Lon"%string, [0; 1])])) /\
  spatial_subset (provider one_slice None) [("Lon"%string, [0; 1])] []
  = Ok (0, 0, 2, 2).
Proof.
  split.
  - intros [_ [Hin | []]]. discriminate Hin.
  - apply (@no_spatial_constraint_full_extent Q QLibs
             (provider one_slice None) [("Lon"%string, [0; 1])]).
    intros [_ [Hin | []]]. discriminate Hin.
Defined.

Lemma reprojected_window_tiles :
  to_epsg (crs_obj tiles_provider) = Some 32633%Z /\
  32633%Z <> 4326%Z /\
  ~ (In "x"%string (dict_keys (@nil (string * list Q))) /\
     In "y"%string (dict_keys (@nil (string * list Q)))) /\
  spatial_subset tiles_provider [] [1; 2; 3; 4] =
  Ok (fst (transform 4326 32633 1 2), snd (transform 4326 32633 1 2),
      fst (transform 4326 32633 3 4), snd (transform 4326 32633 3 4)).
Proof.
  split; [reflexivity |]. split; [discriminate |].
  split; [intros [[] _] |].
  apply (@reprojected_window Q QLibs tiles_provider [] 32633%Z 1 2 3 4);
    [reflexivity | discriminate | intros [[] _]].
Defined.

Lemma same_crs_window_is_full_extent_scenes :
  to_epsg (crs_obj (provider one_slice None)) = Some 4326%Z /\
  (dict_mem "Lon" (@nil (string * list Q))
   && dict_mem "Lat" (@nil (string * list Q)))%bool = false /\
  spatial_subset (provider one_slice None) [] [0; 0; 1; 1]
  = Ok (cp_bbox (_coverage_properties (provider one_slice None))).
Proof.
  split; [reflexivity |]. split; [reflexivity |].
  apply (@same_crs_window_is_full_extent Q QLibs
           (provider one_slice None) [] 0 0 1 1); reflexivity.
Defined.

Lemma bbox_wrong_length_raises_scenes :
  [1; 2; 3] <> [] /\
  length [1; 2; 3] <> 4%nat /\
  ~ (In "Lon"%string (dict_keys (@nil (string * list Q))) /\
     In "Lat"%string (dict_keys (@nil (string * list Q)))) /\
  query (provider one_slice None) [] [] [1; 2; 3] None "json" []
  = (Raise (ValueError "wrong number of values to unpack"), []).
Proof.
  split; [discriminate |]. split; [discriminate |].
  split; [intros [[] _] |].
  apply (@bbox_wrong_length_raises Q QNum QLibs (provider one_slice None)
           [] [] [1; 2; 3] None "json"%string []);
    [discriminate | discriminate | intros [[] _]].
Defined.

Lemma query_load_call_scenes :
  query (provider one_slice None) ["B02"%string] [] [] None "json" [] =
  (Ok (CoverageJSON (document [("B02"%string, ("int16"%string, [1; 2; 3; 4]))])),
   [EvLoad "scenes" (full_extent_load (Some ["B02"%string]))])
  /\
  ((exists e,
      spatial_subset (provider one_slice None) [] [] = Raise e /\
      Ok (CoverageJSON (document [("B02"%string, ("int16"%string, [1; 2; 3; 4]))]))
        = Raise e /\
      [EvLoad "scenes" (full_extent_load (Some ["B02"%string]))] = [])
   \/
   (exists minx miny maxx maxy rest,
      spatial_subset (provider one_slice None) [] []
        = Ok (minx, miny, maxx, maxy) /\
      [EvLoad "scenes" (full_extent_load (Some ["B02"%string]))] =
        EvLoad (product_name (provider one_slice None))
          {| lp_crs :=
               "epsg:" ++ fmt_opt_Z (to_epsg (crs_obj (provider one_slice None)));
             lp_align :=
               (nabs (nhalf (cp_resy (_coverage_properties (provider one_slice None)))),
                nabs (nhalf (cp_resx (_coverage_properties (provider one_slice None)))));
             lp_x := (minx, maxx);
             lp_y := (miny, maxy);
             lp_measurements := Some ["B02"%string] |} :: rest /\
      forall product params, ~ In (EvLoad product params) rest)).
Proof.
  split; [reflexivity |].
  apply (@query_load_call Q QNum QLibs (provider one_slice None)
           ["B02"%string] [] [] None "json"%string
           (Ok (CoverageJSON (document [("B02"%string, ("int16"%string, [1; 2; 3; 4]))])))
           [EvLoad "scenes" (full_extent_load (Some ["B02"%string]))]).
  reflexivity.
Defined.

Lemma load_failure_propagates_scenes :
  spatial_subset (provider one_slice None) [] [] = Ok (0, 0, 2, 2) /\
  load (dc (provider one_slice None)) (product_name (provider one_slice None))
    (load_params (provider one_slice None) ["B99"%string] (0, 0, 2, 2))
    = Raise (KeyError "B99") /\
  query (provider one_slice None) ["B99"%string] [] [] None "json" [] =
  (Raise (KeyError "B99"),
   [] ++ [EvLoad (product_name (provider one_slice None))
            (load_params (provider one_slice None) ["B99"%string] (0, 0, 2, 2))]).
Proof.
  split; [reflexivity |]. split; [reflexivity |].
  apply (@load_failure_propagates Q QNum QLibs (provider one_slice None)
           ["B99"%string] [] [] None "json"%string [] (0, 0, 2, 2)
           (KeyError "B99")); reflexivity.
Defined.

Lemma missing_time_coordinate_raises_scenes :
  spatial_subset (provider nothing_found None) [] [] = Ok (0, 0, 2, 2) /\
  load (dc (provider nothing_found None))
    (product_name (provider nothing_found None))
    (load_params (provider nothing_found None) [] (0, 0, 2, 2))
    = Ok nothing_found /\
  ds_time nothing_found = None /\
  query (provider nothing_found None) [] [] [] None "netcdf" [] =
  (Raise (AttributeError "time"),
   [] ++ [EvLoad (product_name (provider nothing_found None))
            (load_params (provider nothing_found None) [] (0, 0, 2, 2))]).
Proof.
  split; [reflexivity |]. split; [reflexivity |]. split; [reflexivity |].
  apply (@missing_time_coordinate_raises Q QNum QLibs
           (provider nothing_found None) [] [] [] None "netcdf"%string []
           (0, 0, 2, 2) nothing_found); reflexivity.
Defined.

Lemma pop_time_units_effect_scenes :
  pop_time_units one_slice = Ok one_slice_loaded /\
  exists t0 t,
    ds_time one_slice = Some t0 /\
    ds_time one_slice_loaded = Some t /\
    tc_values t = tc_values t0 /\
    ds_vars one_slice_loaded = ds_vars one_slice /\
    (forall k, k <> "units"%string ->
               dict_get k (tc_attrs t) = dict_get k (tc_attrs t0)) /\
    (NoDup (dict_keys (tc_attrs t0)) -> dict_get "units" (tc_attrs t) = None).
Proof.
  split; [reflexivity |].
  apply (@pop_time_units_effect Q one_slice one_slice_loaded). reflexivity.
Defined.

Lemma json_query_only_loads_scenes :
  query (provider no_units None) ["B02"%string] [] [] None "json" [] =
  (Raise (KeyError "units"),
   [EvLoad "scenes" (full_extent_load (Some ["B02"%string]))])
  /\
  ([EvLoad "scenes" (full_extent_load (Some ["B02"%string]))] = []
   \/
   exists w,
     spatial_subset (provider no_units None) [] [] = Ok w /\
     [EvLoad "scenes" (full_extent_load (Some ["B02"%string]))] =
     [] ++ [EvLoad (product_name (provider no_units None))
              (load_params (provider no_units None) ["B02"%string] w)]).
Proof.
  split; [reflexivity |].
  apply (@json_query_only_loads Q QNum QLibs (provider no_units None)
           ["B02"%string] [] [] None [] (Raise (KeyError "units"))
           [EvLoad "scenes" (full_extent_load (Some ["B02"%string]))]).
  reflexivity.
Defined.

Lemma netcdf_whole_dataset_scenes :
  "netcdf"%string <> "json"%string /\
  lower "netcdf" <> "geotiff"%string /\
  query (provider one_slice None) [] [] [] None "netcdf" [] =
  (Ok (NetCDF cdf_magic),
   [EvLoad "scenes" (full_extent_load None); EvToNetcdf one_slice_loaded])
  /\
  exists w ds0 ds data,
    spatial_subset (provider one_slice None) [] [] = Ok w /\
    load (dc (provider one_slice None)) (product_name (provider one_slice None))
      (load_params (provider one_slice None) [] w) = Ok ds0 /\
    pop_time_units ds0 = Ok ds /\
    ds_vars ds = ds_vars ds0 /\
    to_netcdf ds = Ok data /\
    @NetCDF Q cdf_magic = NetCDF data /\
    [EvLoad "scenes" (full_extent_load None); EvToNetcdf one_slice_loaded] =
    [] ++ [EvLoad (product_name (provider one_slice None))
             (load_params (provider one_slice None) [] w);
           EvToNetcdf ds].
Proof.
  split; [discriminate |]. split; [discriminate |]. split; [reflexivity |].
  apply (@netcdf_whole_dataset Q QNum QLibs (provider one_slice None)
           [] [] [] None "netcdf"%string [] (NetCDF cdf_magic)
           [EvLoad "scenes" (full_extent_load None); EvToNetcdf one_slice_loaded]);
    [discriminate | discriminate | reflexivity].
Defined.

Lemma covjson_domain_of_window_scenes :
  option_value (options (provider one_slice None)) "bbox" = None /\
  option_value (options (provider one_slice None)) "width" = None /\
  option_value (options (provider one_slice None)) "height" = None /\
  query (provider one_slice None) ["B02"%string] [] [] None "json" [] =
  (Ok (CoverageJSON (document [("B02"%string, ("int16"%string, [1; 2; 3; 4]))])),
   [EvLoad "scenes" (full_extent_load (Some ["B02"%string]))])
  /\
  exists minx miny maxx maxy width height,
    spatial_subset (provider one_slice None) [] []
      = Ok (minx, miny, maxx, maxy) /\
    py_div (nsub maxx minx)
      (cp_resx (_coverage_properties (provider one_slice None))) = Ok width /\
    py_div (nsub maxy miny)
      (cp_resy (_coverage_properties (provider one_slice None))) = Ok height /\
    cj_type (document [("B02"%string, ("int16"%string, [1; 2; 3; 4]))])
      = "Coverage"%string /\
    cj_domain (document [("B02"%string, ("int16"%string, [1; 2; 3; 4]))]) =
      {| dom_type := "Domain";
         dom_domainType := "Grid";
         dom_x := {| ax_start := VNum minx; ax_stop := VNum maxx;
                     ax_num := VNum (nabs width) |};
         dom_y := {| ax_start := VNum miny; ax_stop := VNum maxy;
                     ax_num := VNum (nabs height) |};
         dom_referencing :=
           [{| ref_coordinates := ["x"; "y"]%string;
               ref_system_type :=
                 cp_crs_type (_coverage_properties (provider one_slice None));
               ref_system_id :=
                 cp_crs_uri (_coverage_properties (provider one_slice None)) |}] |} /\
    forall key r,
      dict_get key
        (cj_ranges (document [("B02"%string, ("int16"%string, [1; 2; 3; 4]))]))
        = Some r ->
      rg_shape r = [VNum (nabs height); VNum (nabs width)].
Proof.
  split; [reflexivity |]. split; [reflexivity |]. split; [reflexivity |].
  split; [reflexivity |].
  apply (@covjson_domain_of_window Q QNum QLibs (provider one_slice None)
           ["B02"%string] [] [] None []
           (document [("B02"%string, ("int16"%string, [1; 2; 3; 4]))])
           [EvLoad "scenes" (full_extent_load (Some ["B02"%string]))]);
    reflexivity.
Defined.

Lemma covjson_parameter_entries_scenes :
  gen_covjson (provider one_slice None) (full_extent_metadata ["B02"%string])
    one_slice
  = Ok (document [("B02"%string, ("int16"%string, [1; 2; 3; 4]))]) /\
  dict_get "B02"
    (cj_parameters (document [("B02"%string, ("int16"%string, [1; 2; 3; 4]))]))
  = Some {| par_type := "Parameter";
            par_description := "B02";
            par_unit_symbol := "1";
            par_observed_id := "B02";
            par_observed_label_en := "B02" |} /\
  exists a symbol,
    dict_get "B02" (ds_vars one_slice) = Some a /\
    dict_get "units" (da_attrs a) = Some symbol /\
    {| par_type := "Parameter";
       par_description := "B02";
       par_unit_symbol := "1";
       par_observed_id := "B02";
       par_observed_label_en := "B02" |}
    = {| par_type := "Parameter";
         par_description := "B02";
         par_unit_symbol := symbol;
         par_observed_id := "B02";
         par_observed_label_en := "B02" |}.
Proof.
  split; [reflexivity |]. split; [reflexivity |].
  apply (@covjson_parameter_entries Q (provider one_slice None)
           (full_extent_metadata ["B02"%string]) one_slice
           (document [("B02"%string, ("int16"%string, [1; 2; 3; 4]))])
           "B02"%string
           {| par_type := "Parameter";
              par_description := "B02";
              par_unit_symbol := "1";
              par_observed_id := "B02";
              par_observed_label_en := "B02" |});
    reflexivity.
Defined.

Lemma covjson_keys_in_band_order_scenes :
  dict_get "bands" (full_extent_metadata ["B03"; "B02"]%string)
  = Some (VList (map (@VStr Q) ["B03"; "B02"]%string)) /\
  NoDup ["B03"; "B02"]%string /\
  gen_covjson (provider one_slice None)
    (full_extent_metadata ["B03"; "B02"]%string) one_slice
  = Ok (document [("B03"%string, ("float32"%string, [5; 6; 7; 8]));
                  ("B02"%string, ("int16"%string, [1; 2; 3; 4]))]) /\
  dict_keys
    (cj_parameters
       (document [("B03"%string, ("float32"%string, [5; 6; 7; 8]));
                  ("B02"%string, ("int16"%string, [1; 2; 3; 4]))]))
  = ["B03"; "B02"]%string /\
  dict_keys
    (cj_ranges
       (document [("B03"%string, ("float32"%string, [5; 6; 7; 8]));
                  ("B02"%string, ("int16"%string, [1; 2; 3; 4]))]))
  = ["B03"; "B02"]%string.
Proof.
  assert (Hnd : NoDup ["B03"; "B02"]%string).
  { constructor; [intros [Hin | []]; discriminate Hin |].
    constructor; [intros [] | constructor]. }
  split; [reflexivity |]. split; [exact Hnd |]. split; [reflexivity |].
  apply (@covjson_keys_in_band_order Q (provider one_slice None)
           (full_extent_metadata ["B03"; "B02"]%string) one_slice
           (document [("B03"%string, ("float32"%string, [5; 6; 7; 8]));
                      ("B02"%string, ("int16"%string, [1; 2; 3; 4]))])
           ["B03"; "B02"]%string);
    [reflexivity | exact Hnd | reflexivity].
Defined.

Lemma gen_covjson_raises_scenes :
  gen_covjson (provider no_units None) (full_extent_metadata ["B02"%string])
    no_units
  = Raise (KeyError "units") /\
  ((exists k, KeyError "units" = KeyError k) \/
   KeyError "units" = TypeError \/
   (exists m, KeyError "units" = ValueError m)).
Proof.
  split; [reflexivity |].
  apply (@gen_covjson_raises Q (provider no_units None)
           (full_extent_metadata ["B02"%string]) no_units (KeyError "units")).
  reflexivity.
Defined.

Lemma options_reach_raster_scenes :
  "geotiff"%string <> "json"%string /\
  lower "geotiff" = "geotiff"%string /\
  query (provider one_slice (Some compress_options)) [] [] [] None "geotiff" [] =
  (Ok (GeoTIFF tiff_magic),
   [EvLoad "scenes" (full_extent_load None);
    EvRasterOpen compressed_raster_metadata;
    EvRasterWrite [[[1; 2]; [3; 4]]; [[5; 6]; [7; 8]]]]) /\
  In (EvRasterOpen compressed_raster_metadata)
    [EvLoad "scenes" (full_extent_load None);
     EvRasterOpen compressed_raster_metadata;
     EvRasterWrite [[[1; 2]; [3; 4]]; [[5; 6]; [7; 8]]]] /\
  option_value (options (provider one_slice (Some compress_options))) "compress"
  = Some (VStr "lzw") /\
  ~ In "compress"%string geotiff_keys /\
  dict_get "compress" compressed_raster_metadata = Some (VStr "lzw").
Proof.
  assert (Hkey : ~ In "compress"%string geotiff_keys).
  { unfold geotiff_keys. simpl. intuition discriminate. }
  split; [discriminate |]. split; [reflexivity |]. split; [reflexivity |].
  split; [simpl; auto |]. split; [reflexivity |]. split; [exact Hkey |].
  apply (@options_reach_raster Q QNum QLibs
           (provider one_slice (Some compress_options)) [] [] [] None
           "geotiff"%string (Ok (GeoTIFF tiff_magic))
           [EvLoad "scenes" (full_extent_load None);
            EvRasterOpen compressed_raster_metadata;
            EvRasterWrite [[[1; 2]; [3; 4]]; [[5; 6]; [7; 8]]]]
           compressed_raster_metadata "compress"%string (VStr "lzw"));
    [discriminate | reflexivity | reflexivity | simpl; auto | reflexivity
    | exact Hkey].
Defined.

Lemma geotiff_needs_measurement_and_transform_scenes :
  (_measurement_properties unmeasured_provider = [] \/
   (length (cp_transform (_coverage_properties unmeasured_provider)) < 6)%nat) /\
  "geotiff"%string <> "json"%string /\
  lower "geotiff" = "geotiff"%string /\
  query unmeasured_provider [] [] [] None "geotiff" [] =
  (Raise IndexError, [EvLoad "scenes" (full_extent_load None)]) /\
  (exists e, @Raise (@QueryOutput Q) IndexError = Raise e) /\
  forall meta,
    ~ In (EvRasterOpen meta) [EvLoad "scenes" (full_extent_load None)].
Proof.
  split; [left; reflexivity |]. split; [discriminate |].
  split; [reflexivity |]. split; [reflexivity |].
  apply (@geotiff_needs_measurement_and_transform Q QNum QLibs
           unmeasured_provider [] [] [] None "geotiff"%string
           (Raise IndexError) [EvLoad "scenes" (full_extent_load None)]);
    [left; reflexivity | discriminate | reflexivity | reflexivity].
Defined.

Lemma geotiff_without_bands_raises_scenes :
  "geotiff"%string <> "json"%string /\
  lower "geotiff" = "geotiff"%string /\
  query (provider no_bands None) [] [] [] None "geotiff" [] =
  (Raise (ValueError "need at least one array to stack"),
   [EvLoad "scenes" (full_extent_load None); EvRasterOpen (raster_metadata [])])
  /\
  spatial_subset (provider no_bands None) [] [] = Ok (0, 0, 2, 2) /\
  load (dc (provider no_bands None)) (product_name (provider no_bands None))
    (load_params (provider no_bands None) [] (0, 0, 2, 2)) = Ok no_bands /\
  ds_vars no_bands = [] /\
  (exists e,
     @Raise (@QueryOutput Q) (ValueError "need at least one array to stack")
     = Raise e) /\
  no_write [EvLoad "scenes" (full_extent_load None);
            EvRasterOpen (raster_metadata [])].
Proof.
  split; [discriminate |]. split; [reflexivity |]. split; [reflexivity |].
  split; [reflexivity |]. split; [reflexivity |]. split; [reflexivity |].
  apply (@geotiff_without_bands_raises Q QNum QLibs (provider no_bands None)
           [] [] None "geotiff"%string
           (Raise (ValueError "need at least one array to stack"))
           [EvLoad "scenes" (full_extent_load None);
            EvRasterOpen (raster_metadata [])]
           (0, 0, 2, 2) no_bands);
    first [discriminate | reflexivity].
Defined.

Lemma coverage_crs_classification_tiles :
  _get_coverage_properties tiles_cube "tiles" = Ok (utm33n, tiles_properties)
  /\
  ((exists row,
      product_metadata tiles_cube "tiles" = Ok row /\
      match pr_crs row with
      | Some s => CRS_dc s = Ok utm33n
      | None =>
          exists d rest,
            find_datasets tiles_cube "tiles" = Ok (d :: rest) /\
            dr_crs d = Some utm33n
      end) /\
   cp_axes tiles_properties =
     [cp_x_axis_label tiles_properties; cp_y_axis_label tiles_properties] /\
   (if projected utm33n
    then cp_crs_uri tiles_properties =
           ("http://www.opengis.net/def/crs/EPSG/9.8.15/"
            ++ fmt_opt_Z (to_epsg utm33n))%string /\
         cp_crs_type tiles_properties = "ProjectedCRS"%string /\
         cp_x_axis_label tiles_properties = "x"%string /\
         cp_y_axis_label tiles_properties = "y"%string /\
         exists u rest,
           units utm33n = u :: rest /\ cp_bbox_units tiles_properties = u
    else cp_crs_uri tiles_properties =
           "http://www.opengis.net/def/crs/OGC/1.3/CRS84"%string /\
         cp_crs_type tiles_properties = "GeographicCRS"%string /\
         cp_x_axis_label tiles_properties = "Lon"%string /\
         cp_y_axis_label tiles_properties = "Lat"%string /\
         cp_bbox_units tiles_properties = "deg"%string)).
Proof.
  split; [reflexivity |].
  apply (@coverage_crs_classification Q QNum QLibs tiles_cube "tiles"%string
           utm33n tiles_properties).
  reflexivity.
Defined.

Lemma constructed_provider_invariants_scenes :
  __init__ (cube one_slice) (provider_def None) = Ok (provider one_slice None)
  /\
  (nis_zero (cp_resx (_coverage_properties (provider one_slice None))) = false /\
   nis_zero (cp_resy (_coverage_properties (provider one_slice None))) = false /\
   (5 <= length (cp_transform (_coverage_properties (provider one_slice None))))%nat /\
   product_measurements (cube one_slice) (pd_product (provider_def None))
     <> None /\
   (forall ms,
      product_measurements (cube one_slice) (pd_product (provider_def None))
        = Some ms ->
      num_bands (provider one_slice None) = length ms) /\
   length (fields (provider one_slice None))
     = num_bands (provider one_slice None) /\
   forall (w : @window Q) bands,
     exists om, out_metadata (provider one_slice None) w bands = Ok om).
Proof.
  split; [reflexivity |].
  apply (@constructed_provider_invariants Q QNum QLibs (cube one_slice)
           (provider_def None) (provider one_slice None)).
  reflexivity.
Defined.

Lemma no_datasets_no_provider_scenes :
  find_datasets (cube one_slice)
    (pd_product nowhere_def) = Ok [] /\
  exists cause,
    __init__ (cube one_slice)
      nowhere_def
    = Raise (ProviderConnectionError cause).
Proof.
  split; [reflexivity |].
  apply (@no_datasets_no_provider Q QNum QLibs (cube one_slice)
           nowhere_def).
  reflexivity.
Defined.

Lemma unknown_product_raises_scenes :
  list_products (cube one_slice) = Ok product_rows /\
  (forall row, In row product_rows -> pr_name row <> "nowhere"%string) /\
  __init__ (cube one_slice)
    nowhere_def
  = Raise (ProviderConnectionError IndexError).
Proof.
  assert (Hrows : forall row, In row product_rows -> pr_name row <> "nowhere"%string).
  { intros row [<- | []]. discriminate. }
  split; [reflexivity |]. split; [exact Hrows |].
  apply (@unknown_product_raises Q QNum QLibs (cube one_slice)
           nowhere_def product_rows);
    [reflexivity | exact Hrows].
Defined.

Lemma measurement_properties_follow_table_scenes :
  _get_measurement_properties (cube one_slice) "scenes" = Ok scenes_measurements
  /\
  exists tables table,
    list_measurements (cube one_slice) = Ok tables /\
    dict_get "scenes" tables = Some table /\
    map (@mp_id Q) scenes_measurements = seq 1 (length (mt_rows table)) /\
    map (@mp_name Q) scenes_measurements = map (@mr_name Q) (mt_rows table) /\
    map (@mp_dtype Q) scenes_measurements = map (@mr_dtype Q) (mt_rows table) /\
    map (@mp_nodata Q) scenes_measurements = map (@mr_nodata Q) (mt_rows table) /\
    map (@mp_unit Q) scenes_measurements = map (@mr_units Q) (mt_rows table) /\
    map (@mp_aliases Q) scenes_measurements =
      map (fun r => if mt_has_aliases table then mr_aliases r else None)
        (mt_rows table).
Proof.
  split; [reflexivity |].
  apply (@measurement_properties_follow_table Q (cube one_slice)
           "scenes"%string scenes_measurements).
  reflexivity.
Defined.

Lemma rangetype_follows_table_scenes :
  __init__ (cube one_slice) (provider_def None) = Ok (provider one_slice None)
  /\
  exists tables table,
    list_measurements (cube one_slice) = Ok tables /\
    dict_get (pd_product (provider_def None)) tables = Some table /\
    let fields := rt_field (get_coverage_rangetype (provider one_slice None)) in
    map (@rf_id Q) fields = seq 1 (length (mt_rows table)) /\
    map (@rf_name Q) fields = map (@mr_name Q) (mt_rows table) /\
    map (@rf_definition Q) fields = map (@mr_dtype Q) (mt_rows table) /\
    map (@rf_nodata Q) fields = map (@mr_nodata Q) (mt_rows table) /\
    map (@rf_uom_code Q) fields = map (@mr_units Q) (mt_rows table) /\
    map (@rf_aliases Q) fields =
      map (fun r => if mt_has_aliases table then mr_aliases r else None)
        (mt_rows table).
Proof.
  split; [reflexivity |].
  apply (@rangetype_follows_table Q QNum QLibs (cube one_slice)
           (provider_def None) (provider one_slice None)).
  reflexivity.
Defined.

Lemma domainset_of_constructed_provider_tiles :
  __init__ tiles_cube tiles_def = Ok tiles_provider
  /\
  (let grid := dset_generalGrid (get_coverage_domainset tiles_provider) in
   gg_srsName grid = crs tiles_provider /\
   gg_axisLabels grid = axes tiles_provider /\
   map (@ra_axisLabel Q) (gg_axis grid) = axes tiles_provider /\
   (exists ax ay,
      gg_axis grid = [ax; ay] /\
      cp_bbox (_coverage_properties tiles_provider)
        = (ra_lowerBound ax, ra_lowerBound ay,
           ra_upperBound ax, ra_upperBound ay) /\
      ra_resolution ax = cp_resx (_coverage_properties tiles_provider) /\
      ra_resolution ay = cp_resy (_coverage_properties tiles_provider)) /\
   map (@ia_upperBound Q) (gl_axis (gg_gridLimits grid))
     = [cp_width (_coverage_properties tiles_provider);
        cp_height (_coverage_properties tiles_provider)]).
Proof.
  split; [reflexivity |].
  apply (@domainset_of_constructed_provider Q QNum QLibs tiles_cube tiles_def
           tiles_provider).
  reflexivity.
Defined.

End MoreRuns.
